(** * Grade tracker: record types and the JSON-backed grade repository

    A shallow embedding of [models.py] and [repository.py].

    Python values that live in the store are JSON data: the store's
    [_data] attribute is whatever [json.load] returned, and the record
    classes copy its entries without validation.  They are therefore
    modelled dynamically, as the type [json] below, and every Python
    operation that can raise does so explicitly in the [result] type.

    Conventions.
    - A Python [str] is represented by the [string] of its UTF-8 bytes.
      Substring tests and comparisons on valid UTF-8 agree with the ones
      on code points.  [str.lower] depends on the Unicode tables and is a
      parameter of the development ([lower]); [simple_lower] is its
      restriction to the Latin and Cyrillic letters of the examples.  A string with a lone surrogate has no
      UTF-8 encoding and is not represented.
    - Floats are not part of the model: no attribute of a record class
      is a float.  [Student.getRating], which divides and rounds floats,
      is left out for that reason.
    - A Python [dict] is an association list in insertion order, with
      string keys as in every record of the store; a valid dict has no
      duplicate key.
    - Integers are unbounded; the interpreter's limits on the number of
      digits in conversions between [int] and [str] and on the depth of
      recursion are not modelled.
    - [Grade] instances are objects in a heap, since [editGrade] assigns
      to their attributes; the instances of the other classes are never
      mutated after a getter returned them and are plain values.
    - Paths name files directly: directories, permissions and failing
      writes are not modelled. *)

From Stdlib Require Import ZArith String Ascii List Bool Lia.
From Stdlib Require DecimalPos DecimalFacts.
From stdpp Require Import base option list gmap strings.

Local Open Scope Z_scope.
Local Open Scope string_scope.
Local Open Scope list_scope.

(** ** JSON values *)

Unset Elimination Schemes.
Inductive json : Type :=
| JNull
| JBool (b : bool)
| JInt (z : Z)
| JStr (s : string)
| JList (l : list json)
| JDict (d : list (string * json)).
Set Elimination Schemes.

(** ** Python exceptions and fallible computations *)

(** The exceptions the modelled code can raise.  [NotModelled] is not
    one of them: it marks the inputs the model does not follow (a float
    in a document, an escaped surrogate, a comparison of two lists).
    [RecursionError] ends a decoder that ran out of fuel, which [loads]
    never does. *)
Inductive exn : Type :=
| KeyError (k : string)
| TypeError
| AttributeError
| ValueError
| JSONDecodeError
| RecursionError
| FileNotFoundError (p : string)
| NotModelled.

Inductive result (A : Type) : Type :=
| Ok (a : A)
| Raise (e : exn).
Arguments Ok {A} a.
Arguments Raise {A} e.

#[global] Instance result_ret : MRet result := fun A a => Ok a.
#[global] Instance result_bind : MBind result := fun A B k m =>
  match m with
  | Ok a => k a
  | Raise e => Raise e
  end.

(** A list comprehension whose element expression can raise: elements
    are evaluated left to right and the first exception propagates. *)
Fixpoint rmap {A B : Type} (f : A -> result B) (l : list A) : result (list B) :=
  match l with
  | [] => Ok []
  | x :: l' => y ← f x; ys ← rmap f l'; Ok (y :: ys)
  end.

(** ** Dictionaries with string keys *)

Fixpoint dict_lookup (k : string) (d : list (string * json)) : option json :=
  match d with
  | [] => None
  | (k', v) :: d' => if String.eqb k k' then Some v else dict_lookup k d'
  end.

(** [d[k] = v] on a dict: an existing key keeps its position. *)
Fixpoint dict_set (k : string) (v : json) (d : list (string * json)) : list (string * json) :=
  match d with
  | [] => [(k, v)]
  | (k', v') :: d' =>
      if String.eqb k k' then (k', v) :: d' else (k', v') :: dict_set k v d'
  end.

(** [dict(pairs)]: later pairs overwrite earlier ones. *)
Definition dict_of_pairs (ps : list (string * json)) : list (string * json) :=
  fold_left (fun d kv => dict_set (fst kv) (snd kv) d) ps [].

(** ** Python operators on JSON values *)

Definition Z_of_bool (b : bool) : Z := if b then 1 else 0.

(** [bool] is a subclass of [int]: [True == 1]. *)
Definition as_int (v : json) : option Z :=
  match v with
  | JInt z => Some z
  | JBool b => Some (Z_of_bool b)
  | _ => None
  end.

(** [v == n] for an integer [n]. *)
Definition eq_int (v : json) (n : Z) : bool :=
  match as_int v with
  | Some z => Z.eqb z n
  | None => false
  end.

(** [a == b]. *)
Fixpoint py_eq (a b : json) {struct a} : bool :=
  match a, b with
  | JNull, JNull => true
  | JBool x, _ => eq_int b (Z_of_bool x)
  | JInt x, _ => eq_int b x
  | JStr s, JStr t => String.eqb s t
  | JList l, JList m =>
      (fix go (l m : list json) {struct l} : bool :=
         match l, m with
         | [], [] => true
         | x :: l', y :: m' => py_eq x y && go l' m'
         | _, _ => false
         end) l m
  | JDict d, JDict e =>
      Nat.eqb (length d) (length e) &&
      (fix go (d : list (string * json)) {struct d} : bool :=
         match d with
         | [] => true
         | (k, v) :: d' =>
             match dict_lookup k e with
             | Some w => py_eq v w && go d'
             | None => false
             end
         end) d
  | _, _ => false
  end.

(** Lists and dicts are unhashable. *)
Definition hashable (v : json) : bool :=
  match v with
  | JList _ | JDict _ => false
  | _ => true
  end.

(** [v[k]] for a string subscript [k]. *)
Definition getitem (v : json) (k : string) : result json :=
  match v with
  | JDict d =>
      match dict_lookup k d with
      | Some x => Ok x
      | None => Raise (KeyError k)
      end
  | _ => Raise TypeError
  end.

(** [v.get(k, default)]; only dicts have a [get] attribute. *)
Definition get (v : json) (k : string) (default : json) : result json :=
  match v with
  | JDict d => Ok (match dict_lookup k d with Some x => x | None => default end)
  | _ => Raise AttributeError
  end.

(** [a in b] for two strings: [a] occurs in [b] as a contiguous block. *)
Fixpoint str_in (a b : string) : bool :=
  String.prefix a b ||
  match b with
  | EmptyString => false
  | String _ b' => str_in a b'
  end.

(** [x in c]: lists compare elements with [==], strings look for a
    substring, dicts look among their keys. *)
Definition contains (c x : json) : result bool :=
  match c with
  | JList l => Ok (existsb (fun e => py_eq e x) l)
  | JStr s =>
      match x with
      | JStr t => Ok (str_in t s)
      | _ => Raise TypeError
      end
  | JDict d =>
      match x with
      | JStr k => Ok (bool_decide (is_Some (dict_lookup k d)))
      | JList _ | JDict _ => Raise TypeError
      | _ => Ok false
      end
  | _ => Raise TypeError
  end.

(** [c.append(x)]; only lists have an [append] attribute. *)
Definition append (c x : json) : result json :=
  match c with
  | JList l => Ok (JList (l ++ [x]))
  | _ => Raise AttributeError
  end.

(** [iter(v)]: the elements a [for] loop or a comprehension runs over. *)
Definition iter (v : json) : result (list json) :=
  match v with
  | JList l => Ok l
  | JDict d => Ok (map (fun kv => JStr (fst kv)) d)
  | JStr s => Ok (map (fun c => JStr (String c EmptyString)) (list_ascii_of_string s))
  | _ => Raise TypeError
  end.

(** [str.lower] on the texts of the examples: the capitals of Basic
    Latin, and the Cyrillic capitals U+0400 to U+042F in their UTF-8
    encoding (lead byte 208, lower-case forms under the lead bytes 208
    and 209). *)
Definition ascii_lower_char (c : ascii) : ascii :=
  let n := nat_of_ascii c in
  if (Nat.leb 65 n && Nat.leb n 90)%bool then ascii_of_nat (n + 32) else c.

Fixpoint simple_lower (s : string) : string :=
  match s with
  | EmptyString => EmptyString
  | String c EmptyString => String (ascii_lower_char c) EmptyString
  | String c (String c2 s2 as s') =>
      let n := nat_of_ascii c2 in
      if Ascii.eqb c "208" then
        if (Nat.leb 128 n && Nat.leb n 143)%bool
        then String "209" (String (ascii_of_nat (n + 16)) (simple_lower s2))
        else if (Nat.leb 144 n && Nat.leb n 159)%bool
        then String "208" (String (ascii_of_nat (n + 32)) (simple_lower s2))
        else if (Nat.leb 160 n && Nat.leb n 175)%bool
        then String "209" (String (ascii_of_nat (n - 32)) (simple_lower s2))
        else String c (String c2 (simple_lower s2))
      else String (ascii_lower_char c) (simple_lower s')
  end.

(** ** Record types ([models.py]) *)

(** Attributes hold whatever the constructor was given: the classes
    check neither types nor ranges. *)

Module Grade.

Record t : Type := mk {
  id : json;
  value : json;
  assessmentType : json;
  studentId : json;
  disciplineId : json;
  teacherId : json;
  comment : json;
  date : json;
}.

(** [Grade.__init__]: [comment] defaults to the empty string at the call
    site; a [date] of [None] is replaced by [str(datetime.date.today())],
    passed here as [today]. *)
Definition __init__ (today : string)
  (id value assessmentType studentId disciplineId teacherId comment date : json) : t :=
  mk id value assessmentType studentId disciplineId teacherId comment
     (match date with JNull => JStr today | _ => date end).

Definition to_dict (self : t) : json :=
  JDict [("id", id self); ("value", value self);
         ("assessmentType", assessmentType self); ("date", date self);
         ("comment", comment self); ("studentId", studentId self);
         ("disciplineId", disciplineId self); ("teacherId", teacherId self)].

Definition from_dict (today : string) (data : json) : result t :=
  id ← getitem data "id";
  value ← getitem data "value";
  assessmentType ← getitem data "assessmentType";
  studentId ← getitem data "studentId";
  disciplineId ← getitem data "disciplineId";
  teacherId ← getitem data "teacherId";
  comment ← get data "comment" (JStr "");
  date ← get data "date" JNull;
  Ok (__init__ today id value assessmentType studentId disciplineId teacherId comment date).

End Grade.

Module Discipline.

Record t : Type := mk {
  id : json;
  name : json;
  semester : json;
  assessmentType : json;
}.

Definition to_dict (self : t) : json :=
  JDict [("id", id self); ("name", name self);
         ("semester", semester self); ("assessmentType", assessmentType self)].

Definition from_dict (data : json) : result t :=
  id ← getitem data "id";
  name ← getitem data "name";
  semester ← getitem data "semester";
  assessmentType ← getitem data "assessmentType";
  Ok (mk id name semester assessmentType).

End Discipline.

Module Search.

Record t : Type := mk {
  studentName : string;
  disciplineName : string;
  semester : option Z;
  assessmentType : string;
}.

(** [Search()] with every argument at its default. *)
Definition empty : t := mk "" "" None "".

End Search.

(** ** The [json] library: encoder

    [json.dump(obj, f, ensure_ascii=False, indent=2)] writes the chunks
    of [JSONEncoder.iterencode]: items on lines of their own, two spaces
    per nesting level, item separator [","] and key separator [": "]. *)

Module Json.

Local Open Scope char_scope.

Definition dquote : ascii := "034".
Definition newline : ascii := "010".

(** [int.__repr__]: decimal digits, most significant first. *)
Fixpoint digits (u : Decimal.uint) : list ascii :=
  match u with
  | Decimal.Nil => []
  | Decimal.D0 u' => "0" :: digits u'
  | Decimal.D1 u' => "1" :: digits u'
  | Decimal.D2 u' => "2" :: digits u'
  | Decimal.D3 u' => "3" :: digits u'
  | Decimal.D4 u' => "4" :: digits u'
  | Decimal.D5 u' => "5" :: digits u'
  | Decimal.D6 u' => "6" :: digits u'
  | Decimal.D7 u' => "7" :: digits u'
  | Decimal.D8 u' => "8" :: digits u'
  | Decimal.D9 u' => "9" :: digits u'
  end.

Definition intstr (z : Z) : list ascii :=
  match z with
  | Z0 => ["0"]
  | Zpos p => digits (Pos.to_uint p)
  | Zneg p => "-" :: digits (Pos.to_uint p)
  end.

Definition hex_digit (n : nat) : ascii :=
  nth n ["0"; "1"; "2"; "3"; "4"; "5"; "6"; "7"; "8"; "9"; "a"; "b"; "c"; "d"; "e"; "f"] "0".

(** [ESCAPE_DCT]: the quote, the backslash and the control characters
    are escaped; with [ensure_ascii=False] everything else is copied. *)
Definition escape_char (c : ascii) : list ascii :=
  match c with
  | "034" => ["\"; "034"]
  | "\" => ["\"; "\"]
  | "008" => ["\"; "b"]
  | "012" => ["\"; "f"]
  | "010" => ["\"; "n"]
  | "013" => ["\"; "r"]
  | "009" => ["\"; "t"]
  | _ =>
      let n := nat_of_ascii c in
      if Nat.ltb n 32
      then ["\"; "u"; "0"; "0"; hex_digit (Nat.div n 16); hex_digit (Nat.modulo n 16)]
      else [c]
  end.

Fixpoint escape (s : string) : list ascii :=
  match s with
  | EmptyString => []
  | String c s' => escape_char c ++ escape s'
  end.

Definition encode_basestring (s : string) : list ascii :=
  dquote :: escape s ++ [dquote].

Definition newline_indent (level : nat) : list ascii :=
  newline :: repeat " " (2 * level).

Fixpoint iterencode (o : json) (level : nat) {struct o} : list ascii :=
  match o with
  | JNull => ["n"; "u"; "l"; "l"]
  | JBool true => ["t"; "r"; "u"; "e"]
  | JBool false => ["f"; "a"; "l"; "s"; "e"]
  | JInt z => intstr z
  | JStr s => encode_basestring s
  | JList [] => ["["; "]"]
  | JList (x :: l) =>
      "[" :: newline_indent (S level) ++ iterencode x (S level) ++
      (fix rest (l : list json) : list ascii :=
         match l with
         | [] => []
         | y :: l' => "," :: newline_indent (S level) ++ iterencode y (S level) ++ rest l'
         end) l ++
      newline_indent level ++ ["]"]
  | JDict [] => ["{"; "}"]
  | JDict ((k, x) :: d) =>
      "{" :: newline_indent (S level) ++
      encode_basestring k ++ ":" :: " " :: iterencode x (S level) ++
      (fix rest (d : list (string * json)) : list ascii :=
         match d with
         | [] => []
         | (k', y) :: d' =>
             "," :: newline_indent (S level) ++
             encode_basestring k' ++ ":" :: " " :: iterencode y (S level) ++ rest d'
         end) d ++
      newline_indent level ++ ["}"]
  end.

Definition dumps (o : json) : string := string_of_list_ascii (iterencode o 0).

(** ** The [json] library: decoder

    [json.load] on the documents of the fragment modelled here.  A float
    literal or an escaped surrogate raises [NotModelled]. *)

Definition is_ws (c : ascii) : bool :=
  match c with
  | " " | "009" | "010" | "013" => true
  | _ => false
  end.

Fixpoint skip_ws (s : list ascii) : list ascii :=
  match s with
  | c :: s' => if is_ws c then skip_ws s' else s
  | [] => []
  end.

Definition digit_of_char (c : ascii) : option (Decimal.uint -> Decimal.uint) :=
  match c with
  | "0" => Some Decimal.D0
  | "1" => Some Decimal.D1
  | "2" => Some Decimal.D2
  | "3" => Some Decimal.D3
  | "4" => Some Decimal.D4
  | "5" => Some Decimal.D5
  | "6" => Some Decimal.D6
  | "7" => Some Decimal.D7
  | "8" => Some Decimal.D8
  | "9" => Some Decimal.D9
  | _ => None
  end.

Definition is_digit (c : ascii) : bool := bool_decide (is_Some (digit_of_char c)).

(** The longest run of decimal digits. *)
Fixpoint scan_digits (s : list ascii) : Decimal.uint * list ascii :=
  match s with
  | c :: s' =>
      match digit_of_char c with
      | Some d => let (u, r) := scan_digits s' in (d u, r)
      | None => (Decimal.Nil, s)
      end
  | [] => (Decimal.Nil, [])
  end.

(** The integer part of [NUMBER_RE]: a single zero, or a nonzero digit
    followed by as many digits as there are. *)
Definition scan_intpart (s : list ascii) : option (Decimal.uint * list ascii) :=
  match s with
  | "0" :: r => Some (Decimal.D0 Decimal.Nil, r)
  | c :: _ => if is_digit c then Some (scan_digits s) else None
  | [] => None
  end.

(** Does a fraction (a dot and a digit) or an exponent (an [e], an
    optional sign and a digit) follow? *)
Definition float_follows (s : list ascii) : bool :=
  match s with
  | "." :: c :: _ => is_digit c
  | "e" :: "-" :: c :: _ | "e" :: "+" :: c :: _
  | "E" :: "-" :: c :: _ | "E" :: "+" :: c :: _ => is_digit c
  | "e" :: c :: _ | "E" :: c :: _ => is_digit c
  | _ => false
  end.

Definition hex_val (c : ascii) : option N :=
  match c with
  | "0" => Some 0%N | "1" => Some 1%N | "2" => Some 2%N | "3" => Some 3%N
  | "4" => Some 4%N | "5" => Some 5%N | "6" => Some 6%N | "7" => Some 7%N
  | "8" => Some 8%N | "9" => Some 9%N
  | "a" | "A" => Some 10%N | "b" | "B" => Some 11%N | "c" | "C" => Some 12%N
  | "d" | "D" => Some 13%N | "e" | "E" => Some 14%N | "f" | "F" => Some 15%N
  | _ => None
  end.

Definition hex4 (a b c d : ascii) : option N :=
  match hex_val a, hex_val b, hex_val c, hex_val d with
  | Some x, Some y, Some z, Some w => Some (((x * 16 + y) * 16 + z) * 16 + w)%N
  | _, _, _, _ => None
  end.

(** The UTF-8 bytes of a code point of the basic plane. *)
Definition utf8 (n : N) : list ascii :=
  if (n <? 128)%N then [ascii_of_N n]
  else if (n <? 2048)%N then
    [ascii_of_N (192 + n / 64); ascii_of_N (128 + n mod 64)]
  else
    [ascii_of_N (224 + n / 4096); ascii_of_N (128 + (n / 64) mod 64);
     ascii_of_N (128 + n mod 64)].

Definition is_surrogate (n : N) : bool := ((55296 <=? n) && (n <=? 57343))%N.

(** [BACKSLASH]: the one-character escapes. *)
Definition backslash (c : ascii) : option ascii :=
  match c with
  | "034" => Some "034"
  | "\" => Some "\"
  | "/" => Some "/"
  | "b" => Some "008"
  | "f" => Some "012"
  | "n" => Some "010"
  | "r" => Some "013"
  | "t" => Some "009"
  | _ => None
  end.

Definition prepend (cs : list ascii) (s : string) : string :=
  fold_right String s cs.

(** [scanstring] in strict mode, from the character after the opening
    quote: the decoded string and the text after the closing quote. *)
Fixpoint scanstring (s : list ascii) : result (string * list ascii) :=
  match s with
  | [] => Raise JSONDecodeError
  | "034" :: r => Ok (EmptyString, r)
  | "\" :: [] => Raise JSONDecodeError
  | "\" :: "u" :: r =>
      match r with
      | h1 :: h2 :: h3 :: h4 :: r' =>
          match hex4 h1 h2 h3 h4 with
          | Some n =>
              if is_surrogate n then Raise NotModelled
              else
                match scanstring r' with
                | Ok (str, r'') => Ok (prepend (utf8 n) str, r'')
                | Raise e => Raise e
                end
          | None => Raise JSONDecodeError
          end
      | _ => Raise JSONDecodeError
      end
  | "\" :: e :: r =>
      match backslash e with
      | Some c =>
          match scanstring r with
          | Ok (str, r') => Ok (String c str, r')
          | Raise e => Raise e
          end
      | None => Raise JSONDecodeError
      end
  | c :: r =>
      if Nat.ltb (nat_of_ascii c) 32 then Raise JSONDecodeError
      else
        match scanstring r with
        | Ok (str, r') => Ok (String c str, r')
        | Raise e => Raise e
        end
  end.

(** A number of the integer grammar (an optional sign and an integer
    part), when one starts here. *)
Definition scan_number (s : list ascii) : option (result (json * list ascii)) :=
  let (neg, s1) := match s with
                   | "-" :: r => (true, r)
                   | _ => (false, s)
                   end in
  match scan_intpart s1 with
  | Some (u, r) =>
      Some (if float_follows r then Raise NotModelled
            else Ok (JInt (if neg : bool then - Z.of_uint u else Z.of_uint u), r))
  | None => None
  end.

Section Scanner.

(** [scan_once], as the array and object scanners receive it. *)
Variable scan : list ascii -> result (json * list ascii).

(** The loop of [JSONArray]: one value, then a closing bracket or a
    comma.  [n] bounds the number of values by the length of the text. *)
Fixpoint JSONArray_loop (n : nat) (s : list ascii) (values : list json)
  : result (list json * list ascii) :=
  match n with
  | O => Raise JSONDecodeError
  | S n' =>
      match scan s with
      | Raise e => Raise e
      | Ok (value, r) =>
          let values := values ++ [value] in
          match skip_ws r with
          | c :: r' =>
              if Ascii.eqb c "]" then Ok (values, r')
              else if Ascii.eqb c "," then JSONArray_loop n' (skip_ws r') values
              else Raise JSONDecodeError
          | [] => Raise JSONDecodeError
          end
      end
  end.

(** [JSONArray], from the character after the opening bracket. *)
Definition JSONArray (s : list ascii) : result (json * list ascii) :=
  match skip_ws s with
  | c :: r =>
      if Ascii.eqb c "]" then Ok (JList [], r)
      else
        match JSONArray_loop (S (length r)) (c :: r) [] with
        | Ok (values, r') => Ok (JList values, r')
        | Raise e => Raise e
        end
  | [] => Raise JSONDecodeError
  end.

(** The loop of [JSONObject], from the opening quote of a key. *)
Fixpoint JSONObject_loop (n : nat) (s : list ascii) (pairs : list (string * json))
  : result (list (string * json) * list ascii) :=
  match n with
  | O => Raise JSONDecodeError
  | S n' =>
      match s with
      | c :: s1 =>
          if Ascii.eqb c dquote then
            match scanstring s1 with
            | Raise e => Raise e
            | Ok (key, r) =>
                match skip_ws r with
                | c1 :: r1 =>
                    if Ascii.eqb c1 ":" then
                      match scan (skip_ws r1) with
                      | Raise e => Raise e
                      | Ok (value, r2) =>
                          let pairs := pairs ++ [(key, value)] in
                          match skip_ws r2 with
                          | c2 :: r' =>
                              if Ascii.eqb c2 "}" then Ok (pairs, r')
                              else if Ascii.eqb c2 ","
                              then JSONObject_loop n' (skip_ws r') pairs
                              else Raise JSONDecodeError
                          | [] => Raise JSONDecodeError
                          end
                      end
                    else Raise JSONDecodeError
                | [] => Raise JSONDecodeError
                end
            end
          else Raise JSONDecodeError
      | [] => Raise JSONDecodeError
      end
  end.

(** [JSONObject], from the character after the opening brace; the pairs
    become a dict. *)
Definition JSONObject (s : list ascii) : result (json * list ascii) :=
  match skip_ws s with
  | c :: r =>
      if Ascii.eqb c "}" then Ok (JDict [], r)
      else
        match JSONObject_loop (S (length r)) (c :: r) [] with
        | Ok (pairs, r') => Ok (JDict (dict_of_pairs pairs), r')
        | Raise e => Raise e
        end
  | [] => Raise JSONDecodeError
  end.

End Scanner.

Definition starts_with (p s : list ascii) : bool :=
  bool_decide (take (length p) s = p).

(** [scan_once]: one value at the start of the text.  [fuel] bounds the
    nesting depth. *)
Fixpoint scan_once (fuel : nat) (s : list ascii) {struct fuel}
  : result (json * list ascii) :=
  match fuel with
  | O => Raise RecursionError
  | S fuel' =>
      match s with
      | "034" :: r =>
          match scanstring r with
          | Ok (str, r') => Ok (JStr str, r')
          | Raise e => Raise e
          end
      | "{" :: r => JSONObject (scan_once fuel') r
      | "[" :: r => JSONArray (scan_once fuel') r
      | "n" :: "u" :: "l" :: "l" :: r => Ok (JNull, r)
      | "t" :: "r" :: "u" :: "e" :: r => Ok (JBool true, r)
      | "f" :: "a" :: "l" :: "s" :: "e" :: r => Ok (JBool false, r)
      | _ =>
          match scan_number s with
          | Some res => res
          | None =>
              if starts_with ["N"; "a"; "N"] s
                 || starts_with ["I"; "n"; "f"; "i"; "n"; "i"; "t"; "y"] s
                 || starts_with ["-"; "I"; "n"; "f"; "i"; "n"; "i"; "t"; "y"] s
              then Raise NotModelled
              else Raise JSONDecodeError
          end
      end
  end.

(** [json.loads]: one value between optional white space, nothing after
    it.  A value nests no deeper than the text is long. *)
Definition loads (doc : string) : result json :=
  let s := list_ascii_of_string doc in
  match scan_once (S (length s)) (skip_ws s) with
  | Ok (obj, r) =>
      match skip_ws r with
      | [] => Ok obj
      | _ => Raise JSONDecodeError
      end
  | Raise e => Raise e
  end.

End Json.

(** ** More Python operators *)

(** The number of code points of a string: its UTF-8 bytes that are not
    continuation bytes. *)
Fixpoint str_len (s : string) : nat :=
  match s with
  | EmptyString => O
  | String c s' =>
      let n := nat_of_ascii c in
      ((if Nat.leb 128 n && Nat.ltb n 192 then 0 else 1) + str_len s')%nat
  end.

(** [len(v)]. *)
Definition len (v : json) : result nat :=
  match v with
  | JList l => Ok (length l)
  | JDict d => Ok (length d)
  | JStr s => Ok (str_len s)
  | _ => Raise TypeError
  end.

(** [bool(v)]: empty containers, zero, [False] and [None] are falsy. *)
Definition truthy (v : json) : bool :=
  match v with
  | JNull => false
  | JBool b => b
  | JInt z => negb (Z.eqb z 0)
  | JStr s => negb (String.eqb s "")
  | JList l => match l with [] => false | _ => true end
  | JDict d => match d with [] => false | _ => true end
  end.

(** [a > b]: integers (and booleans) with integers, strings with
    strings.  Lists compare too in Python; that is not modelled. *)
Definition gt (a b : json) : result bool :=
  match as_int a, as_int b with
  | Some x, Some y => Ok (Z.ltb y x)
  | _, _ =>
      match a, b with
      | JStr s, JStr t => Ok (String.ltb t s)
      | JList _, JList _ => Raise NotModelled
      | _, _ => Raise TypeError
      end
  end.

(** [v + 1]. *)
Definition add1 (v : json) : result Z :=
  match as_int v with
  | Some z => Ok (z + 1)
  | None => Raise TypeError
  end.

(** [v.lower()], with the case mapping [lower] of [str]. *)
Definition str_lower (lower : string -> string) (v : json) : result string :=
  match v with
  | JStr s => Ok (lower s)
  | _ => Raise AttributeError
  end.

(** A Python dict with arbitrary hashable keys (the id indexes of
    [findGrades]), as an association list in insertion order. *)
Fixpoint index_set (k v : json) (d : list (json * json)) : list (json * json) :=
  match d with
  | [] => [(k, v)]
  | (k', v') :: d' =>
      if py_eq k' k then (k', v) :: d' else (k', v') :: index_set k v d'
  end.

Fixpoint index_lookup (k : json) (d : list (json * json)) : option json :=
  match d with
  | [] => None
  | (k', v) :: d' => if py_eq k' k then Some v else index_lookup k d'
  end.

(** [d.get(k, default)] on such a dict: the key is hashed first. *)
Definition index_get (d : list (json * json)) (k default : json) : result json :=
  if hashable k
  then Ok (match index_lookup k d with Some v => v | None => default end)
  else Raise TypeError.

(** [{s["id"]: s for s in records}]. *)
Fixpoint index_by_id (records : list json) (acc : list (json * json))
  : result (list (json * json)) :=
  match records with
  | [] => Ok acc
  | s :: records' =>
      k ← getitem s "id";
      if hashable k then index_by_id records' (index_set k s acc)
      else Raise TypeError
  end.

(** [[g for g in l if keep(g)]] with a condition that can raise. *)
Fixpoint rfilter {A : Type} (keep : A -> result bool) (l : list A) : result (list A) :=
  match l with
  | [] => Ok []
  | x :: l' =>
      b ← keep x;
      xs ← rfilter keep l';
      Ok (if b : bool then x :: xs else xs)
  end.

(** [l.remove(x)] on a list: the first element equal to [x] goes;
    [None] when there is none. *)
Fixpoint remove_first (x : json) (l : list json) : option (list json) :=
  match l with
  | [] => None
  | e :: l' =>
      if py_eq e x then Some l'
      else match remove_first x l' with
           | Some r => Some (e :: r)
           | None => None
           end
  end.

(** [c.remove(x)]; only lists have a [remove] attribute, and a list
    without [x] raises. *)
Definition remove (c x : json) : result json :=
  match c with
  | JList l =>
      match remove_first x l with
      | Some l' => Ok (JList l')
      | None => Raise ValueError
      end
  | _ => Raise AttributeError
  end.

(** ** The world a repository runs in *)

(** The repository object ([filePath], [_data]), the files on disk with
    the log of the paths written, the [Grade] instances created so far
    (a reference to one is its index) and the current date. *)
Record World : Type := mkWorld {
  filePath : string;
  _data : json;
  files : gmap string string;
  writes : list string;
  objects : list Grade.t;
  today : string;
}.

(** Computations that read and change the world and can raise.  The
    world at the point of the exception is kept. *)
Definition M (A : Type) : Type := World -> result A * World.

#[global] Instance M_ret : MRet M := fun A a w => (Ok a, w).
#[global] Instance M_bind : MBind M := fun A B k m w =>
  match m w with
  | (Ok a, w') => k a w'
  | (Raise e, w') => (Raise e, w')
  end.

Definition lift {A : Type} (r : result A) : M A := fun w => (r, w).

Definition read {A : Type} (f : World -> A) : M A := fun w => (Ok (f w), w).

Definition set_data (v : json) : M unit := fun w =>
  (Ok tt, mkWorld (filePath w) v (files w) (writes w) (objects w) (today w)).

Definition set_filePath (p : string) : M unit := fun w =>
  (Ok tt, mkWorld p (_data w) (files w) (writes w) (objects w) (today w)).

(** [open(path, "w")] and one write of the whole text. *)
Definition write_file (path text : string) : M unit := fun w =>
  (Ok tt, mkWorld (filePath w) (_data w) (<[path := text]> (files w))
                  (writes w ++ [path]) (objects w) (today w)).

(** [open(path, "r")] and one read of the whole text. *)
Definition read_file (path : string) : M string := fun w =>
  match files w !! path with
  | Some text => (Ok text, w)
  | None => (Raise (FileNotFoundError path), w)
  end.

(** A new [Grade] instance; the reference to it is returned. *)
Definition new_Grade (g : Grade.t) : M nat := fun w =>
  (Ok (length (objects w)),
   mkWorld (filePath w) (_data w) (files w) (writes w) (objects w ++ [g]) (today w)).

(** Attribute assignments [g.value = v] and [g.comment = c] on the
    instance behind a reference. *)
Definition set_value (r : nat) (v : json) : M unit := fun w =>
  (Ok tt, mkWorld (filePath w) (_data w) (files w) (writes w)
     (alter (fun g => Grade.mk (Grade.id g) v (Grade.assessmentType g)
                        (Grade.studentId g) (Grade.disciplineId g) (Grade.teacherId g)
                        (Grade.comment g) (Grade.date g)) r (objects w))
     (today w)).

Definition set_comment (r : nat) (c : json) : M unit := fun w =>
  (Ok tt, mkWorld (filePath w) (_data w) (files w) (writes w)
     (alter (fun g => Grade.mk (Grade.id g) (Grade.value g) (Grade.assessmentType g)
                        (Grade.studentId g) (Grade.disciplineId g) (Grade.teacherId g)
                        c (Grade.date g)) r (objects w))
     (today w)).

(** [self._data[k]] and [self._data[k] = v]. *)
Definition data_getitem (k : string) : M json :=
  d ← read _data; lift (getitem d k).

Definition data_setitem (k : string) (v : json) : M unit :=
  d ← read _data;
  match d with
  | JDict kvs => set_data (JDict (dict_set k v kvs))
  | _ => lift (Raise TypeError)
  end.

(** A [for] loop that threads the local variables [acc] through its
    body, in the order of the list. *)
Fixpoint for_each {A S : Type} (l : list A) (body : S -> A -> M S) (acc : S) : M S :=
  match l with
  | [] => mret acc
  | x :: l' => acc' ← body acc x; for_each l' body acc'
  end.

(** The instance behind a reference. *)
Definition deref (r : nat) : M Grade.t := fun w =>
  match objects w !! r with
  | Some g => (Ok g, w)
  | None => (Raise NotModelled, w)
  end.

(** What [models.py] asks of the [repo] argument of its methods: the
    attribute [filePath] and the methods [findGrades], [addGrade] and
    [saveToJSON]. *)
Record Repo : Type := mkRepo {
  repo_filePath : M string;
  repo_findGrades : Search.t -> M (list nat);
  repo_addGrade : Grade.t -> M unit;
  repo_saveToJSON : string -> M unit;
}.

Module Student.

Record t : Type := mk {
  id : json;
  fullName : json;
  email : json;
  passwordHash : json;
  graduateBookNumber : json;
  group : json;
}.

Definition role (self : t) : string := "Student".

(** [getGrades]: the search by the student's full name.  The criteria
    of the model hold text; a full name that is not text is not
    followed. *)
Definition getGrades (self : t) (repo : Repo) : M (list nat) :=
  match fullName self with
  | JStr name => repo_findGrades repo (Search.mk name "" None "")
  | _ => lift (Raise NotModelled)
  end.

Definition to_dict (self : t) : json :=
  let d := [("id", id self); ("fullName", fullName self);
            ("email", email self); ("passwordHash", passwordHash self)] in
  let d := dict_set "graduateBookNumber" (graduateBookNumber self) d in
  let d := dict_set "group" (group self) d in
  JDict d.

Definition from_dict (data : json) : result t :=
  id ← getitem data "id";
  fullName ← getitem data "fullName";
  email ← getitem data "email";
  passwordHash ← getitem data "passwordHash";
  graduateBookNumber ← getitem data "graduateBookNumber";
  group ← getitem data "group";
  Ok (mk id fullName email passwordHash graduateBookNumber group).

End Student.

Module Teacher.

Record t : Type := mk {
  id : json;
  fullName : json;
  email : json;
  passwordHash : json;
  department : json;
  position : json;
}.

Definition role (self : t) : string := "Teacher".

Definition to_dict (self : t) : json :=
  let d := [("id", id self); ("fullName", fullName self);
            ("email", email self); ("passwordHash", passwordHash self)] in
  let d := dict_set "department" (department self) d in
  let d := dict_set "position" (position self) d in
  JDict d.

Definition from_dict (data : json) : result t :=
  id ← getitem data "id";
  fullName ← getitem data "fullName";
  email ← getitem data "email";
  passwordHash ← getitem data "passwordHash";
  department ← getitem data "department";
  position ← getitem data "position";
  Ok (mk id fullName email passwordHash department position).

(** [submitGrade] and [editGrade] take any object with the methods of
    a repository ([repo]). *)
Definition submitGrade (self : t) (grade : Grade.t) (repo : Repo) : M unit :=
  repo_addGrade repo grade.

(** The loop of [editGrade] over the references in [grades]. *)
Fixpoint editGrade_loop (grades : list nat) (gradeId : Z) (newValue : Z)
  (comment : string) (repo : Repo) : M bool :=
  match grades with
  | [] => mret false
  | g :: grades' =>
      obj ← deref g;
      if eq_int (Grade.id obj) gradeId then
        _ ← set_value g (JInt newValue);
        _ ← set_comment g (JStr comment);
        path ← repo_filePath repo;
        _ ← repo_saveToJSON repo path;
        mret true
      else editGrade_loop grades' gradeId newValue comment repo
  end.

Definition editGrade (self : t) (gradeId : Z) (newValue : Z) (comment : string)
  (repo : Repo) : M bool :=
  grades ← repo_findGrades repo Search.empty;
  editGrade_loop grades gradeId newValue comment repo.

End Teacher.

Module Group.

Record t : Type := mk {
  id : json;
  name : json;
  specialty : json;
  enrollmentYear : json;
  _studentIds : json;
}.

(** [Group.__init__]: a [studentIds] of [None] becomes a new empty list. *)
Definition __init__ (id name specialty enrollmentYear studentIds : json) : t :=
  mk id name specialty enrollmentYear
     (match studentIds with JNull => JList [] | _ => studentIds end).

(** [addStudent] mutates the group; the group after the call is returned. *)
Definition addStudent (self : t) (student : Student.t) : result t :=
  present ← contains (_studentIds self) (Student.id student);
  if negb present then
    ids ← append (_studentIds self) (Student.id student);
    Ok (mk (id self) (name self) (specialty self) (enrollmentYear self) ids)
  else Ok self.

(** [removeStudent] mutates the group; the group after the call is
    returned beside the answer. *)
Definition removeStudent (self : t) (studentId : Z) : result (t * bool) :=
  present ← contains (_studentIds self) (JInt studentId);
  if present : bool then
    ids ← remove (_studentIds self) (JInt studentId);
    Ok (mk (id self) (name self) (specialty self) (enrollmentYear self) ids, true)
  else Ok (self, false).

Definition to_dict (self : t) : json :=
  JDict [("id", id self); ("name", name self); ("specialty", specialty self);
         ("enrollmentYear", enrollmentYear self); ("studentIds", _studentIds self)].

Definition from_dict (data : json) : result t :=
  id ← getitem data "id";
  name ← getitem data "name";
  specialty ← getitem data "specialty";
  enrollmentYear ← getitem data "enrollmentYear";
  studentIds ← get data "studentIds" (JList []);
  Ok (__init__ id name specialty enrollmentYear studentIds).

End Group.

(** ** The repository ([repository.py]) *)

Module GradeRepository.

(** *** Persistence *)

(** [saveToJSON]: the directory of [path] is created when missing
    (directories are not modelled: every path can be written), and the
    whole of [_data] is written over the file. *)
Definition saveToJSON (path : string) : M unit :=
  d ← read _data;
  write_file path (Json.dumps d).

Definition loadFromJSON (path : string) : M unit :=
  text ← read_file path;
  d ← lift (Json.loads text);
  set_data d.

(** [os.path.exists]. *)
Definition exists_ (path : string) : M bool :=
  read (fun w => bool_decide (is_Some (files w !! path))).

(** [__init__]: a repository on [path], loaded from the file when there
    is one. *)
Definition __init__ (path : string) : M unit :=
  _ ← set_filePath path;
  _ ← set_data (JDict [("students", JList []); ("teachers", JList []);
                       ("disciplines", JList []); ("grades", JList []);
                       ("groups", JList [])]);
  there ← exists_ path;
  if there : bool then loadFromJSON path else mret tt.

(** *** Grades *)

Definition addGrade (grade : Grade.t) : M unit :=
  grades ← data_getitem "grades";
  grades' ← lift (append grades (Grade.to_dict grade));
  _ ← data_setitem "grades" grades';
  path ← read filePath;
  saveToJSON path.

Definition removeGrade (id : Z) : M bool :=
  grades ← data_getitem "grades";
  original_len ← lift (len grades);
  grades ← data_getitem "grades";
  gs ← lift (iter grades);
  kept ← lift (rfilter (fun g => i ← getitem g "id"; Ok (negb (eq_int i id))) gs);
  _ ← data_setitem "grades" (JList kept);
  if Nat.ltb (length kept) original_len then
    path ← read filePath;
    _ ← saveToJSON path;
    mret true
  else mret false.

Section Find.

(** [str.lower]. *)
Variable lower : string -> string.

(** The body of the loop of [findGrades] up to its last statement:
    [false] when one of the four tests ends the iteration ([continue]),
    [true] when the grade is to be appended. *)
Definition keeps (criteria : Search.t) (students disciplines : list (json * json))
  (gd : json) : result bool :=
  sid ← getitem gd "studentId";
  student ← index_get students sid (JDict []);
  did ← getitem gd "disciplineId";
  discipline ← index_get disciplines did (JDict []);
  skip ← (if negb (String.eqb (Search.studentName criteria) "") then
            name ← get student "fullName" (JStr "");
            low ← str_lower lower name;
            Ok (negb (str_in (lower (Search.studentName criteria)) low))
          else Ok false);
  if skip : bool then Ok false else
  skip ← (if negb (String.eqb (Search.disciplineName criteria) "") then
            name ← get discipline "name" (JStr "");
            low ← str_lower lower name;
            Ok (negb (str_in (lower (Search.disciplineName criteria)) low))
          else Ok false);
  if skip : bool then Ok false else
  skip ← (match Search.semester criteria with
          | Some n =>
              sem ← get discipline "semester" JNull;
              Ok (negb (eq_int sem n))
          | None => Ok false
          end);
  if skip : bool then Ok false else
  skip ← (if negb (String.eqb (Search.assessmentType criteria) "") then
            ty ← get gd "assessmentType" (JStr "");
            low ← str_lower lower ty;
            Ok (negb (String.eqb (lower (Search.assessmentType criteria)) low))
          else Ok false);
  if skip : bool then Ok false else Ok true.

(** One iteration of the loop of [findGrades] on the record [gd]; the
    local variable [result] holds the references to the [Grade]
    instances appended so far. *)
Definition findGrades_iteration (criteria : Search.t)
  (students disciplines : list (json * json)) (result : list nat) (gd : json)
  : M (list nat) :=
  keep ← lift (keeps criteria students disciplines gd);
  if keep : bool then
    now ← read today;
    g ← lift (Grade.from_dict now gd);
    r ← new_Grade g;
    mret (result ++ [r])
  else mret result.

(** The result is the list of the references to the new [Grade]
    instances. *)
Definition findGrades (criteria : Search.t) : M (list nat) :=
  ss ← data_getitem "students";
  ss ← lift (iter ss);
  students ← lift (index_by_id ss []);
  ds ← data_getitem "disciplines";
  ds ← lift (iter ds);
  disciplines ← lift (index_by_id ds []);
  grades ← data_getitem "grades";
  gs ← lift (iter grades);
  for_each gs (findGrades_iteration criteria students disciplines) [].

End Find.

(** *** Getters *)

Definition getStudents : M (list Student.t) :=
  ss ← data_getitem "students";
  ss ← lift (iter ss);
  lift (rmap Student.from_dict ss).

Definition getTeachers : M (list Teacher.t) :=
  ts ← data_getitem "teachers";
  ts ← lift (iter ts);
  lift (rmap Teacher.from_dict ts).

Definition getDisciplines : M (list Discipline.t) :=
  ds ← data_getitem "disciplines";
  ds ← lift (iter ds);
  lift (rmap Discipline.from_dict ds).

Definition getGroups : M (list Group.t) :=
  gs ← data_getitem "groups";
  gs ← lift (iter gs);
  lift (rmap Group.from_dict gs).

(** The scan of the by-id getters: the first record whose ["id"] equals
    the argument, or [None]. *)
Fixpoint first_by_id (records : list json) (n : Z) : result (option json) :=
  match records with
  | [] => Ok None
  | s :: records' =>
      i ← getitem s "id";
      if eq_int i n then Ok (Some s) else first_by_id records' n
  end.

Definition by_id {T : Type} (collection : string) (from_dict : json -> result T)
  (n : Z) : M (option T) :=
  rs ← data_getitem collection;
  rs ← lift (iter rs);
  found ← lift (first_by_id rs n);
  match found with
  | Some s => x ← lift (from_dict s); mret (Some x)
  | None => mret None
  end.

Definition getStudentById (studentId : Z) : M (option Student.t) :=
  by_id "students" Student.from_dict studentId.

Definition getDisciplineById (disciplineId : Z) : M (option Discipline.t) :=
  by_id "disciplines" Discipline.from_dict disciplineId.

Definition getTeacherById (teacherId : Z) : M (option Teacher.t) :=
  by_id "teachers" Teacher.from_dict teacherId.

(** The grade found is a new instance; its reference is returned. *)
Definition getGradeById (gradeId : Z) : M (option nat) :=
  now ← read today;
  found ← by_id "grades" (Grade.from_dict now) gradeId;
  match found with
  | Some g => r ← new_Grade g; mret (Some r)
  | None => mret None
  end.

(** [max(g["id"] for g in grades)]: each id is read when the loop
    reaches its record and replaces the best so far when it is greater. *)
Fixpoint max_id_loop (grades : list json) (best : json) : result json :=
  match grades with
  | [] => Ok best
  | g :: grades' =>
      item ← getitem g "id";
      b ← gt item best;
      max_id_loop grades' (if b : bool then item else best)
  end.

Definition max_id (grades : list json) : result json :=
  match grades with
  | [] => Raise ValueError
  | g :: grades' => first ← getitem g "id"; max_id_loop grades' first
  end.

Definition nextGradeId : M Z :=
  grades ← data_getitem "grades";
  if negb (truthy grades) then mret 1 else
  grades ← data_getitem "grades";
  gs ← lift (iter grades);
  m ← lift (max_id gs);
  lift (add1 m).

(** The repository as the [repo] argument of the methods of
    [models.py]. *)
Definition as_repo (lower : string -> string) : Repo :=
  mkRepo (read filePath) (findGrades lower) addGrade saveToJSON.

End GradeRepository.

(** ** Vocabulary of the specification *)

(** The collection [name] of the store, when [_data] is a dict that
    holds a list under that key. *)
Definition collection (name : string) (w : World) : option (list json) :=
  match _data w with
  | JDict d =>
      match dict_lookup name d with
      | Some (JList l) => Some l
      | _ => None
      end
  | _ => None
  end.

(** The value of a key of a record, if the record has it. *)
Definition field (record : json) (k : string) : option json :=
  match record with
  | JDict d => dict_lookup k d
  | _ => None
  end.

Definition is_int (o : option json) : bool :=
  match o with Some (JInt _) => true | _ => false end.

Definition is_str (o : option json) : bool :=
  match o with Some (JStr _) => true | _ => false end.

Definition opt_int (o : option json) : bool :=
  match o with None | Some (JInt _) => true | _ => false end.

Definition opt_str (o : option json) : bool :=
  match o with None | Some (JStr _) => true | _ => false end.

Definition present (o : option json) : bool :=
  match o with Some _ => true | None => false end.

(** Records as they are typed in the data model.  A student needs an
    integer id for the search; its name, when there, is text. *)
Definition student_ok (s : json) : bool :=
  is_int (field s "id") && opt_str (field s "fullName").

Definition discipline_ok (d : json) : bool :=
  is_int (field d "id") && opt_str (field d "name") && opt_int (field d "semester").

(** A grade record has the six required keys; the two foreign keys the
    search follows are integers and the assessment type is text. *)
Definition grade_ok (g : json) : bool :=
  present (field g "id") && present (field g "value") &&
  is_str (field g "assessmentType") && is_int (field g "studentId") &&
  is_int (field g "disciplineId") && present (field g "teacherId").

(** The text and the number under a key; the defaults stand for an
    absent key. *)
Definition text (record : json) (k : string) : string :=
  match field record k with
  | Some (JStr s) => s
  | _ => ""
  end.

Definition number (record : json) (k : string) : option Z :=
  match field record k with
  | Some (JInt n) => Some n
  | _ => None
  end.

Definition has_id (n : Z) (record : json) : bool :=
  match number record "id" with
  | Some m => Z.eqb m n
  | None => false
  end.

(** The record an id resolves to: the one stored under that id (the last
    one, should several share it), or the empty record. *)
Definition resolve (records : list json) (n : option Z) : json :=
  match n with
  | Some n => default (JDict []) (last (List.filter (has_id n) records))
  | None => JDict []
  end.

(** [a] occurs in [b]. *)
Definition substring_of (a b : string) : Prop :=
  exists pre post : string, b = pre +:+ a +:+ post.

Section Criteria.

Variable lower : string -> string.

Definition ci_substring (needle hay : string) : Prop :=
  substring_of (lower needle) (lower hay).

Definition ci_equal (a b : string) : Prop := lower a = lower b.

(** A grade record satisfies the criteria when it passes each filter
    whose field is set. *)
Definition satisfies (criteria : Search.t) (students disciplines : list json)
  (gd : json) : Prop :=
  let student := resolve students (number gd "studentId") in
  let discipline := resolve disciplines (number gd "disciplineId") in
  (Search.studentName criteria <> "" ->
     ci_substring (Search.studentName criteria) (text student "fullName")) /\
  (Search.disciplineName criteria <> "" ->
     ci_substring (Search.disciplineName criteria) (text discipline "name")) /\
  (forall n, Search.semester criteria = Some n -> number discipline "semester" = Some n) /\
  (Search.assessmentType criteria <> "" ->
     ci_equal (Search.assessmentType criteria) (text gd "assessmentType")).

End Criteria.

(** [Selected P l l']: [l'] keeps, in order, exactly the elements of [l]
    that have [P]. *)
Inductive Selected {A : Type} (P : A -> Prop) : list A -> list A -> Prop :=
| Selected_nil : Selected P [] []
| Selected_keep x l l' : P x -> Selected P l l' -> Selected P (x :: l) (x :: l')
| Selected_drop x l l' : ~ P x -> Selected P l l' -> Selected P (x :: l) l'.

(** The world with other [Grade] instances and nothing else changed. *)
Definition with_objects (w : World) (objs : list Grade.t) : World :=
  mkWorld (filePath w) (_data w) (files w) (writes w) objs (today w).

(** The repository and the disk are the same in two worlds. *)
Definition same_store (w w' : World) : Prop :=
  filePath w' = filePath w /\ _data w' = _data w /\
  files w' = files w /\ writes w' = writes w.

(** A valid JSON value: no dict has a key twice. *)
Fixpoint valid (v : json) : bool :=
  match v with
  | JList l => forallb valid l
  | JDict d =>
      bool_decide (NoDup (map fst d)) &&
      (fix go (d : list (string * json)) : bool :=
         match d with
         | [] => true
         | (_, x) :: d' => valid x && go d'
         end) d
  | _ => true
  end.

(** The keys each [from_dict] subscripts, in the order it reads them. *)
Definition Student_required : list string :=
  ["id"; "fullName"; "email"; "passwordHash"; "graduateBookNumber"; "group"].
Definition Teacher_required : list string :=
  ["id"; "fullName"; "email"; "passwordHash"; "department"; "position"].
Definition Grade_required : list string :=
  ["id"; "value"; "assessmentType"; "studentId"; "disciplineId"; "teacherId"].
Definition Discipline_required : list string :=
  ["id"; "name"; "semester"; "assessmentType"].
Definition Group_required : list string :=
  ["id"; "name"; "specialty"; "enrollmentYear"].

Definition missing (required : list string) (d : list (string * json)) : list string :=
  List.filter (fun k => negb (present (dict_lookup k d))) required.

(** The value of a key the record is known to have ([JNull] stands for
    the impossible case). *)
Definition at_key (d : list (string * json)) (k : string) : json :=
  default JNull (dict_lookup k d).

(** The integer ids of a list of records. *)
Definition ids_of (records : list json) : list Z :=
  omap (fun r => number r "id") records.

(** The objects deserialization is specified to build: each required
    attribute is the value under its key, as it is; an optional one
    falls back on its default. *)
Definition Student_of (d : list (string * json)) : Student.t :=
  Student.mk (at_key d "id") (at_key d "fullName") (at_key d "email")
    (at_key d "passwordHash") (at_key d "graduateBookNumber") (at_key d "group").

Definition Teacher_of (d : list (string * json)) : Teacher.t :=
  Teacher.mk (at_key d "id") (at_key d "fullName") (at_key d "email")
    (at_key d "passwordHash") (at_key d "department") (at_key d "position").

Definition Grade_of (today : string) (d : list (string * json)) : Grade.t :=
  Grade.mk (at_key d "id") (at_key d "value") (at_key d "assessmentType")
    (at_key d "studentId") (at_key d "disciplineId") (at_key d "teacherId")
    (default (JStr "") (dict_lookup "comment" d))
    (match dict_lookup "date" d with
     | None | Some JNull => JStr today
     | Some v => v
     end).

Definition Discipline_of (d : list (string * json)) : Discipline.t :=
  Discipline.mk (at_key d "id") (at_key d "name") (at_key d "semester")
    (at_key d "assessmentType").

Definition Group_of (d : list (string * json)) : Group.t :=
  Group.mk (at_key d "id") (at_key d "name") (at_key d "specialty")
    (at_key d "enrollmentYear")
    (match dict_lookup "studentIds" d with
     | None | Some JNull => JList []
     | Some v => v
     end).

(** What the specification asks of a [from_dict]: it raises exactly when
    a required key is absent, the exception is the [KeyError] of such a
    key, and otherwise it builds the object above from any values. *)
Definition from_dict_spec {T : Type} (from_dict : json -> result T)
  (required : list string) (build : list (string * json) -> T) : Prop :=
  forall d : list (string * json),
    ((exists e, from_dict (JDict d) = Raise e) <->
     (exists k, In k required /\ dict_lookup k d = None)) /\
    (forall e, from_dict (JDict d) = Raise e ->
       exists k, e = KeyError k /\ In k required /\ dict_lookup k d = None) /\
    ((forall k, In k required -> dict_lookup k d <> None) ->
       from_dict (JDict d) = Ok (build d)).

(** The functional form of that contract: the first required key that is
    absent decides. *)
Definition from_dict_contract {T : Type} (from_dict : json -> result T)
  (required : list string) (build : list (string * json) -> T) : Prop :=
  forall d,
    from_dict (JDict d) =
    match missing required d with
    | k :: _ => Raise (KeyError k)
    | [] => Ok (build d)
    end.

(** A record with an integer id. *)
Definition has_int_id (record : json) : bool := is_int (field record "id").

(** A computation that leaves the repository and the disk as they were,
    whether it returns or raises. *)
Definition preserves {A : Type} (m : M A) : Prop :=
  forall w, same_store w (snd (m w)).

(** ** Auxiliary definitions for the proofs *)

(** Induction on JSON values, with the hypothesis for every element of a
    list and every value of a dict. *)
Definition json_ind (P : json -> Prop)
  (HNull : P JNull)
  (HBool : forall b, P (JBool b))
  (HInt : forall z, P (JInt z))
  (HStr : forall s, P (JStr s))
  (HList : forall l, Forall P l -> P (JList l))
  (HDict : forall d, Forall (fun kv => P (snd kv)) d -> P (JDict d)) :
  forall v, P v :=
  fix go (v : json) : P v :=
    match v with
    | JNull => HNull
    | JBool b => HBool b
    | JInt z => HInt z
    | JStr s => HStr s
    | JList l =>
        HList l
          ((fix all (l : list json) : Forall P l :=
              match l with
              | [] => @List.Forall_nil _ P
              | x :: l' => @List.Forall_cons _ P x l' (go x) (all l')
              end) l)
    | JDict d =>
        HDict d
          ((fix all (d : list (string * json)) : Forall (fun kv => P (snd kv)) d :=
              match d with
              | [] => @List.Forall_nil _ _
              | kv :: d' => @List.Forall_cons _ _ kv d' (go (snd kv)) (all d')
              end) d)
    end.

(** The items of a list after the first, each behind its separator, as
    [iterencode] writes them at nesting [level]. *)
Fixpoint list_rest (level : nat) (l : list json) : list ascii :=
  match l with
  | [] => []
  | y :: l' =>
      "," %char :: Json.newline_indent (S level) ++
      Json.iterencode y (S level) ++ list_rest level l'
  end.

(** The same for the items of a dict. *)
Fixpoint dict_rest (level : nat) (d : list (string * json)) : list ascii :=
  match d with
  | [] => []
  | (k, y) :: d' =>
      "," %char :: Json.newline_indent (S level) ++
      Json.encode_basestring k ++ ":" %char :: " " %char ::
      Json.iterencode y (S level) ++ dict_rest level d'
  end.

(** What may follow a number in a document: the end of the text, a
    comma or a line break. *)
Definition delimited (rest : list ascii) : Prop :=
  match rest with
  | [] => True
  | c :: _ => c = "," %char \/ c = Json.newline
  end.

(** The first character of an encoded value: no white space, no closing
    bracket or brace, no comma. *)
Definition value_head (s : list ascii) : Prop :=
  match s with
  | c :: _ =>
      Json.is_ws c = false /\ c <> "]" %char /\ c <> "}" %char /\ c <> "," %char
  | [] => False
  end.

(** The claim about [removeGrade] as the specification words it: the
    record is erased exactly once, that is, one record goes. *)
Definition removeGrade_erases_exactly_one : Prop :=
  forall (id : Z) (w : World) (gs : list json),
    collection "grades" w = Some gs ->
    forallb has_int_id gs = true ->
    existsb (has_id id) gs = true ->
    exists (w' : World) (gs' : list json),
      GradeRepository.removeGrade id w = (Ok true, w') /\
      collection "grades" w' = Some gs' /\
      length gs = S (length gs').

(** The claim about [editGrade] as the specification words it: after a
    successful edit the stored record has the new value and comment. *)
Definition editGrade_updates_store (lower : string -> string) : Prop :=
  forall (self : Teacher.t) (gradeId newValue : Z) (comment : string)
         (w w' : World) (gs gs' : list json),
    collection "grades" w = Some gs ->
    existsb (has_id gradeId) gs = true ->
    Teacher.editGrade self gradeId newValue comment (GradeRepository.as_repo lower) w
    = (Ok true, w') ->
    collection "grades" w' = Some gs' ->
    forall g, g ∈ gs' -> has_id gradeId g = true ->
      field g "value" = Some (JInt newValue) /\ field g "comment" = Some (JStr comment).

(** ** Example data: the store of the repository's tests *)

Definition seed_students : list json :=
  [JDict [("id", JInt 1); ("fullName", JStr "Арзамасов Сергей Дмитриевич");
          ("email", JStr "a@a.ru"); ("passwordHash", JStr "h1");
          ("graduateBookNumber", JStr "23-001"); ("group", JStr "САУ-23-1б")];
   JDict [("id", JInt 2); ("fullName", JStr "Иванова Мария Петровна");
          ("email", JStr "i@i.ru"); ("passwordHash", JStr "h2");
          ("graduateBookNumber", JStr "23-002"); ("group", JStr "САУ-23-1б")]].

Definition seed_teachers : list json :=
  [JDict [("id", JInt 1); ("fullName", JStr "Русских Елена Романовна");
          ("email", JStr "r@r.ru"); ("passwordHash", JStr "th1");
          ("department", JStr "Каф. ПИ"); ("position", JStr "Доцент")]].

Definition seed_disciplines : list json :=
  [JDict [("id", JInt 1); ("name", JStr "Программная инженерия");
          ("semester", JInt 4); ("assessmentType", JStr "экзамен")];
   JDict [("id", JInt 2); ("name", JStr "Базы данных");
          ("semester", JInt 3); ("assessmentType", JStr "зачёт")]].

Definition seed_groups : list json :=
  [JDict [("id", JInt 1); ("name", JStr "САУ-23-1б"); ("specialty", JStr "Автоматизация");
          ("enrollmentYear", JInt 2023); ("studentIds", JList [JInt 1; JInt 2])]].

Definition seed_grades : list json :=
  [JDict [("id", JInt 1); ("value", JInt 5); ("assessmentType", JStr "экзамен");
          ("date", JStr "2024-06-15"); ("comment", JStr "Отлично");
          ("studentId", JInt 1); ("disciplineId", JInt 1); ("teacherId", JInt 1)];
   JDict [("id", JInt 2); ("value", JInt 4); ("assessmentType", JStr "зачёт");
          ("date", JStr "2024-06-18"); ("comment", JStr "");
          ("studentId", JInt 2); ("disciplineId", JInt 2); ("teacherId", JInt 1)];
   JDict [("id", JInt 3); ("value", JInt 3); ("assessmentType", JStr "экзамен");
          ("date", JStr "2024-06-15"); ("comment", JStr "Удовл.");
          ("studentId", JInt 2); ("disciplineId", JInt 1); ("teacherId", JInt 1)]].

(** The [SEED] of [test_repository.py], with [grades] for its grades. *)
Definition store_of (grades : list json) : json :=
  JDict [("students", JList seed_students); ("teachers", JList seed_teachers);
         ("disciplines", JList seed_disciplines); ("groups", JList seed_groups);
         ("grades", JList grades)].

(** A repository on [data.json] that holds the seed, nothing on disk
    yet and no [Grade] instance. *)
Definition seed_world : World :=
  mkWorld "data.json" (store_of seed_grades) ∅ [] [] "2024-06-20".

(** The same store after two grades were added under the id 1. *)
Definition twin_grades : list json :=
  [JDict [("id", JInt 1); ("value", JInt 5); ("assessmentType", JStr "экзамен");
          ("date", JStr "2024-06-15"); ("comment", JStr "");
          ("studentId", JInt 1); ("disciplineId", JInt 1); ("teacherId", JInt 1)];
   JDict [("id", JInt 1); ("value", JInt 2); ("assessmentType", JStr "зачёт");
          ("date", JStr "2024-06-16"); ("comment", JStr "");
          ("studentId", JInt 2); ("disciplineId", JInt 2); ("teacherId", JInt 1)]].

Definition twin_world : World :=
  mkWorld "data.json" (store_of twin_grades) ∅ [] [] "2024-06-20".

Definition seed_teacher : Teacher.t :=
  Teacher.mk (JInt 1) (JStr "Русских Елена Романовна") (JStr "r@r.ru")
    (JStr "th1") (JStr "Каф. ПИ") (JStr "Доцент").

Definition seed_group : Group.t :=
  Group.mk (JInt 1) (JStr "САУ-23-1б") (JStr "Автоматизация") (JInt 2023)
    (JList [JInt 1; JInt 2]).

Definition student_2 : Student.t :=
  Student.mk (JInt 2) (JStr "Иванова Мария Петровна") (JStr "i@i.ru") (JStr "h2")
    (JStr "23-002") (JStr "САУ-23-1б").

Definition new_grade : Grade.t :=
  Grade.mk (JInt 4) (JInt 4) (JStr "КР") (JInt 1) (JInt 2) (JInt 1)
    (JStr "") (JStr "2024-06-20").

(** ** Reading the outcome of a run *)

#[global] Instance result_fmap : FMap result := fun A B f m =>
  match m with
  | Ok a => Ok (f a)
  | Raise e => Raise e
  end.

(** The answer of a computation and the world after it. *)
Definition answer {A : Type} (m : M A) (w : World) : result A := fst (m w).
Definition after {A : Type} (m : M A) (w : World) : World := snd (m w).

(** The [Grade] instances a search returns, read in the world after the
    search. *)
Definition found (criteria : Search.t) (w : World) : result (list Grade.t) :=
  match GradeRepository.findGrades simple_lower criteria w with
  | (Ok refs, w') => Ok (omap (fun r => objects w' !! r) refs)
  | (Raise e, _) => Raise e
  end.

(** A world before any repository was created. *)
Definition blank : World := mkWorld "" JNull ∅ [] [] "2024-06-20".

(** The repository double of the tests of [editGrade]: [findGrades]
    returns the grades it was given and [saveToJSON] only leaves a
    trace. *)
Definition fake_repo (grades : list nat) : Repo :=
  mkRepo (mret "fake.json") (fun _ => mret grades) (fun _ => mret tt)
         (fun path w =>
            (Ok tt, mkWorld (filePath w) (_data w) (files w) (writes w ++ [path])
                      (objects w) (today w))).

(** The [grade] fixture of the tests, as the only instance of a world. *)
Definition fixture_world : World :=
  mkWorld "" JNull ∅ []
    [Grade.mk (JInt 1) (JInt 5) (JStr "экзамен") (JInt 1) (JInt 1) (JInt 1)
       (JStr "Отлично") (JStr "2024-06-15")]
    "2024-06-20".

(** ** Vocabulary of the further properties *)

(** The store [__init__] starts from. *)
Definition empty_store : json :=
  JDict [("students", JList []); ("teachers", JList []);
         ("disciplines", JList []); ("grades", JList []);
         ("groups", JList [])].

(** The repository's file holds the store that is in memory. *)
Definition synced (w : World) : Prop :=
  files w !! filePath w = Some (Json.dumps (_data w)).

(** The group with other members. *)
Definition with_members (g : Group.t) (ids : list Z) : Group.t :=
  Group.mk (Group.id g) (Group.name g) (Group.specialty g) (Group.enrollmentYear g)
    (JList (map JInt ids)).

(** A record with every key of [required]. *)
Definition complete (required : list string) (record : json) : bool :=
  match record with
  | JDict d => forallb (fun k => present (dict_lookup k d)) required
  | _ => false
  end.

(** The scan of a by-id getter for [n] over [before ++ rest]: it passes
    the records of [before], which have integer ids other than [n], and
    stops at the head of [rest], the first record of id [n]; an empty
    [rest] is the scan to the end. *)
Definition scan_stops (n : Z) (before rest : list json) : Prop :=
  forallb has_int_id before = true /\
  existsb (has_id n) before = false /\
  match rest with
  | [] => True
  | s :: _ => has_id n s = true
  end.

(** The answer of a by-id getter whose scan stopped there. *)
Definition scan_answer {T : Type} (from_dict : json -> result T) (rest : list json)
  : result (option T) :=
  match rest with
  | [] => Ok None
  | s :: _ => Some <$> from_dict s
  end.

(** The instance after the two assignments of [editGrade]. *)
Definition edited (g : Grade.t) (value comment : json) : Grade.t :=
  Grade.mk (Grade.id g) value (Grade.assessmentType g) (Grade.studentId g)
    (Grade.disciplineId g) (Grade.teacherId g) comment (Grade.date g).

(** The test of the loop of [editGrade]: [g.id == gradeId]. *)
Definition has_grade_id (n : Z) (g : Grade.t) : bool := eq_int (Grade.id g) n.

(** The instances after [editGrade] went through them: the first one
    with the id has the new value and comment. *)
Fixpoint edit_first (n : Z) (value comment : json) (gs : list Grade.t) : list Grade.t :=
  match gs with
  | [] => []
  | g :: gs' =>
      if has_grade_id n g then edited g value comment :: gs'
      else g :: edit_first n value comment gs'
  end.

(** The student of a grade record is named like [name]: the test of the
    search [getGrades] makes, which an empty name does not restrict. *)
Definition named_like (lower : string -> string) (name : string) (students : list json)
  (gd : json) : Prop :=
  name <> "" ->
  ci_substring lower name (text (resolve students (number gd "studentId")) "fullName").

(** * Proofs *)

(** ** The repository's tests, run on the model

    The seed is the one of [test_repository.py], and [simple_lower]
    stands for [str.lower]. *)

Example test_empty_repo_no_file :
  answer (GradeRepository.__init__ "new_data.json" ≫= fun _ => GradeRepository.getStudents)
    blank = Ok [] /\
  found Search.empty (after (GradeRepository.__init__ "new_data.json") blank) = Ok [].
Proof. split; reflexivity. Qed.

Example test_find_all : length <$> found Search.empty seed_world = Ok 3%nat.
Proof. reflexivity. Qed.

Example test_find_by_student_name :
  map Grade.studentId <$> found (Search.mk "Арзамасов" "" None "") seed_world
  = Ok [JInt 1].
Proof. reflexivity. Qed.

Example test_find_by_student_name_case_insensitive :
  length <$> found (Search.mk "арзамасов" "" None "") seed_world = Ok 1%nat.
Proof. reflexivity. Qed.

Example test_find_by_discipline :
  length <$> found (Search.mk "" "Программная инженерия" None "") seed_world = Ok 2%nat.
Proof. reflexivity. Qed.

Example test_find_by_semester :
  map Grade.disciplineId <$> found (Search.mk "" "" (Some 3) "") seed_world
  = Ok [JInt 2].
Proof. reflexivity. Qed.

Example test_find_by_assessment_type_case_insensitive :
  length <$> found (Search.mk "" "" None "экзамен") seed_world = Ok 2%nat /\
  length <$> found (Search.mk "" "" None "ЭКЗАМЕН") seed_world = Ok 2%nat.
Proof. split; reflexivity. Qed.

Example test_find_combined :
  map Grade.value <$> found (Search.mk "Иванова" "" None "зачёт") seed_world
  = Ok [JInt 4].
Proof. reflexivity. Qed.

Example test_find_no_match :
  found (Search.mk "Несуществующий" "" None "") seed_world = Ok [].
Proof. reflexivity. Qed.

Example test_next_grade_id :
  answer GradeRepository.nextGradeId seed_world = Ok 4 /\
  answer GradeRepository.nextGradeId
    (after (GradeRepository.__init__ "new_data.json") blank) = Ok 1.
Proof. split; reflexivity. Qed.

Example test_remove_grade :
  answer (GradeRepository.removeGrade 1) seed_world = Ok true /\
  answer (GradeRepository.getGradeById 1)
    (after (GradeRepository.removeGrade 1) seed_world) = Ok None /\
  answer (GradeRepository.removeGrade 9999) seed_world = Ok false.
Proof. repeat split; reflexivity. Qed.

(** A grade added under the next id is there, with its attributes, after
    a new repository is created on the file. *)
Example test_add_grade_persists :
  let w1 := after (GradeRepository.addGrade new_grade) seed_world in
  let w2 := after (GradeRepository.__init__ "data.json") w1 in
  length <$> found Search.empty w1 = Ok 4%nat /\
  last <$> found Search.empty w2 = Ok (Some new_grade).
Proof. split; vm_compute; reflexivity. Qed.

Example test_getters :
  length <$> answer GradeRepository.getStudents seed_world = Ok 2%nat /\
  length <$> answer GradeRepository.getTeachers seed_world = Ok 1%nat /\
  length <$> answer GradeRepository.getDisciplines seed_world = Ok 2%nat /\
  map Group.name <$> answer GradeRepository.getGroups seed_world
  = Ok [JStr "САУ-23-1б"] /\
  answer (GradeRepository.getStudentById 9999) seed_world = Ok None /\
  answer (GradeRepository.getTeacherById 1) seed_world = Ok (Some seed_teacher).
Proof. repeat split; reflexivity. Qed.

(** With the double, the instance the repository returned is the one
    the test holds, and the test sees the edit. *)
Example test_edit_grade_success :
  let w' := after (Teacher.editGrade seed_teacher 1 3 "Пересдача" (fake_repo [0%nat]))
              fixture_world in
  answer (Teacher.editGrade seed_teacher 1 3 "Пересдача" (fake_repo [0%nat])) fixture_world
  = Ok true /\
  (Grade.value <$> objects w' !! 0%nat) = Some (JInt 3) /\
  (Grade.comment <$> objects w' !! 0%nat) = Some (JStr "Пересдача") /\
  writes w' = ["fake.json"].
Proof. repeat split; reflexivity. Qed.

Example test_edit_grade_not_found :
  answer (Teacher.editGrade seed_teacher 999 4 "" (fake_repo [])) fixture_world
  = Ok false.
Proof. reflexivity. Qed.

Example test_from_dict_default_comment :
  Grade.comment <$>
    Grade.from_dict "2024-06-20"
      (JDict [("id", JInt 4); ("value", JInt 5); ("assessmentType", JStr "зачёт");
              ("studentId", JInt 1); ("disciplineId", JInt 1); ("teacherId", JInt 1)])
  = Ok (JStr "").
Proof. reflexivity. Qed.

Example test_add_student :
  Group.addStudent seed_group student_2 = Ok seed_group /\
  Group._studentIds <$>
    Group.addStudent seed_group
      (Student.mk (JInt 99) (JStr "Новый") (JStr "n@n.ru") (JStr "h") (JStr "0") (JStr "X"))
  = Ok (JList [JInt 1; JInt 2; JInt 99]).
Proof. split; reflexivity. Qed.

(** The layout of [json.dump] with [indent=2]. *)
Example dumps_layout :
  Json.dumps (JList [JInt (-12); JList []; JDict []; JNull; JBool true]) =
"[
  -12,
  [],
  {},
  null,
  true
]".
Proof. reflexivity. Qed.

(** ** Dictionaries *)

Lemma dict_lookup_set_eq k v d : dict_lookup k (dict_set k v d) = Some v.
Proof.
  induction d as [|[k' v'] d IH]; simpl.
  - rewrite String.eqb_refl. reflexivity.
  - destruct (String.eqb_spec k k') as [->|Hne]; simpl.
    + rewrite String.eqb_refl. reflexivity.
    + destruct (String.eqb_spec k k'); [contradiction | exact IH].
Qed.

Lemma dict_lookup_set_ne k k' v d :
  k <> k' -> dict_lookup k' (dict_set k v d) = dict_lookup k' d.
Proof.
  intros Hne. induction d as [|[k0 v0] d IH]; simpl.
  - destruct (String.eqb_spec k' k); [congruence | reflexivity].
  - destruct (String.eqb_spec k k0) as [->|Hk]; simpl.
    + destruct (String.eqb_spec k' k0); [congruence | reflexivity].
    + destruct (String.eqb_spec k' k0); [reflexivity | exact IH].
Qed.

Lemma dict_set_same k v d : dict_lookup k d = Some v -> dict_set k v d = d.
Proof.
  induction d as [|[k' v'] d IH]; simpl; [discriminate|].
  destruct (String.eqb_spec k k') as [->|Hne].
  - intros [= ->]. reflexivity.
  - intros H. rewrite (IH H). reflexivity.
Qed.

(** ** Running computations *)

#[global] Arguments Json.dumps : simpl never.
#[global] Arguments Json.loads : simpl never.


Lemma run_bind {A B : Type} (m : M A) (k : A -> M B) (w : World) :
  (m ≫= k) w =
  match m w with
  | (Ok a, w') => k a w'
  | (Raise e, w') => (Raise e, w')
  end.
Proof. reflexivity. Qed.

Lemma run_bind_ok {A B : Type} (m : M A) (k : A -> M B) (w w' : World) (a : A) :
  m w = (Ok a, w') -> (m ≫= k) w = k a w'.
Proof. intros H. rewrite run_bind, H. reflexivity. Qed.

Lemma run_bind_raise {A B : Type} (m : M A) (k : A -> M B) (w w' : World) (e : exn) :
  m w = (Raise e, w') -> (m ≫= k) w = (Raise e, w').
Proof. intros H. rewrite run_bind, H. reflexivity. Qed.

Lemma collection_data name w l :
  collection name w = Some l ->
  exists d, _data w = JDict d /\ dict_lookup name d = Some (JList l).
Proof.
  unfold collection. destruct (_data w) as [| | | | |d]; try discriminate.
  destruct (dict_lookup name d) as [[]|] eqn:E; try discriminate.
  intros [= ->]. eauto.
Qed.

Lemma data_getitem_collection name w l :
  collection name w = Some l -> data_getitem name w = (Ok (JList l), w).
Proof.
  intros H. apply collection_data in H as (d & Hd & Hl).
  unfold data_getitem. rewrite run_bind. unfold read, lift, getitem.
  rewrite Hd, Hl. reflexivity.
Qed.

(** ** Adding a grade *)

(** C10: [addGrade] puts the serialization of the grade at the end of
    the grades collection, leaves every other entry of the store as it
    was, and writes the new store to the repository's file. *)
Theorem addGrade_appends (grade : Grade.t) (w : World) (gs : list json) :
  collection "grades" w = Some gs ->
  exists w',
    GradeRepository.addGrade grade w = (Ok tt, w') /\
    collection "grades" w' = Some (gs ++ [Grade.to_dict grade]) /\
    (forall name, name <> "grades" -> field (_data w') name = field (_data w) name) /\
    collection "students" w' = collection "students" w /\
    collection "teachers" w' = collection "teachers" w /\
    collection "disciplines" w' = collection "disciplines" w /\
    collection "groups" w' = collection "groups" w /\
    files w' = <[filePath w := Json.dumps (_data w')]> (files w) /\
    writes w' = writes w ++ [filePath w] /\
    filePath w' = filePath w /\ objects w' = objects w.
Proof.
  intros Hc. unfold GradeRepository.addGrade.
  rewrite run_bind, (data_getitem_collection _ _ _ Hc).
  apply collection_data in Hc as (d & Hd & Hl).
  unfold data_setitem, GradeRepository.saveToJSON.
  unfold mbind, M_bind, read, lift, set_data, write_file. cbn. rewrite Hd. cbn.
  eexists. split; [reflexivity|].
  unfold collection, field. cbn. rewrite Hd.
  rewrite dict_lookup_set_eq.
  assert (Hother : forall name, name <> "grades" ->
            dict_lookup name (dict_set "grades" (JList (gs ++ [Grade.to_dict grade])) d)
            = dict_lookup name d).
  { intros name Hn. apply dict_lookup_set_ne. congruence. }
  repeat split; try (rewrite Hother by discriminate; reflexivity).
  exact Hother.
Qed.

(** ** Deserialization of the record types *)

Ltac lookup_cases :=
  repeat match goal with
  | |- context [dict_lookup ?k ?d] =>
      let E := fresh "E" in destruct (dict_lookup k d) eqn:E; simpl; try reflexivity
  end.

Lemma missing_In required d k :
  In k (missing required d) <-> In k required /\ dict_lookup k d = None.
Proof.
  unfold missing. rewrite filter_In.
  destruct (dict_lookup k d); simpl; intuition congruence.
Qed.

Lemma contract_spec {T : Type} (from_dict : json -> result T) required build :
  from_dict_contract from_dict required build ->
  from_dict_spec from_dict required build.
Proof.
  intros C d. specialize (C d).
  destruct (missing required d) as [|k ks] eqn:Em.
  - assert (None_missing : forall k, In k required -> dict_lookup k d <> None).
    { intros k Hk Hn.
      assert (In k (missing required d)) as Hin by (apply missing_In; auto).
      rewrite Em in Hin. destruct Hin. }
    repeat split.
    + intros [e He]. congruence.
    + intros (k & Hk & Hn). destruct (None_missing k Hk Hn).
    + intros e He. congruence.
    + intros _. exact C.
  - assert (In k (missing required d)) as Hin by (rewrite Em; left; reflexivity).
    apply missing_In in Hin as [Hk Hn].
    repeat split.
    + intros _. eauto.
    + intros _. eauto.
    + intros e He. exists k. split; [congruence | auto].
    + intros Hall. destruct (Hall k Hk Hn).
Qed.

Lemma Student_from_dict_contract :
  from_dict_contract Student.from_dict Student_required Student_of.
Proof.
  intros d. unfold Student.from_dict, Student_of, missing, Student_required, at_key, getitem.
  simpl. lookup_cases.
Qed.

Lemma Teacher_from_dict_contract :
  from_dict_contract Teacher.from_dict Teacher_required Teacher_of.
Proof.
  intros d. unfold Teacher.from_dict, Teacher_of, missing, Teacher_required, at_key, getitem.
  simpl. lookup_cases.
Qed.

Lemma Grade_from_dict_contract today :
  from_dict_contract (Grade.from_dict today) Grade_required (Grade_of today).
Proof.
  intros d.
  unfold Grade.from_dict, Grade_of, missing, Grade_required, at_key, getitem, get.
  simpl. lookup_cases.
Qed.

Lemma Discipline_from_dict_contract :
  from_dict_contract Discipline.from_dict Discipline_required Discipline_of.
Proof.
  intros d.
  unfold Discipline.from_dict, Discipline_of, missing, Discipline_required, at_key, getitem.
  simpl. lookup_cases.
Qed.

Lemma Group_from_dict_contract :
  from_dict_contract Group.from_dict Group_required Group_of.
Proof.
  intros d.
  unfold Group.from_dict, Group_of, missing, Group_required, at_key, getitem, get.
  simpl. lookup_cases.
Qed.

(** C7: each [from_dict] raises the [KeyError] of a required key exactly
    when such a key is absent from the record; when none is, it builds
    the object from the values as they are, whatever their type or
    range, with the empty comment, the current date and the empty member
    list for the optional keys. *)
Theorem from_dict_missing_field (today : string) :
  from_dict_spec Student.from_dict Student_required Student_of /\
  from_dict_spec Teacher.from_dict Teacher_required Teacher_of /\
  from_dict_spec (Grade.from_dict today) Grade_required (Grade_of today) /\
  from_dict_spec Discipline.from_dict Discipline_required Discipline_of /\
  from_dict_spec Group.from_dict Group_required Group_of.
Proof.
  split; [|split; [|split; [|split]]]; apply contract_spec.
  - apply Student_from_dict_contract.
  - apply Teacher_from_dict_contract.
  - apply Grade_from_dict_contract.
  - apply Discipline_from_dict_contract.
  - apply Group_from_dict_contract.
Qed.

(** ** Group membership *)

Lemma contains_ints (ids : list Z) (sid : Z) :
  existsb (fun e => py_eq e (JInt sid)) (map JInt ids) = bool_decide (sid ∈ ids).
Proof.
  induction ids as [|i ids IH]; simpl.
  - reflexivity.
  - rewrite IH. unfold eq_int. simpl.
    destruct (Z.eqb_spec sid i) as [->|Hne]; simpl.
    + symmetry. apply bool_decide_eq_true. left.
    + apply bool_decide_ext. rewrite elem_of_cons. intuition congruence.
Qed.

Lemma addStudent_ints (g : Group.t) (s : Student.t) (ids : list Z) (sid : Z) :
  Group._studentIds g = JList (map JInt ids) ->
  Student.id s = JInt sid ->
  Group.addStudent g s =
  Ok (if bool_decide (sid ∈ ids) then g
      else Group.mk (Group.id g) (Group.name g) (Group.specialty g)
             (Group.enrollmentYear g) (JList (map JInt (ids ++ [sid])))).
Proof.
  intros Hg Hs. unfold Group.addStudent. rewrite Hg, Hs. simpl.
  rewrite contains_ints.
  destruct (bool_decide (sid ∈ ids)); simpl; [reflexivity|].
  rewrite map_app. reflexivity.
Qed.

(** C8: on a group whose members are integer ids, [addStudent] succeeds,
    the student's id is a member afterwards, a list without duplicates
    stays without duplicates, and adding a student with the same id
    again leaves the group as it is. *)
Theorem addStudent_no_duplicate (g : Group.t) (s : Student.t) (ids : list Z) (sid : Z) :
  Group._studentIds g = JList (map JInt ids) ->
  Student.id s = JInt sid ->
  exists (g' : Group.t) (ids' : list Z),
    Group.addStudent g s = Ok g' /\
    Group._studentIds g' = JList (map JInt ids') /\
    sid ∈ ids' /\
    (sid ∈ ids -> g' = g) /\
    (sid ∉ ids -> ids' = ids ++ [sid]) /\
    (NoDup ids -> NoDup ids') /\
    (forall s2 : Student.t, Student.id s2 = JInt sid -> Group.addStudent g' s2 = Ok g').
Proof.
  intros Hg Hs. rewrite (addStudent_ints g s ids sid Hg Hs).
  destruct (bool_decide (sid ∈ ids)) eqn:Hin.
  - apply bool_decide_eq_true in Hin.
    exists g, ids. repeat split; auto.
    + intros Hn. contradiction.
    + intros s2 Hs2. rewrite (addStudent_ints g s2 ids sid Hg Hs2).
      rewrite bool_decide_eq_true_2 by assumption. reflexivity.
  - apply bool_decide_eq_false in Hin.
    eexists _, (ids ++ [sid]). repeat split; simpl; auto.
    + apply elem_of_app. right. left.
    + intros Hn. contradiction.
    + intros Hnd. apply NoDup_app. repeat split; auto.
      * intros x Hx Hx'. apply list_elem_of_singleton in Hx'. subst. contradiction.
      * apply NoDup_singleton.
    + intros s2 Hs2.
      erewrite addStudent_ints; [| reflexivity | exact Hs2].
      rewrite bool_decide_eq_true_2; [reflexivity|].
      apply elem_of_app. right. left.
Qed.

(** ** Records with integer ids *)

Lemma has_int_id_inv g :
  has_int_id g = true ->
  exists d n, g = JDict d /\ dict_lookup "id" d = Some (JInt n).
Proof.
  unfold has_int_id, field. destruct g as [| | | | |d]; simpl; try discriminate.
  destruct (dict_lookup "id" d) as [[]|] eqn:E; simpl; try discriminate.
  eauto.
Qed.

Lemma has_int_id_getitem g :
  has_int_id g = true ->
  exists n, getitem g "id" = Ok (JInt n) /\ number g "id" = Some n /\
            forall m, has_id m g = Z.eqb n m.
Proof.
  intros H. apply has_int_id_inv in H as (d & n & -> & Hd).
  exists n. unfold getitem, number, has_id, number, field. rewrite Hd. auto.
Qed.

Lemma ids_of_cons g gs n :
  number g "id" = Some n -> ids_of (g :: gs) = n :: ids_of gs.
Proof. intros H. unfold ids_of. simpl. rewrite H. reflexivity. Qed.

Lemma ids_of_spec gs :
  forallb has_int_id gs = true ->
  Forall2 (fun g i => field g "id" = Some (JInt i)) gs (ids_of gs).
Proof.
  induction gs as [|g gs IH]; intros H.
  - constructor.
  - simpl in H. apply andb_prop in H as [Hg Hgs].
    destruct (has_int_id_inv g Hg) as (d & n & -> & Hd).
    rewrite (ids_of_cons _ _ n) by (unfold number, field; rewrite Hd; reflexivity).
    constructor; auto.
Qed.

Lemma has_id_elem_of gs n :
  forallb has_int_id gs = true ->
  existsb (has_id n) gs = true <-> n ∈ ids_of gs.
Proof.
  induction gs as [|g gs IH]; intros H.
  - split; [discriminate | intros Hin; inversion Hin].
  - simpl in H. apply andb_prop in H as [Hg Hgs]. cbn [existsb].
    destruct (has_int_id_getitem g Hg) as (m & _ & Hnum & Hid).
    rewrite (ids_of_cons _ _ m Hnum), elem_of_cons, orb_true_iff, (IH Hgs), Hid.
    rewrite Z.eqb_eq. intuition congruence.
Qed.

(** ** Removing a grade *)

Lemma rfilter_ids (id : Z) (gs : list json) :
  forallb has_int_id gs = true ->
  rfilter (fun g => getitem g "id" ≫= fun i => Ok (negb (eq_int i id))) gs
  = Ok (List.filter (fun g => negb (has_id id g)) gs).
Proof.
  induction gs as [|g gs IH]; simpl; intros H; [reflexivity|].
  apply andb_prop in H as [Hg Hgs].
  destruct (has_int_id_getitem g Hg) as (n & Hget & _ & Hid).
  rewrite Hget, (IH Hgs), Hid. simpl. unfold eq_int. simpl.
  destruct (Z.eqb n id); reflexivity.
Qed.

Lemma filter_negb_length {A : Type} (p : A -> bool) (l : list A) :
  (length (List.filter (fun x => negb (p x)) l) <=? length l)%nat = true /\
  ((length (List.filter (fun x => negb (p x)) l) <? length l)%nat = existsb p l).
Proof.
  induction l as [|x l [IH1 IH2]]; simpl; [auto|].
  apply Nat.leb_le in IH1.
  destruct (p x); simpl.
  - split; [apply Nat.leb_le; lia | apply Nat.ltb_lt; lia].
  - split; [apply Nat.leb_le; lia |].
    rewrite <- IH2.
    destruct (Nat.ltb_spec (length (List.filter (fun x => negb (p x)) l)) (length l));
      [apply Nat.ltb_lt | apply Nat.ltb_ge]; lia.
Qed.

Lemma filter_negb_none {A : Type} (p : A -> bool) (l : list A) :
  existsb p l = false -> List.filter (fun x => negb (p x)) l = l.
Proof.
  induction l as [|x l IH]; simpl; [reflexivity|].
  intros H. apply orb_false_elim in H as [Hx Hl].
  rewrite Hx. simpl. rewrite (IH Hl). reflexivity.
Qed.

Lemma filter_unique_id (id : Z) (gs : list json) :
  forallb has_int_id gs = true ->
  NoDup (ids_of gs) ->
  existsb (has_id id) gs = true ->
  length gs = S (length (List.filter (fun g => negb (has_id id g)) gs)).
Proof.
  induction gs as [|g gs IH]; intros H Hnd Hex; [discriminate|].
  simpl in H. apply andb_prop in H as [Hg Hgs]. cbn [List.filter].
  destruct (has_int_id_getitem g Hg) as (n & _ & Hnum & Hid).
  rewrite (ids_of_cons _ _ n Hnum) in Hnd. apply NoDup_cons in Hnd as [Hnotin Hnd].
  destruct (has_id id g) eqn:Hgid; simpl.
  - rewrite Hid in Hgid. apply Z.eqb_eq in Hgid. subst n.
    rewrite filter_negb_none; [reflexivity|].
    destruct (existsb (has_id id) gs) eqn:E; [|reflexivity].
    apply has_id_elem_of in E; [contradiction | assumption].
  - simpl in Hex. rewrite Hgid in Hex. simpl in Hex.
    rewrite <- (IH Hgs Hnd Hex). reflexivity.
Qed.

Lemma world_eta w :
  mkWorld (filePath w) (_data w) (files w) (writes w) (objects w) (today w) = w.
Proof. destruct w. reflexivity. Qed.

(** What [removeGrade] does on a grades collection with integer ids. *)
Lemma removeGrade_run (id : Z) (w : World) (gs : list json) (d : list (string * json)) :
  _data w = JDict d ->
  dict_lookup "grades" d = Some (JList gs) ->
  forallb has_int_id gs = true ->
  GradeRepository.removeGrade id w =
  let kept := List.filter (fun g => negb (has_id id g)) gs in
  let w1 := mkWorld (filePath w) (JDict (dict_set "grades" (JList kept) d))
              (files w) (writes w) (objects w) (today w) in
  if existsb (has_id id) gs
  then (Ok true, mkWorld (filePath w1) (_data w1)
                   (<[filePath w1 := Json.dumps (_data w1)]> (files w1))
                   (writes w1 ++ [filePath w1]) (objects w1) (today w1))
  else (Ok false, w1).
Proof.
  intros Hd Hl Hids.
  assert (Hc : collection "grades" w = Some gs)
    by (unfold collection; rewrite Hd, Hl; reflexivity).
  destruct (filter_negb_length (has_id id) gs) as [_ Hlt]. rewrite <- Hlt.
  unfold GradeRepository.removeGrade.
  erewrite run_bind_ok by (apply data_getitem_collection; exact Hc).
  erewrite run_bind_ok by reflexivity.
  erewrite run_bind_ok by (apply data_getitem_collection; exact Hc).
  erewrite run_bind_ok by reflexivity.
  erewrite run_bind_ok by (unfold lift; rewrite (rfilter_ids id gs Hids); reflexivity).
  destruct w as [fp dat fl wr ob td]. simpl in Hd. subst dat.
  erewrite run_bind_ok by reflexivity. cbv zeta.
  destruct (length (List.filter (fun g => negb (has_id id g)) gs) <? length gs)%nat;
    reflexivity.
Qed.

(** C5, as the code has it: when some grade has the id, [removeGrade]
    answers [True], erases every record with that id and no other (one
    record when the ids are unique) and writes the store; when none has,
    it answers [False] and changes nothing, neither in memory nor on
    disk. *)
Theorem removeGrade_erases_matching (id : Z) (w : World) (gs : list json) :
  collection "grades" w = Some gs ->
  forallb has_int_id gs = true ->
  (existsb (has_id id) gs = true ->
   exists w',
     GradeRepository.removeGrade id w = (Ok true, w') /\
     collection "grades" w' = Some (List.filter (fun g => negb (has_id id g)) gs) /\
     (forall name, name <> "grades" -> field (_data w') name = field (_data w) name) /\
     files w' = <[filePath w := Json.dumps (_data w')]> (files w) /\
     writes w' = writes w ++ [filePath w] /\
     (NoDup (ids_of gs) ->
      length gs = S (length (List.filter (fun g => negb (has_id id g)) gs)))) /\
  (existsb (has_id id) gs = false ->
   GradeRepository.removeGrade id w = (Ok false, w)).
Proof.
  intros Hc Hids.
  destruct (collection_data _ _ _ Hc) as (d & Hd & Hl).
  rewrite (removeGrade_run id w gs d Hd Hl Hids). cbv zeta.
  split; intros Hex; rewrite Hex.
  - eexists. split; [reflexivity|]. cbn.
    unfold collection, field. cbn. rewrite Hd, dict_lookup_set_eq.
    repeat split.
    + intros name Hn. apply dict_lookup_set_ne. congruence.
    + intros Hnd. apply filter_unique_id; assumption.
  - rewrite (filter_negb_none _ _ Hex), (dict_set_same _ _ _ Hl), <- Hd.
    rewrite world_eta. reflexivity.
Qed.

(** The claim as worded fails on a store with two grades under one id:
    both records go. *)
Lemma removeGrade_erases_both_twins : ~ removeGrade_erases_exactly_one.
Proof.
  intros H.
  destruct (H 1 twin_world twin_grades eq_refl eq_refl eq_refl)
    as (w' & gs' & Hrun & Hc & Hlen).
  rewrite (removeGrade_run 1 twin_world twin_grades _ eq_refl eq_refl eq_refl) in Hrun.
  cbv zeta in Hrun. cbn [existsb has_id number field twin_grades dict_lookup] in Hrun.
  injection Hrun as <-. vm_compute in Hc. injection Hc as <-. discriminate Hlen.
Qed.

(** ** The next grade id *)

Lemma max_id_loop_ints (gs : list json) (best : Z) :
  forallb has_int_id gs = true ->
  GradeRepository.max_id_loop gs (JInt best)
  = Ok (JInt (fold_left Z.max (ids_of gs) best)).
Proof.
  revert best. induction gs as [|g gs IH]; intros best H; [reflexivity|].
  simpl in H. apply andb_prop in H as [Hg Hgs].
  destruct (has_int_id_getitem g Hg) as (n & Hget & Hnum & _).
  rewrite (ids_of_cons _ _ n Hnum). cbn [GradeRepository.max_id_loop fold_left].
  rewrite Hget. cbn.
  replace (if Z.ltb best n then JInt n else JInt best) with (JInt (Z.max best n)).
  - apply IH. assumption.
  - destruct (Z.ltb_spec best n); f_equal; lia.
Qed.

Lemma fold_max_bounds (l : list Z) (b : Z) :
  b <= fold_left Z.max l b /\
  (forall i, i ∈ l -> i <= fold_left Z.max l b) /\
  (fold_left Z.max l b = b \/ fold_left Z.max l b ∈ l).
Proof.
  revert b. induction l as [|x l IH]; intros b; simpl.
  - split; [lia|]. split; [intros i Hi; inversion Hi | auto].
  - destruct (IH (Z.max b x)) as (Hb & Hall & Hin).
    repeat split.
    + lia.
    + intros i Hi. apply elem_of_cons in Hi as [->|Hi]; [lia | auto].
    + destruct Hin as [Heq|Hin].
      * rewrite Heq. destruct (Z.max_spec b x) as [[_ ->]|[_ ->]]; [right; left | auto].
      * right. right. assumption.
Qed.

(** C6: with integer grade ids, [nextGradeId] answers 1 on an empty
    grades collection and one more than the greatest id otherwise; the
    answer is the id of no grade, and the world is as it was. *)
Theorem nextGradeId_fresh (w : World) (gs : list json) :
  collection "grades" w = Some gs ->
  forallb has_int_id gs = true ->
  exists n : Z,
    GradeRepository.nextGradeId w = (Ok n, w) /\
    Forall2 (fun g i => field g "id" = Some (JInt i)) gs (ids_of gs) /\
    (gs = [] -> n = 1) /\
    (gs <> [] ->
     exists m, m ∈ ids_of gs /\ (forall i, i ∈ ids_of gs -> i <= m) /\ n = m + 1) /\
    n ∉ ids_of gs.
Proof.
  intros Hc Hids. unfold GradeRepository.nextGradeId.
  erewrite run_bind_ok by (apply data_getitem_collection; exact Hc).
  destruct gs as [|g gs].
  - exists 1. split; [reflexivity|]. split; [constructor|]. split; [reflexivity|].
    split; [intros H; contradiction | intros H; inversion H].
  - cbn [truthy negb].
    erewrite run_bind_ok by (apply data_getitem_collection; exact Hc).
    erewrite run_bind_ok by reflexivity.
    pose proof (ids_of_spec _ Hids) as Hspec.
    simpl in Hids. apply andb_prop in Hids as [Hg Hgs].
    destruct (has_int_id_getitem g Hg) as (n & Hget & Hnum & _).
    rewrite (ids_of_cons _ _ n Hnum) in *.
    unfold GradeRepository.max_id. rewrite Hget. cbn [mbind result_bind].
    rewrite (max_id_loop_ints gs n Hgs).
    destruct (fold_max_bounds (ids_of gs) n) as (Hb & Hall & Hin).
    set (m := fold_left Z.max (ids_of gs) n) in *.
    exists (m + 1). split; [reflexivity|].
    assert (Hle : forall i, i ∈ n :: ids_of gs -> i <= m).
    { intros i Hi. apply elem_of_cons in Hi as [->|Hi]; auto. }
    repeat split; auto.
    + discriminate.
    + intros _. exists m. repeat split; auto.
      destruct Hin as [->|Hin]; [left | right; assumption].
    + intros Hin'. apply Hle in Hin'. lia.
Qed.

(** ** Queries leave the store alone *)

Lemma same_store_refl w : same_store w w.
Proof. repeat split. Qed.

Lemma same_store_trans w1 w2 w3 :
  same_store w1 w2 -> same_store w2 w3 -> same_store w1 w3.
Proof. unfold same_store. intuition congruence. Qed.

Lemma preserves_ret {A : Type} (a : A) : preserves (mret a : M A).
Proof. intros w. apply same_store_refl. Qed.

Lemma preserves_lift {A : Type} (r : result A) : preserves (lift r).
Proof. intros w. apply same_store_refl. Qed.

Lemma preserves_read {A : Type} (f : World -> A) : preserves (read f).
Proof. intros w. apply same_store_refl. Qed.

Lemma preserves_new_Grade g : preserves (new_Grade g).
Proof. intros w. repeat split. Qed.

Lemma preserves_bind {A B : Type} (m : M A) (k : A -> M B) :
  preserves m -> (forall a, preserves (k a)) -> preserves (m ≫= k).
Proof.
  intros Hm Hk w. rewrite run_bind. specialize (Hm w).
  destruct (m w) as [[a|e] w1]; simpl in *.
  - eapply same_store_trans; [exact Hm | apply Hk].
  - exact Hm.
Qed.

Lemma preserves_for_each {A S : Type} (l : list A) (body : S -> A -> M S) (acc : S) :
  (forall s a, preserves (body s a)) -> preserves (for_each l body acc).
Proof.
  intros Hb. revert acc. induction l as [|x l IH]; intros acc; simpl.
  - apply preserves_ret.
  - apply preserves_bind; [apply Hb | intros s; apply IH].
Qed.

Ltac frame :=
  repeat first
    [ apply preserves_ret
    | apply preserves_lift
    | apply preserves_read
    | apply preserves_new_Grade
    | apply preserves_for_each; intros
    | apply preserves_bind; [|intros]
    | match goal with
      | |- preserves (if ?b then _ else _) => destruct b
      | |- preserves (match ?x with _ => _ end) => destruct x
      end ].

Lemma preserves_data_getitem k : preserves (data_getitem k).
Proof. unfold data_getitem. frame. Qed.

Lemma preserves_by_id {T : Type} collection (from_dict : json -> result T) n :
  preserves (GradeRepository.by_id collection from_dict n).
Proof. unfold GradeRepository.by_id. frame; apply preserves_data_getitem. Qed.

Lemma preserves_findGrades lower criteria :
  preserves (GradeRepository.findGrades lower criteria).
Proof. unfold GradeRepository.findGrades. frame; apply preserves_data_getitem. Qed.

(** C9: the search, the id generator and every getter leave the file
    path, the five collections and the files as they were, and write
    nothing, on every store and whether they return or raise. *)
Theorem queries_preserve_store (lower : string -> string) :
  (forall criteria, preserves (GradeRepository.findGrades lower criteria)) /\
  preserves GradeRepository.nextGradeId /\
  preserves GradeRepository.getStudents /\
  preserves GradeRepository.getTeachers /\
  preserves GradeRepository.getDisciplines /\
  preserves GradeRepository.getGroups /\
  (forall n, preserves (GradeRepository.getStudentById n)) /\
  (forall n, preserves (GradeRepository.getDisciplineById n)) /\
  (forall n, preserves (GradeRepository.getTeacherById n)) /\
  (forall n, preserves (GradeRepository.getGradeById n)).
Proof.
  split; [intros criteria; apply preserves_findGrades|].
  split; [unfold GradeRepository.nextGradeId; frame|].
  split; [unfold GradeRepository.getStudents; frame|].
  split; [unfold GradeRepository.getTeachers; frame|].
  split; [unfold GradeRepository.getDisciplines; frame|].
  split; [unfold GradeRepository.getGroups; frame|].
  split; [intros n; apply preserves_by_id|].
  split; [intros n; apply preserves_by_id|].
  split; [intros n; apply preserves_by_id|].
  intros n. unfold GradeRepository.getGradeById. frame; apply preserves_by_id.
Qed.

(** ** Substrings *)

Lemma prefix_spec (a b : string) :
  String.prefix a b = true <-> exists post, b = a +:+ post.
Proof.
  revert b. induction a as [|c a IH]; intros b.
  - split; [intros _; exists b; reflexivity | intros _; destruct b; reflexivity].
  - destruct b as [|c' b]; simpl.
    + split; [discriminate | intros [post H]; discriminate].
    + destruct (ascii_dec c c') as [->|Hne].
      * rewrite IH. split; intros [post H]; exists post.
        -- rewrite H. reflexivity.
        -- simpl in H. injection H. auto.
      * split; [discriminate|]. intros [post H]. simpl in H. injection H.
        intros _ E. symmetry in E. contradiction.
Qed.

Lemma str_in_spec (a b : string) : str_in a b = true <-> substring_of a b.
Proof.
  unfold substring_of. induction b as [|c b IH].
  - cbn [str_in]. rewrite orb_false_r, prefix_spec. split.
    + intros [post H]. exists "", post. exact H.
    + intros (pre & post & H). destruct pre; [exists post; exact H | discriminate].
  - cbn [str_in]. rewrite orb_true_iff, prefix_spec, IH. split.
    + intros [[post H]|(pre & post & H)].
      * exists "", post. exact H.
      * exists (String c pre), post. rewrite H. reflexivity.
    + intros (pre & post & H). destruct pre as [|c' pre].
      * left. exists post. exact H.
      * right. exists pre, post. injection H. auto.
Qed.

Lemma str_in_false (a b : string) : str_in a b = false <-> ~ substring_of a b.
Proof.
  rewrite <- str_in_spec. destruct (str_in a b); split; congruence.
Qed.

(** ** The id indexes of the search *)

Lemma index_lookup_set (n k : Z) (s : json) (idx : list (json * json)) :
  Forall (fun kv => is_int (Some (fst kv)) = true) idx ->
  index_lookup (JInt n) (index_set (JInt k) s idx)
  = if Z.eqb k n then Some s else index_lookup (JInt n) idx.
Proof.
  induction 1 as [|[k' v'] idx Hk _ IH]; simpl.
  - unfold eq_int. simpl. rewrite Z.eqb_sym. reflexivity.
  - destruct k'; try discriminate. simpl. unfold eq_int. simpl.
    destruct (Z.eqb_spec k z) as [->|Hkz]; simpl; unfold eq_int; simpl.
    + rewrite Z.eqb_sym. destruct (Z.eqb z n); reflexivity.
    + destruct (Z.eqb_spec n z) as [->|Hnz].
      * destruct (Z.eqb_spec k z); [contradiction | reflexivity].
      * exact IH.
Qed.

Lemma index_set_int_keys (k : Z) (s : json) (idx : list (json * json)) :
  Forall (fun kv => is_int (Some (fst kv)) = true) idx ->
  Forall (fun kv => is_int (Some (fst kv)) = true) (index_set (JInt k) s idx).
Proof.
  induction 1 as [|[k' v'] idx Hk Hidx IH]; simpl.
  - repeat constructor.
  - destruct (py_eq k' (JInt k)); constructor; auto.
Qed.

Lemma index_by_id_spec (records : list json) (acc : list (json * json)) :
  forallb has_int_id records = true ->
  Forall (fun kv => is_int (Some (fst kv)) = true) acc ->
  exists idx,
    index_by_id records acc = Ok idx /\
    forall n, index_lookup (JInt n) idx =
              match last (List.filter (has_id n) records) with
              | Some s => Some s
              | None => index_lookup (JInt n) acc
              end.
Proof.
  revert acc. induction records as [|s records IH]; intros acc H Hacc.
  - exists acc. split; reflexivity.
  - simpl in H. apply andb_prop in H as [Hs Hrs].
    destruct (has_int_id_getitem s Hs) as (k & Hget & _ & Hid).
    cbn [index_by_id]. rewrite Hget. cbn [mbind result_bind hashable].
    destruct (IH (index_set (JInt k) s acc) Hrs (index_set_int_keys k s acc Hacc))
      as (idx & Hrun & Hlook).
    exists idx. split; [exact Hrun|].
    intros n. rewrite Hlook, (index_lookup_set n k s acc Hacc).
    cbn [List.filter]. rewrite Hid.
    destruct (Z.eqb k n).
    + rewrite last_cons. destruct (last (List.filter (has_id n) records)); reflexivity.
    + reflexivity.
Qed.

Lemma index_get_resolve (records : list json) :
  forallb has_int_id records = true ->
  exists idx,
    index_by_id records [] = Ok idx /\
    forall n, index_get idx (JInt n) (JDict []) = Ok (resolve records (Some n)).
Proof.
  intros H. destruct (index_by_id_spec records [] H (List.Forall_nil _)) as (idx & Hrun & Hlook).
  exists idx. split; [exact Hrun|]. intros m.
  unfold index_get, resolve. cbn [hashable]. rewrite Hlook.
  destruct (last (List.filter (has_id m) records)); reflexivity.
Qed.

(** The record an id resolves to is one of the records or the empty
    record. *)
Lemma resolve_cases (records : list json) (n : option Z) :
  resolve records n = JDict [] \/ resolve records n ∈ records.
Proof.
  unfold resolve. destruct n as [n|]; [|left; reflexivity].
  destruct (last (List.filter (has_id n) records)) as [s|] eqn:E; [|left; reflexivity].
  right. simpl. apply last_Some_elem_of in E.
  apply list_elem_of_In, filter_In in E as [E _]. apply list_elem_of_In. exact E.
Qed.

Lemma get_text (r : json) (k : string) :
  (exists d, r = JDict d) ->
  opt_str (field r k) = true ->
  get r k (JStr "") = Ok (JStr (text r k)).
Proof.
  intros [d ->]. unfold text, field, get.
  destruct (dict_lookup k d) as [[]|]; simpl; intros; try discriminate; reflexivity.
Qed.

Lemma get_number (r : json) (k : string) (n : Z) :
  (exists d, r = JDict d) ->
  opt_int (field r k) = true ->
  exists v, get r k JNull = Ok v /\
            (eq_int v n = true <-> number r k = Some n).
Proof.
  intros [d ->]. unfold number, field, get.
  destruct (dict_lookup k d) as [[]|]; simpl; intros; try discriminate.
  - eexists. split; [reflexivity|]. unfold eq_int. simpl.
    rewrite Z.eqb_eq. split; congruence.
  - eexists. split; [reflexivity|]. unfold eq_int. simpl. split; discriminate.
Qed.

Lemma student_like (students : list json) (n : option Z) :
  forallb student_ok students = true ->
  (exists d, resolve students n = JDict d) /\
  opt_str (field (resolve students n) "fullName") = true.
Proof.
  intros H. destruct (resolve_cases students n) as [->|Hin].
  - split; [eauto | reflexivity].
  - rewrite forallb_forall in H. apply list_elem_of_In, H in Hin.
    unfold student_ok in Hin. apply andb_prop in Hin as [Hid Hname].
    split; [|exact Hname].
    destruct (resolve students n); try discriminate. eauto.
Qed.

Lemma discipline_like (disciplines : list json) (n : option Z) :
  forallb discipline_ok disciplines = true ->
  (exists d, resolve disciplines n = JDict d) /\
  opt_str (field (resolve disciplines n) "name") = true /\
  opt_int (field (resolve disciplines n) "semester") = true.
Proof.
  intros H. destruct (resolve_cases disciplines n) as [->|Hin].
  - split; [eauto | split; reflexivity].
  - rewrite forallb_forall in H. apply list_elem_of_In, H in Hin.
    unfold discipline_ok in Hin.
    apply andb_prop in Hin as [Hin Hsem]. apply andb_prop in Hin as [Hid Hname].
    split; [|split; assumption].
    destruct (resolve disciplines n); try discriminate. eauto.
Qed.

Lemma forallb_weaken {A : Type} (p q : A -> bool) (l : list A) :
  (forall x, p x = true -> q x = true) -> forallb p l = true -> forallb q l = true.
Proof.
  intros Hpq. rewrite !forallb_forall. auto.
Qed.

Lemma student_ok_int_id s : student_ok s = true -> has_int_id s = true.
Proof. unfold student_ok, has_int_id. intros H. apply andb_prop in H as [H _]. exact H. Qed.

Lemma discipline_ok_int_id d : discipline_ok d = true -> has_int_id d = true.
Proof.
  unfold discipline_ok, has_int_id. intros H.
  apply andb_prop in H as [H _]. apply andb_prop in H as [H _]. exact H.
Qed.

(** ** The four tests of the search *)

Section Tests.

Variable lower : string -> string.

Lemma test_substring (needle : string) (r : json) (k : string) :
  (exists d, r = JDict d) ->
  opt_str (field r k) = true ->
  exists skip : bool,
    (if negb (String.eqb needle "") then
       get r k (JStr "") ≫= fun name =>
       str_lower lower name ≫= fun low =>
       Ok (negb (str_in (lower needle) low))
     else Ok false) = Ok skip /\
    (skip = false <-> (needle <> "" -> ci_substring lower needle (text r k))).
Proof.
  intros Hd Hk. rewrite (get_text r k Hd Hk). cbn [mbind result_bind str_lower].
  destruct (String.eqb_spec needle "") as [->|Hne]; cbn [negb].
  - exists false. split; [reflexivity|]. split; [intros _ H; congruence | reflexivity].
  - eexists. split; [reflexivity|]. unfold ci_substring.
    rewrite negb_false_iff, str_in_spec. tauto.
Qed.

Lemma test_equal (needle : string) (r : json) (k : string) :
  (exists d, r = JDict d) ->
  opt_str (field r k) = true ->
  exists skip : bool,
    (if negb (String.eqb needle "") then
       get r k (JStr "") ≫= fun ty =>
       str_lower lower ty ≫= fun low =>
       Ok (negb (String.eqb (lower needle) low))
     else Ok false) = Ok skip /\
    (skip = false <-> (needle <> "" -> ci_equal lower needle (text r k))).
Proof.
  intros Hd Hk. rewrite (get_text r k Hd Hk). cbn [mbind result_bind str_lower].
  destruct (String.eqb_spec needle "") as [->|Hne]; cbn [negb].
  - exists false. split; [reflexivity|]. split; [intros _ H; congruence | reflexivity].
  - eexists. split; [reflexivity|]. unfold ci_equal.
    rewrite negb_false_iff, String.eqb_eq. tauto.
Qed.

Lemma test_semester (semester : option Z) (r : json) :
  (exists d, r = JDict d) ->
  opt_int (field r "semester") = true ->
  exists skip : bool,
    match semester with
    | Some n => get r "semester" JNull ≫= fun sem => Ok (negb (eq_int sem n))
    | None => Ok false
    end = Ok skip /\
    (skip = false <-> (forall n, semester = Some n -> number r "semester" = Some n)).
Proof.
  intros Hd Hk. destruct semester as [n|].
  - destruct (get_number r "semester" n Hd Hk) as (v & -> & Hv).
    eexists. split; [reflexivity|].
    rewrite negb_false_iff, Hv. split.
    + intros H m [= <-]. exact H.
    + intros H. apply H. reflexivity.
  - exists false. split; [reflexivity|]. split; [intros _ n H; discriminate | reflexivity].
Qed.

Lemma grade_ok_inv (gd : json) :
  grade_ok gd = true ->
  exists d a b t,
    gd = JDict d /\
    dict_lookup "studentId" d = Some (JInt a) /\
    dict_lookup "disciplineId" d = Some (JInt b) /\
    dict_lookup "assessmentType" d = Some (JStr t) /\
    missing Grade_required d = [].
Proof.
  unfold grade_ok, field.
  destruct gd as [| | | | |d]; simpl; try discriminate.
  destruct (dict_lookup "id" d) eqn:E1; simpl; try discriminate.
  destruct (dict_lookup "value" d) eqn:E2; simpl; try discriminate.
  destruct (dict_lookup "assessmentType" d) as [[]|] eqn:E3; simpl; try discriminate.
  destruct (dict_lookup "studentId" d) as [[]|] eqn:E4; simpl; try discriminate.
  destruct (dict_lookup "disciplineId" d) as [[]|] eqn:E5; simpl; try discriminate.
  destruct (dict_lookup "teacherId" d) eqn:E6; simpl; try discriminate.
  intros _. eexists d, _, _, _. repeat split; try eassumption.
  unfold missing, Grade_required. simpl. rewrite E1, E2, E3, E4, E5, E6. reflexivity.
Qed.

Lemma keeps_spec (criteria : Search.t) (ss ds : list json)
  (students disciplines : list (json * json)) (gd : json) :
  (forall n, index_get students (JInt n) (JDict []) = Ok (resolve ss (Some n))) ->
  (forall n, index_get disciplines (JInt n) (JDict []) = Ok (resolve ds (Some n))) ->
  forallb student_ok ss = true ->
  forallb discipline_ok ds = true ->
  grade_ok gd = true ->
  exists keep : bool,
    GradeRepository.keeps lower criteria students disciplines gd = Ok keep /\
    (keep = true <-> satisfies lower criteria ss ds gd).
Proof.
  intros Hss Hds Hsok Hdok Hg.
  destruct (grade_ok_inv gd Hg) as (d & a & b & t & -> & Ha & Hb & Ht & _).
  unfold GradeRepository.keeps, satisfies, getitem, number, field.
  rewrite Ha, Hb. cbn [mbind result_bind]. rewrite Hss, Hds. cbn [mbind result_bind].
  destruct (student_like ss (Some a) Hsok) as [Hsd Hsname].
  destruct (discipline_like ds (Some b) Hdok) as (Hdd & Hdname & Hdsem).
  destruct (test_substring (Search.studentName criteria) _ "fullName" Hsd Hsname)
    as (skip1 & -> & H1).
  destruct (test_substring (Search.disciplineName criteria) _ "name" Hdd Hdname)
    as (skip2 & -> & H2).
  destruct (test_semester (Search.semester criteria) _ Hdd Hdsem) as (skip3 & -> & H3).
  assert (Hgt : opt_str (field (JDict d) "assessmentType") = true)
    by (unfold field; rewrite Ht; reflexivity).
  destruct (test_equal (Search.assessmentType criteria) (JDict d) "assessmentType"
              (ex_intro _ d eq_refl) Hgt) as (skip4 & -> & H4).
  cbn [mbind result_bind].
  unfold number, field in H3.
  destruct skip1; [exists false; split; [reflexivity|]; split; [discriminate|];
                   intros (C & _); apply H1 in C; discriminate|].
  destruct skip2; [exists false; split; [reflexivity|]; split; [discriminate|];
                   intros (_ & C & _); apply H2 in C; discriminate|].
  destruct skip3; [exists false; split; [reflexivity|]; split; [discriminate|];
                   intros (_ & _ & C & _); apply H3 in C; discriminate|].
  destruct skip4; [exists false; split; [reflexivity|]; split; [discriminate|];
                   intros (_ & _ & _ & C); apply H4 in C; discriminate|].
  exists true. split; [reflexivity|]. split; [|reflexivity]. intros _.
  repeat split; [apply H1 | apply H2 | apply H3 | apply H4]; reflexivity.
Qed.

End Tests.

(** ** The loop of the search *)

Lemma with_objects_twice w objs objs' :
  with_objects (with_objects w objs) objs' = with_objects w objs'.
Proof. reflexivity. Qed.

Lemma with_objects_same w : with_objects w (objects w) = w.
Proof. destruct w. reflexivity. Qed.

Lemma grade_ok_from_dict (now : string) (gd : json) :
  grade_ok gd = true -> exists g, Grade.from_dict now gd = Ok g.
Proof.
  intros H. destruct (grade_ok_inv gd H) as (d & _ & _ & _ & -> & _ & _ & _ & Hm).
  exists (Grade_of now d). rewrite Grade_from_dict_contract, Hm. reflexivity.
Qed.

Section Loop.

Variable lower : string -> string.
Variable criteria : Search.t.
Variables ss ds : list json.
Variables students disciplines : list (json * json).

Hypothesis students_index :
  forall n, index_get students (JInt n) (JDict []) = Ok (resolve ss (Some n)).
Hypothesis disciplines_index :
  forall n, index_get disciplines (JInt n) (JDict []) = Ok (resolve ds (Some n)).
Hypothesis students_ok : forallb student_ok ss = true.
Hypothesis disciplines_ok : forallb discipline_ok ds = true.

Lemma findGrades_loop (gs : list json) :
  forallb grade_ok gs = true ->
  forall (result : list nat) (w : World),
  exists (selected : list json) (found : list Grade.t),
    for_each gs (GradeRepository.findGrades_iteration lower criteria students disciplines)
      result w
    = (Ok (result ++ seq (length (objects w)) (length found)),
       with_objects w (objects w ++ found)) /\
    Selected (satisfies lower criteria ss ds) gs selected /\
    Forall2 (fun gd g => Grade.from_dict (today w) gd = Ok g) selected found.
Proof.
  induction gs as [|gd gs IH]; intros Hgs result w.
  - exists [], []. cbn. rewrite !app_nil_r, with_objects_same.
    repeat split; constructor.
  - simpl in Hgs. apply andb_prop in Hgs as [Hgd Hgs].
    destruct (keeps_spec lower criteria ss ds students disciplines gd
                students_index disciplines_index students_ok disciplines_ok Hgd)
      as (keep & Hkeep & Hsat).
    cbn [for_each].
    destruct keep.
    + destruct (grade_ok_from_dict (today w) gd Hgd) as [g Hg].
      erewrite run_bind_ok.
      2:{ unfold GradeRepository.findGrades_iteration.
          erewrite run_bind_ok by (unfold lift; rewrite Hkeep; reflexivity).
          cbv beta iota.
          erewrite run_bind_ok by reflexivity.
          erewrite run_bind_ok by (unfold lift; rewrite Hg; reflexivity).
          erewrite run_bind_ok by reflexivity.
          reflexivity. }
      destruct (IH Hgs (result ++ [length (objects w)])
                  (with_objects w (objects w ++ [g])))
        as (selected & found & Hrun & Hsel & Hfound).
      exists (gd :: selected), (g :: found).
      split; [|split].
      * etransitivity; [exact Hrun|].
        cbn [objects with_objects length seq].
        rewrite length_app, <- !app_assoc. cbn [length app].
        rewrite Nat.add_1_r. reflexivity.
      * apply Selected_keep; [apply Hsat; reflexivity | exact Hsel].
      * constructor; [exact Hg | exact Hfound].
    + erewrite run_bind_ok.
      2:{ unfold GradeRepository.findGrades_iteration.
          erewrite run_bind_ok by (unfold lift; rewrite Hkeep; reflexivity).
          reflexivity. }
      destruct (IH Hgs result w) as (selected & found & Hrun & Hsel & Hfound).
      exists selected, found. rewrite Hrun. repeat split; [|exact Hfound].
      apply Selected_drop; [|exact Hsel].
      intros Hs. apply Hsat in Hs. discriminate.
Qed.

End Loop.

Lemma findGrades_run (lower : string -> string) (criteria : Search.t) (w : World)
  (ss ds gs : list json) :
  collection "students" w = Some ss ->
  collection "disciplines" w = Some ds ->
  collection "grades" w = Some gs ->
  forallb student_ok ss = true ->
  forallb discipline_ok ds = true ->
  forallb grade_ok gs = true ->
  exists (selected : list json) (found : list Grade.t),
    GradeRepository.findGrades lower criteria w
    = (Ok (seq (length (objects w)) (length found)),
       with_objects w (objects w ++ found)) /\
    Selected (satisfies lower criteria ss ds) gs selected /\
    Forall2 (fun gd g => Grade.from_dict (today w) gd = Ok g) selected found.
Proof.
  intros Hss Hds Hgs Hsok Hdok Hgok.
  destruct (index_get_resolve ss (forallb_weaken _ _ _ student_ok_int_id Hsok))
    as (students & Hsrun & Hsidx).
  destruct (index_get_resolve ds (forallb_weaken _ _ _ discipline_ok_int_id Hdok))
    as (disciplines & Hdrun & Hdidx).
  destruct (findGrades_loop lower criteria ss ds students disciplines
              Hsidx Hdidx Hsok Hdok gs Hgok [] w)
    as (selected & found & Hrun & Hsel & Hfound).
  exists selected, found. split; [|split; assumption].
  unfold GradeRepository.findGrades.
  erewrite run_bind_ok by (apply data_getitem_collection; exact Hss).
  erewrite run_bind_ok by reflexivity.
  erewrite run_bind_ok by (unfold lift; rewrite Hsrun; reflexivity).
  erewrite run_bind_ok by (apply data_getitem_collection; exact Hds).
  erewrite run_bind_ok by reflexivity.
  erewrite run_bind_ok by (unfold lift; rewrite Hdrun; reflexivity).
  erewrite run_bind_ok by (apply data_getitem_collection; exact Hgs).
  erewrite run_bind_ok by reflexivity.
  exact Hrun.
Qed.

Lemma Selected_elem_of {A : Type} (P : A -> Prop) (l l' : list A) :
  Selected P l l' -> forall x, x ∈ l' <-> x ∈ l /\ P x.
Proof.
  induction 1 as [|y l l' Hy _ IH|y l l' Hy _ IH]; intros x.
  - split; [intros H; inversion H | intros [H _]; inversion H].
  - rewrite !elem_of_cons, IH. split.
    + intros [->|[? ?]]; auto.
    + intros [[->|?] ?]; auto.
  - rewrite elem_of_cons, IH. split.
    + intros [? ?]; auto.
    + intros [[->|?] ?]; [contradiction | auto].
Qed.

Lemma Selected_all {A : Type} (P : A -> Prop) (l l' : list A) :
  (forall x, P x) -> Selected P l l' -> l' = l.
Proof.
  intros HP. induction 1 as [|y l l' Hy _ IH|y l l' Hy _ IH].
  - reflexivity.
  - rewrite IH. reflexivity.
  - destruct (Hy (HP y)).
Qed.

Lemma new_references (objs found : list Grade.t) :
  Forall2 (fun r g => (objs ++ found) !! r = Some g) (seq (length objs) (length found)) found.
Proof.
  revert objs. induction found as [|g found IH]; intros objs; simpl.
  - constructor.
  - constructor.
    + rewrite lookup_app_r by lia. rewrite Nat.sub_diag. reflexivity.
    + specialize (IH (objs ++ [g])).
      rewrite length_app, <- app_assoc in IH. simpl in IH.
      rewrite Nat.add_1_r in IH. exact IH.
Qed.

Lemma found_by_reference (now : string) (objs found : list Grade.t) (selected : list json) :
  Forall2 (fun gd g => Grade.from_dict now gd = Ok g) selected found ->
  Forall2 (fun gd r => exists g, (objs ++ found) !! r = Some g /\
                                 Grade.from_dict now gd = Ok g)
    selected (seq (length objs) (length found)).
Proof.
  intros H. pose proof (new_references objs found) as Hrefs.
  revert H Hrefs. generalize (objs ++ found) as heap.
  generalize (seq (length objs) (length found)) as refs.
  intros refs heap H. revert refs.
  induction H as [|gd g selected found Hg _ IH]; intros refs Hrefs.
  - inversion Hrefs. constructor.
  - inversion Hrefs as [|r g' refs' found' Hr Hrest]; subst.
    constructor; [eauto | apply IH; assumption].
Qed.

Lemma satisfies_empty (lower : string -> string) (ss ds : list json) (gd : json) :
  satisfies lower Search.empty ss ds gd.
Proof.
  unfold satisfies. simpl. repeat split; congruence.
Qed.

(** C1: on a store whose records are typed as in the data model,
    [findGrades] returns, and it returns references to new [Grade]
    instances made from exactly those grade records, in their order,
    that satisfy every filter the criteria set: the student-name and
    discipline-name substrings and the assessment type compared after
    [lower], the semester compared exactly.  The student and the
    discipline of a grade are the records its ids resolve to, the empty
    record when there is none: no reference has to resolve. *)
Theorem findGrades_filters (lower : string -> string) (criteria : Search.t) (w : World)
  (ss ds gs : list json) :
  collection "students" w = Some ss ->
  collection "disciplines" w = Some ds ->
  collection "grades" w = Some gs ->
  forallb student_ok ss = true ->
  forallb discipline_ok ds = true ->
  forallb grade_ok gs = true ->
  exists (refs : list nat) (w' : World) (selected : list json),
    GradeRepository.findGrades lower criteria w = (Ok refs, w') /\
    Selected (satisfies lower criteria ss ds) gs selected /\
    (forall gd, gd ∈ selected <-> gd ∈ gs /\ satisfies lower criteria ss ds gd) /\
    Forall2 (fun gd r => exists g, objects w' !! r = Some g /\
                                   Grade.from_dict (today w) gd = Ok g)
      selected refs.
Proof.
  intros Hss Hds Hgs Hsok Hdok Hgok.
  destruct (findGrades_run lower criteria w ss ds gs Hss Hds Hgs Hsok Hdok Hgok)
    as (selected & found & Hrun & Hsel & Hfound).
  eexists _, _, selected. split; [exact Hrun|]. split; [exact Hsel|].
  split; [apply Selected_elem_of; exact Hsel|].
  apply found_by_reference. exact Hfound.
Qed.

(** C2: without filters, [findGrades] returns one reference per grade
    record, in the order of the grades collection; each designates a
    [Grade] instance made from its record that did not exist before the
    call, no two designate the same instance, and neither the instances
    that existed nor the store are changed. *)
Theorem findGrades_no_filter (lower : string -> string) (w : World)
  (ss ds gs : list json) :
  collection "students" w = Some ss ->
  collection "disciplines" w = Some ds ->
  collection "grades" w = Some gs ->
  forallb student_ok ss = true ->
  forallb discipline_ok ds = true ->
  forallb grade_ok gs = true ->
  exists (refs : list nat) (w' : World),
    GradeRepository.findGrades lower Search.empty w = (Ok refs, w') /\
    length refs = length gs /\
    Forall2 (fun gd r => exists g, objects w' !! r = Some g /\
                                   Grade.from_dict (today w) gd = Ok g)
      gs refs /\
    NoDup refs /\
    Forall (fun r => (length (objects w) <= r)%nat) refs /\
    (forall r g, objects w !! r = Some g -> objects w' !! r = Some g) /\
    same_store w w'.
Proof.
  intros Hss Hds Hgs Hsok Hdok Hgok.
  destruct (findGrades_run lower Search.empty w ss ds gs Hss Hds Hgs Hsok Hdok Hgok)
    as (selected & found & Hrun & Hsel & Hfound).
  apply Selected_all in Hsel; [|intros gd; apply satisfies_empty]. subst selected.
  eexists _, _. split; [exact Hrun|].
  split; [rewrite length_seq; symmetry; eapply Forall2_length; exact Hfound|].
  split; [apply found_by_reference; exact Hfound|].
  split; [apply NoDup_seq|].
  split; [apply Forall_seq; intros; lia|].
  split; [|repeat split].
  intros r g Hr. cbn. apply lookup_app_l_Some. exact Hr.
Qed.

(** ** The JSON codec: numbers *)


Lemma delimited_no_digit (rest : list ascii) :
  delimited rest ->
  match rest with
  | c :: _ => Json.digit_of_char c = None
  | [] => True
  end.
Proof.
  destruct rest as [|c rest]; [trivial|]. intros [->| ->]; reflexivity.
Qed.

Lemma delimited_no_float (rest : list ascii) :
  delimited rest -> Json.float_follows rest = false.
Proof.
  destruct rest as [|c rest]; [reflexivity|]. intros [->| ->]; reflexivity.
Qed.

Lemma scan_digits_digits (u : Decimal.uint) (rest : list ascii) :
  match rest with
  | c :: _ => Json.digit_of_char c = None
  | [] => True
  end ->
  Json.scan_digits (Json.digits u ++ rest) = (u, rest).
Proof.
  intros Hrest.
  induction u; cbn [Json.digits app Json.scan_digits Json.digit_of_char];
    try (rewrite IHu; reflexivity).
  destruct rest as [|c rest]; [reflexivity|].
  cbn [Json.scan_digits]. rewrite Hrest. reflexivity.
Qed.

(** A positive number prints without a leading zero. *)
Lemma to_uint_head (p : positive) :
  match Pos.to_uint p with
  | Decimal.Nil | Decimal.D0 _ => False
  | _ => True
  end.
Proof.
  pose proof (DecimalPos.Unsigned.to_of (Pos.to_uint p)) as Hnorm.
  rewrite DecimalPos.Unsigned.of_to in Hnorm. simpl in Hnorm.
  pose proof (DecimalPos.Unsigned.to_uint_nonzero p) as Hnz.
  pose proof (DecimalPos.Unsigned.to_uint_nonnil p) as Hnn.
  destruct (Pos.to_uint p) as [|u| | | | | | | | |]; try exact I.
  - apply Hnn. reflexivity.
  - destruct u as [|u'| | | | | | | | |] eqn:Eu;
      try (rewrite DecimalFacts.unorm_D0 in Hnorm;
           assert (Hu : u <> Decimal.Nil) by (subst u; discriminate);
           pose proof (DecimalFacts.nb_digits_unorm u Hu) as Hlen;
           subst u; rewrite <- Hnorm in Hlen; simpl in Hlen; lia).
    apply Hnz. reflexivity.
Qed.

Lemma scan_intpart_pos (p : positive) (rest : list ascii) :
  delimited rest ->
  Json.scan_intpart (Json.digits (Pos.to_uint p) ++ rest) = Some (Pos.to_uint p, rest).
Proof.
  intros Hrest. pose proof (to_uint_head p) as Hhead.
  pose proof (scan_digits_digits (Pos.to_uint p) rest (delimited_no_digit _ Hrest)) as Hscan.
  destruct (Pos.to_uint p) as [|u|u|u|u|u|u|u|u|u|u]; try contradiction;
    cbn [Json.digits app Json.scan_intpart] in *;
    unfold Json.is_digit; cbn [Json.digit_of_char];
    rewrite Hscan; reflexivity.
Qed.

Lemma of_uint_to_uint (p : positive) : Z.of_uint (Pos.to_uint p) = Zpos p.
Proof.
  unfold Z.of_uint. rewrite DecimalPos.Unsigned.of_to. reflexivity.
Qed.

Lemma scan_number_intstr (z : Z) (rest : list ascii) :
  delimited rest ->
  Json.scan_number (Json.intstr z ++ rest) = Some (Ok (JInt z, rest)).
Proof.
  intros Hrest. unfold Json.scan_number. destruct z as [|p|p]; cbn [Json.intstr app].
  - cbn. rewrite (delimited_no_float _ Hrest). reflexivity.
  - pose proof (to_uint_head p) as Hhead.
    pose proof (scan_intpart_pos p rest Hrest) as Hscan.
    destruct (Json.digits (Pos.to_uint p) ++ rest) as [|c s] eqn:E.
    + rewrite Hscan, (delimited_no_float _ Hrest), of_uint_to_uint. reflexivity.
    + assert (c <> "-"%char) as Hc.
      { destruct (Pos.to_uint p); try contradiction; simpl in E; injection E;
          intros _ <-; discriminate. }
      assert (Hsame : (match c :: s with
                       | ("-"%char) :: r => (true, r)
                       | _ => (false, c :: s)
                       end) = (false, c :: s)).
      { destruct c as [[] [] [] [] [] [] [] []]; try reflexivity. contradiction. }
      rewrite Hsame, Hscan, (delimited_no_float _ Hrest), of_uint_to_uint. reflexivity.
  - rewrite (scan_intpart_pos p rest Hrest), (delimited_no_float _ Hrest), of_uint_to_uint.
    reflexivity.
Qed.

(** ** The JSON codec: strings *)

(** Every character is read back from its escape. *)
Lemma scanstring_char (c : ascii) (tl : list ascii) :
  Json.scanstring (Json.escape_char c ++ tl) =
  match Json.scanstring tl with
  | Ok (str, r) => Ok (String c str, r)
  | Raise e => Raise e
  end.
Proof.
  destruct c as [[] [] [] [] [] [] [] []]; simpl; reflexivity.
Qed.

Lemma scanstring_escape (s : string) (rest : list ascii) :
  Json.scanstring (Json.escape s ++ Json.dquote :: rest) = Ok (s, rest).
Proof.
  induction s as [|c s IH].
  - reflexivity.
  - cbn [Json.escape]. rewrite <- app_assoc, scanstring_char, IH. reflexivity.
Qed.

Lemma scanstring_basestring (s : string) (rest : list ascii) :
  exists body,
    Json.encode_basestring s ++ rest = Json.dquote :: body /\
    Json.scanstring body = Ok (s, rest).
Proof.
  exists (Json.escape s ++ Json.dquote :: rest). split.
  - unfold Json.encode_basestring. cbn [app]. rewrite <- app_assoc. reflexivity.
  - apply scanstring_escape.
Qed.

(** ** The JSON codec: layout *)

Lemma skip_ws_spaces (n : nat) (rest : list ascii) :
  Json.skip_ws (repeat " "%char n ++ rest) = Json.skip_ws rest.
Proof. induction n as [|n IH]; [reflexivity | exact IH]. Qed.

Lemma skip_ws_indent (level : nat) (rest : list ascii) :
  Json.skip_ws (Json.newline_indent level ++ rest) = Json.skip_ws rest.
Proof.
  unfold Json.newline_indent. cbn [app]. cbn [Json.skip_ws Json.is_ws Json.newline].
  apply skip_ws_spaces.
Qed.

Lemma skip_ws_value (s : list ascii) : value_head s -> Json.skip_ws s = s.
Proof.
  destruct s as [|c s]; [intros []|]. intros (Hws & _). cbn [Json.skip_ws].
  rewrite Hws. reflexivity.
Qed.

Lemma value_head_app (s rest : list ascii) : value_head s -> value_head (s ++ rest).
Proof. destruct s; [intros [] | trivial]. Qed.

Lemma digits_head (p : positive) :
  exists c r, Json.digits (Pos.to_uint p) = c :: r /\ Json.is_digit c = true.
Proof.
  pose proof (to_uint_head p) as H.
  destruct (Pos.to_uint p); try contradiction; eexists _, _; split; reflexivity.
Qed.

Lemma digit_value_head (c : ascii) (r : list ascii) :
  c = "-"%char \/ Json.is_digit c = true -> value_head (c :: r).
Proof.
  destruct c as [[] [] [] [] [] [] [] []]; intros [H|H];
    try discriminate H; repeat split; discriminate.
Qed.

Lemma intstr_head (z : Z) :
  exists c r, Json.intstr z = c :: r /\ (c = "-"%char \/ Json.is_digit c = true).
Proof.
  destruct z as [|p|p]; cbn [Json.intstr].
  - eexists _, _. split; [reflexivity | right; reflexivity].
  - destruct (digits_head p) as (c & r & -> & Hc). eauto.
  - eexists _, _. split; [reflexivity | left; reflexivity].
Qed.

Lemma iterencode_head (v : json) (level : nat) : value_head (Json.iterencode v level).
Proof.
  destruct v as [|[]|z|s|[|x l]|[|[k x] d]]; cbn [Json.iterencode];
    try (repeat split; discriminate).
  destruct (intstr_head z) as (c & r & -> & Hc). apply digit_value_head. exact Hc.
Qed.

Lemma iterencode_length (v : json) (level : nat) :
  (1 <= length (Json.iterencode v level))%nat.
Proof.
  pose proof (iterencode_head v level) as H.
  destruct (Json.iterencode v level); [destruct H | simpl; lia].
Qed.

(** The encodings of a list and of a dict, item by item. *)
Lemma iterencode_list (x : json) (l : list json) (level : nat) :
  Json.iterencode (JList (x :: l)) level =
  "["%char :: Json.newline_indent (S level) ++ Json.iterencode x (S level) ++
  list_rest level l ++ Json.newline_indent level ++ ["]"%char].
Proof.
  cbn [Json.iterencode]. do 4 f_equal.
  induction l as [|y l IH]; [reflexivity|].
  cbn [list_rest]. rewrite <- IH. reflexivity.
Qed.

Lemma iterencode_dict (k : string) (x : json) (d : list (string * json)) (level : nat) :
  Json.iterencode (JDict ((k, x) :: d)) level =
  "{"%char :: Json.newline_indent (S level) ++
  Json.encode_basestring k ++ ":"%char :: " "%char :: Json.iterencode x (S level) ++
  dict_rest level d ++ Json.newline_indent level ++ ["}"%char].
Proof.
  cbn [Json.iterencode]. do 7 f_equal.
  induction d as [|[k' y] d IH]; [reflexivity|].
  cbn [dict_rest]. rewrite <- IH. reflexivity.
Qed.

Lemma list_rest_length (level : nat) (l : list json) :
  (length l <= length (list_rest level l))%nat /\
  Forall (fun y => (length (Json.iterencode y (S level)) <= length (list_rest level l))%nat) l.
Proof.
  induction l as [|y l [IH1 IH2]]; [split; [reflexivity | constructor]|].
  cbn [list_rest length]. rewrite !length_app. split; [lia|].
  constructor; [lia|].
  eapply Forall_impl; [exact IH2|]. cbv beta. intros z Hz. lia.
Qed.

Lemma dict_rest_length (level : nat) (d : list (string * json)) :
  (length d <= length (dict_rest level d))%nat /\
  Forall (fun kv => (length (Json.iterencode (snd kv) (S level))
                     <= length (dict_rest level d))%nat) d.
Proof.
  induction d as [|[k y] d [IH1 IH2]]; [split; [reflexivity | constructor]|].
  cbn [dict_rest length]. rewrite !length_app. cbn [length]. rewrite !length_app.
  split; [lia|].
  constructor; [cbn [snd]; lia|].
  eapply Forall_impl; [exact IH2|]. cbv beta. intros z Hz. lia.
Qed.

Lemma delimited_list_rest (level : nat) (l : list json) (rest : list ascii) :
  delimited (list_rest level l ++ Json.newline_indent level ++ rest).
Proof. destruct l; [right | left]; reflexivity. Qed.

Lemma delimited_dict_rest (level : nat) (d : list (string * json)) (rest : list ascii) :
  delimited (dict_rest level d ++ Json.newline_indent level ++ rest).
Proof. destruct d as [|[k y] d]; [right | left]; reflexivity. Qed.

(** ** The JSON codec: values *)

Lemma scan_once_number (fuel : nat) (c : ascii) (r : list ascii)
  (res : result (json * list ascii)) :
  c = "-"%char \/ Json.is_digit c = true ->
  Json.scan_number (c :: r) = Some res ->
  Json.scan_once (S fuel) (c :: r) = res.
Proof.
  destruct c as [[] [] [] [] [] [] [] []]; intros [H|H] Hres; try discriminate H;
    cbn [Json.scan_once]; rewrite Hres; reflexivity.
Qed.

Lemma scan_once_int (fuel : nat) (z : Z) (rest : list ascii) :
  delimited rest ->
  Json.scan_once (S fuel) (Json.intstr z ++ rest) = Ok (JInt z, rest).
Proof.
  intros Hrest. pose proof (scan_number_intstr z rest Hrest) as Hnum.
  destruct (intstr_head z) as (c & r & E & Hc). rewrite E in *.
  apply scan_once_number; assumption.
Qed.

Lemma scan_once_str (fuel : nat) (s : string) (rest : list ascii) :
  Json.scan_once (S fuel) (Json.encode_basestring s ++ rest) = Ok (JStr s, rest).
Proof.
  destruct (scanstring_basestring s rest) as (body & -> & Hbody).
  cbn [Json.scan_once Json.dquote]. rewrite Hbody. reflexivity.
Qed.

Lemma dict_set_fresh (k : string) (v : json) (d : list (string * json)) :
  k ∉ map fst d -> dict_set k v d = d ++ [(k, v)].
Proof.
  induction d as [|[k' v'] d IH]; intros Hk; [reflexivity|].
  cbn [dict_set]. cbn [map fst] in Hk. apply not_elem_of_cons in Hk as [Hne Hk].
  destruct (String.eqb_spec k k'); [contradiction|].
  rewrite (IH Hk). reflexivity.
Qed.

Lemma dict_of_pairs_nodup (ps : list (string * json)) :
  NoDup (map fst ps) -> dict_of_pairs ps = ps.
Proof.
  unfold dict_of_pairs.
  enough (H : forall acc, NoDup (map fst (acc ++ ps)) ->
            fold_left (fun d kv => dict_set (fst kv) (snd kv) d) ps acc = acc ++ ps)
    by (intros Hnd; apply (H [] Hnd)).
  induction ps as [|[k v] ps IH]; intros acc Hnd; cbn [fold_left].
  - rewrite app_nil_r. reflexivity.
  - cbn [fst snd]. rewrite dict_set_fresh.
    + rewrite IH; rewrite <- app_assoc; [reflexivity | exact Hnd].
    + rewrite map_app in Hnd. apply NoDup_app in Hnd as (_ & Hdisj & _).
      intros Hin. apply (Hdisj k Hin). left.
Qed.

Section Arrays.

Variable scan : list ascii -> result (json * list ascii).
Variable level : nat.

Lemma JSONArray_loop_spec (l : list json) :
  forall (x : json) (values : list json) (n : nat) (rest : list ascii),
  Forall (fun y => forall r, delimited r ->
            scan (Json.iterencode y (S level) ++ r) = Ok (y, r)) (x :: l) ->
  (length l < n)%nat ->
  Json.JSONArray_loop scan n
    (Json.iterencode x (S level) ++ list_rest level l ++
     Json.newline_indent level ++ "]"%char :: rest) values
  = Ok (values ++ x :: l, rest).
Proof.
  induction l as [|y l IH]; intros x values n rest Hscan Hn;
    destruct n as [|n]; try (simpl in Hn; lia);
    apply Forall_cons in Hscan as [Hx Hl]; cbn [Json.JSONArray_loop].
  - rewrite Hx by (right; reflexivity).
    cbn [list_rest app]. rewrite skip_ws_indent. reflexivity.
  - cbn [list_rest app]. rewrite <- !app_assoc.
    rewrite Hx by (left; reflexivity).
    cbn [Json.skip_ws Json.is_ws Ascii.eqb Bool.eqb].
    rewrite skip_ws_indent, skip_ws_value
      by (apply value_head_app, iterencode_head).
    rewrite (IH y (values ++ [x]) n rest Hl) by (simpl in Hn; lia).
    rewrite <- app_assoc. reflexivity.
Qed.

Lemma JSONObject_loop_step (k : string) (x : json) (pairs : list (string * json))
  (n : nat) (tail : list ascii) :
  (forall r, delimited r -> scan (Json.iterencode x (S level) ++ r) = Ok (x, r)) ->
  delimited tail ->
  Json.JSONObject_loop scan (S n)
    (Json.encode_basestring k ++ ":"%char :: " "%char ::
     Json.iterencode x (S level) ++ tail) pairs
  = match Json.skip_ws tail with
    | c :: r =>
        if Ascii.eqb c "}" then Ok (pairs ++ [(k, x)], r)
        else if Ascii.eqb c ","
             then Json.JSONObject_loop scan n (Json.skip_ws r) (pairs ++ [(k, x)])
             else Raise JSONDecodeError
    | [] => Raise JSONDecodeError
    end.
Proof.
  intros Hx Htail.
  destruct (scanstring_basestring k
              (":"%char :: " "%char :: Json.iterencode x (S level) ++ tail))
    as (body & -> & Hbody).
  cbn [Json.JSONObject_loop]. rewrite Ascii.eqb_refl, Hbody.
  cbn [Json.skip_ws Json.is_ws Ascii.eqb Bool.eqb].
  rewrite skip_ws_value by (apply value_head_app, iterencode_head).
  rewrite (Hx tail Htail). reflexivity.
Qed.

Lemma JSONObject_loop_spec (d : list (string * json)) :
  forall (k : string) (x : json) (pairs : list (string * json)) (n : nat)
         (rest : list ascii),
  Forall (fun kv => forall r, delimited r ->
            scan (Json.iterencode (snd kv) (S level) ++ r) = Ok (snd kv, r))
    ((k, x) :: d) ->
  (length d < n)%nat ->
  Json.JSONObject_loop scan n
    (Json.encode_basestring k ++ ":"%char :: " "%char ::
     Json.iterencode x (S level) ++ dict_rest level d ++
     Json.newline_indent level ++ "}"%char :: rest) pairs
  = Ok (pairs ++ (k, x) :: d, rest).
Proof.
  induction d as [|[k' y] d IH]; intros k x pairs n rest Hscan Hn;
    destruct n as [|n]; try (simpl in Hn; lia);
    apply Forall_cons in Hscan as [Hx Hd]; cbn [snd] in Hx;
    rewrite (JSONObject_loop_step k x pairs n _ Hx (delimited_dict_rest _ _ _)).
  - cbn [dict_rest app]. rewrite skip_ws_indent. reflexivity.
  - cbn [dict_rest app]. rewrite <- !app_assoc. cbn [app].
    cbn [Json.skip_ws Json.is_ws Ascii.eqb Bool.eqb].
    rewrite skip_ws_indent.
    assert (Hq : forall t, Json.skip_ws (Json.encode_basestring k' ++ t)
                           = Json.encode_basestring k' ++ t) by reflexivity.
    rewrite Hq, <- !app_assoc.
    rewrite (IH k' y (pairs ++ [(k, x)]) n rest Hd) by (simpl in Hn; lia).
    rewrite <- app_assoc. reflexivity.
Qed.

End Arrays.

Lemma valid_list (l : list json) :
  valid (JList l) = true -> Forall (fun x => valid x = true) l.
Proof.
  cbn [valid]. intros H. apply Forall_forall. intros x Hx.
  rewrite forallb_forall in H. apply H, list_elem_of_In, Hx.
Qed.

Lemma valid_dict (d : list (string * json)) :
  valid (JDict d) = true ->
  NoDup (map fst d) /\ Forall (fun kv => valid (snd kv) = true) d.
Proof.
  cbn [valid]. intros H. apply andb_prop in H as [Hnd Hall].
  split; [apply bool_decide_eq_true in Hnd; exact Hnd|].
  clear Hnd. induction d as [|[k x] d IH]; [constructor|].
  apply andb_prop in Hall as [Hx Hd]. constructor; [exact Hx | apply IH; exact Hd].
Qed.

(** Reading back what the encoder wrote, followed by any delimited
    text: the value itself, and the text after it. *)
Lemma scan_once_iterencode (v : json) :
  valid v = true ->
  forall (fuel level : nat) (rest : list ascii),
    (length (Json.iterencode v level) <= fuel)%nat ->
    delimited rest ->
    Json.scan_once fuel (Json.iterencode v level ++ rest) = Ok (v, rest).
Proof.
  induction v as [|b|z|s|l IH|d IH] using json_ind;
    intros Hv fuel level rest Hfuel Hrest;
    (destruct fuel as [|fuel];
     [match type of Hfuel with
      | (length (Json.iterencode ?v ?lvl) <= _)%nat =>
          pose proof (iterencode_length v lvl) as Hlen
      end; exfalso; lia|]).
  - reflexivity.
  - destruct b; reflexivity.
  - apply scan_once_int. exact Hrest.
  - apply scan_once_str.
  - destruct l as [|x l]; [reflexivity|].
    apply valid_list in Hv.
    rewrite iterencode_list in *. cbn [app length] in *. rewrite <- !app_assoc.
    rewrite !length_app in Hfuel.
    destruct (list_rest_length level l) as [Hn Hlens].
    cbn [Json.scan_once]. unfold Json.JSONArray.
    rewrite skip_ws_indent, skip_ws_value by (apply value_head_app, iterencode_head).
    pose proof (iterencode_head x (S level)) as Hhead.
    destruct (Json.iterencode x (S level)) as [|c r] eqn:E; [destruct Hhead|].
    destruct Hhead as (_ & Hc & _). cbn [app].
    rewrite (proj2 (Ascii.eqb_neq c "]") Hc).
    change (c :: r ++ ?t) with ((c :: r) ++ t). rewrite <- E.
    rewrite (JSONArray_loop_spec (Json.scan_once fuel) level l x [] _ rest);
      [reflexivity | |].
    + assert (Hl : Forall (fun y => (length (Json.iterencode y (S level)) <= fuel)%nat)
                     (x :: l)).
      { constructor; [rewrite E; simpl in *; lia|].
        eapply Forall_impl; [exact Hlens|]. cbv beta. intros y Hy. lia. }
      apply Forall_forall. intros y Hy r0 Hr0.
      rewrite Forall_forall in IH, Hv, Hl. apply IH; auto.
    + rewrite !length_app. lia.
  - destruct d as [|[k x] d]; [reflexivity|].
    apply valid_dict in Hv as [Hnd Hv].
    rewrite iterencode_dict in *. cbn [app length] in *. rewrite <- !app_assoc.
    cbn [app] in *. rewrite !length_app in Hfuel. cbn [length] in Hfuel.
    rewrite !length_app in Hfuel.
    destruct (dict_rest_length level d) as [Hn Hlens].
    cbn [Json.scan_once]. unfold Json.JSONObject.
    rewrite skip_ws_indent.
    destruct (scanstring_basestring k []) as (body & Ek & _).
    rewrite app_nil_r in Ek.
    assert (Hkey : forall t, Json.encode_basestring k ++ t = Json.dquote :: Json.escape k ++ Json.dquote :: t).
    { intros t. unfold Json.encode_basestring. cbn [app]. rewrite <- app_assoc. reflexivity. }
    rewrite Hkey. cbn [Json.skip_ws Json.is_ws Json.dquote Ascii.eqb Bool.eqb].
    change ("034"%char) with Json.dquote. rewrite <- Hkey.
    rewrite <- !app_assoc. cbn [app].
    rewrite (JSONObject_loop_spec (Json.scan_once fuel) level d k x [] _ rest).
    + cbn [app]. rewrite dict_of_pairs_nodup by exact Hnd. reflexivity.
    + assert (Hl : Forall (fun kv => (length (Json.iterencode (snd kv) (S level))
                                      <= fuel)%nat) ((k, x) :: d)).
      { constructor; [cbn [snd]; lia|].
        eapply Forall_impl; [exact Hlens|]. cbv beta. intros y Hy. lia. }
      apply Forall_forall. intros y Hy r0 Hr0.
      rewrite Forall_forall in IH, Hv, Hl. apply IH; auto.
    + rewrite !length_app. cbn [length]. rewrite !length_app. lia.
Qed.

(** [loads] after [dumps] gives the value back. *)
Lemma loads_dumps (v : json) : valid v = true -> Json.loads (Json.dumps v) = Ok v.
Proof.
  intros Hv. unfold Json.loads, Json.dumps.
  rewrite list_ascii_of_string_of_list_ascii.
  rewrite skip_ws_value by apply iterencode_head.
  pose proof (scan_once_iterencode v Hv (S (length (Json.iterencode v 0))) 0 []) as H.
  rewrite app_nil_r in H. rewrite H; [reflexivity | lia | exact I].
Qed.

(** ** Saving and loading *)

Lemma saveToJSON_run (path : string) (w : World) :
  GradeRepository.saveToJSON path w
  = (Ok tt, mkWorld (filePath w) (_data w) (<[path := Json.dumps (_data w)]> (files w))
              (writes w ++ [path]) (objects w) (today w)).
Proof. reflexivity. Qed.

Lemma loadFromJSON_run (path : string) (w : World) (d : json) :
  files w !! path = Some (Json.dumps d) ->
  valid d = true ->
  GradeRepository.loadFromJSON path w
  = (Ok tt, mkWorld (filePath w) d (files w) (writes w) (objects w) (today w)).
Proof.
  intros Hfile Hd. unfold GradeRepository.loadFromJSON.
  erewrite run_bind_ok by (unfold read_file; rewrite Hfile; reflexivity).
  erewrite run_bind_ok by (unfold lift; rewrite (loads_dumps d Hd); reflexivity).
  reflexivity.
Qed.

(** C3: a store without a repeated key in any record, whatever its
    collections hold (empty lists, text of any bytes), is written by
    [saveToJSON] without being changed, and [loadFromJSON] reads the
    same store back from the file: into the repository that saved it,
    into any repository that finds the file as it was written, and into
    a new repository created on that path. *)
Theorem load_save_round_trip (path : string) (w : World) :
  valid (_data w) = true ->
  exists w1,
    GradeRepository.saveToJSON path w = (Ok tt, w1) /\
    _data w1 = _data w /\
    files w1 !! path = Some (Json.dumps (_data w)) /\
    (forall w2, files w2 !! path = files w1 !! path ->
       exists w3, GradeRepository.loadFromJSON path w2 = (Ok tt, w3) /\
                  _data w3 = _data w) /\
    (exists w3, GradeRepository.__init__ path w1 = (Ok tt, w3) /\ _data w3 = _data w).
Proof.
  intros Hv. eexists. split; [apply saveToJSON_run|]. cbn [_data files].
  assert (Hfile : (<[path := Json.dumps (_data w)]> (files w)) !! path
                  = Some (Json.dumps (_data w))) by apply lookup_insert_eq.
  split; [reflexivity|]. split; [exact Hfile|]. split.
  - intros w2 Hw2. rewrite Hfile in Hw2.
    eexists. split; [apply (loadFromJSON_run path w2 (_data w) Hw2 Hv) | reflexivity].
  - unfold GradeRepository.__init__.
    erewrite run_bind_ok by reflexivity.
    erewrite run_bind_ok by reflexivity.
    erewrite run_bind_ok.
    2:{ unfold GradeRepository.exists_, read. cbn [files]. rewrite Hfile.
        rewrite bool_decide_eq_true_2 by eauto. reflexivity. }
    cbv beta iota.
    eexists. split; [apply (loadFromJSON_run path _ (_data w)); [exact Hfile | exact Hv]|].
    reflexivity.
Qed.

(** ** Editing a grade *)

Lemma editGrade_loop_data (lower : string -> string) (grades : list nat)
  (gradeId newValue : Z) (comment : string) (w : World) :
  _data (snd (Teacher.editGrade_loop grades gradeId newValue comment
                (GradeRepository.as_repo lower) w)) = _data w.
Proof.
  revert w. induction grades as [|g grades IH]; intros w; [reflexivity|].
  cbn [Teacher.editGrade_loop]. rewrite run_bind. unfold deref at 1.
  destruct (objects w !! g) as [obj|]; [|reflexivity].
  destruct (eq_int (Grade.id obj) gradeId); [reflexivity | apply IH].
Qed.

(** Whatever it answers, [editGrade] leaves the records of the store as
    they were: the assignments go to the instances [findGrades] made. *)
Lemma editGrade_data (lower : string -> string) (self : Teacher.t)
  (gradeId newValue : Z) (comment : string) (w : World) :
  _data (snd (Teacher.editGrade self gradeId newValue comment
                (GradeRepository.as_repo lower) w)) = _data w.
Proof.
  unfold Teacher.editGrade. rewrite run_bind. cbn [repo_findGrades GradeRepository.as_repo].
  pose proof (preserves_findGrades lower Search.empty w) as (_ & Hd & _).
  destruct (GradeRepository.findGrades lower Search.empty w) as [[refs|e] w1];
    cbn [snd] in *; [|exact Hd].
  rewrite editGrade_loop_data. exact Hd.
Qed.

(** C4, on the seed: [editGrade] of grade 1 to the value 3 answers
    [True], and the edit is on the new instance only; the record of
    grade 1 in the store, and the file the call wrote, still have the
    value 5 and the old comment. *)
Theorem editGrade_edits_a_copy :
  exists w',
    Teacher.editGrade seed_teacher 1 3 "Пересдача" (GradeRepository.as_repo simple_lower)
      seed_world = (Ok true, w') /\
    (Grade.value <$> objects w' !! 0%nat) = Some (JInt 3) /\
    (Grade.comment <$> objects w' !! 0%nat) = Some (JStr "Пересдача") /\
    _data w' = store_of seed_grades /\
    (collection "grades" w' ≫= fun gs => gs !! 0%nat ≫= fun g => field g "value")
    = Some (JInt 5) /\
    (collection "grades" w' ≫= fun gs => gs !! 0%nat ≫= fun g => field g "comment")
    = Some (JStr "Отлично") /\
    writes w' = ["data.json"] /\
    files w' !! "data.json" = Some (Json.dumps (store_of seed_grades)).
Proof.
  eexists. split; [vm_compute; reflexivity|].
  repeat split; try reflexivity.
Qed.

(** The claim, as it is worded, does not hold of the code. *)
Lemma editGrade_does_not_update_store : ~ editGrade_updates_store simple_lower.
Proof.
  intros H.
  destruct (Teacher.editGrade seed_teacher 1 3 "Пересдача"
              (GradeRepository.as_repo simple_lower) seed_world) as [r w'] eqn:E.
  pose proof (editGrade_data simple_lower seed_teacher 1 3 "Пересдача" seed_world) as Hd.
  rewrite E in Hd. cbn [snd] in Hd.
  assert (Hr : r = Ok true).
  { pose proof (f_equal fst E) as Hfst. cbn [fst] in Hfst. rewrite <- Hfst.
    vm_compute. reflexivity. }
  subst r.
  assert (Hc : collection "grades" w' = Some seed_grades).
  { unfold collection. rewrite Hd. reflexivity. }
  destruct (H seed_teacher 1 3 "Пересдача" seed_world w' seed_grades seed_grades
              eq_refl eq_refl E Hc (hd JNull seed_grades)) as [Hv _].
  - left.
  - reflexivity.
  - discriminate Hv.
Qed.

(** ** The theorems at work on the seed *)

(** The search for the passes of Ivanova in the third semester, in
    another case than the stored texts. *)
Lemma findGrades_filters_witness :
  let criteria := Search.mk "иванова" "" (Some 3) "ЗАЧЁТ" in
  (collection "students" seed_world = Some seed_students /\
   collection "disciplines" seed_world = Some seed_disciplines /\
   collection "grades" seed_world = Some seed_grades /\
   forallb student_ok seed_students = true /\
   forallb discipline_ok seed_disciplines = true /\
   forallb grade_ok seed_grades = true) /\
  exists (refs : list nat) (w' : World) (selected : list json),
    GradeRepository.findGrades simple_lower criteria seed_world = (Ok refs, w') /\
    Selected (satisfies simple_lower criteria seed_students seed_disciplines)
      seed_grades selected /\
    (forall gd, gd ∈ selected <->
                gd ∈ seed_grades /\
                satisfies simple_lower criteria seed_students seed_disciplines gd) /\
    Forall2 (fun gd r => exists g, objects w' !! r = Some g /\
                                   Grade.from_dict (today seed_world) gd = Ok g)
      selected refs.
Proof.
  intros criteria. split; [repeat split; reflexivity|].
  apply (findGrades_filters simple_lower criteria seed_world
           seed_students seed_disciplines seed_grades); reflexivity.
Defined.

Lemma findGrades_no_filter_witness :
  (collection "students" seed_world = Some seed_students /\
   collection "disciplines" seed_world = Some seed_disciplines /\
   collection "grades" seed_world = Some seed_grades /\
   forallb student_ok seed_students = true /\
   forallb discipline_ok seed_disciplines = true /\
   forallb grade_ok seed_grades = true) /\
  exists (refs : list nat) (w' : World),
    GradeRepository.findGrades simple_lower Search.empty seed_world = (Ok refs, w') /\
    length refs = length seed_grades /\
    Forall2 (fun gd r => exists g, objects w' !! r = Some g /\
                                   Grade.from_dict (today seed_world) gd = Ok g)
      seed_grades refs /\
    NoDup refs /\
    Forall (fun r => (length (objects seed_world) <= r)%nat) refs /\
    (forall r g, objects seed_world !! r = Some g -> objects w' !! r = Some g) /\
    same_store seed_world w'.
Proof.
  split; [repeat split; reflexivity|].
  apply (findGrades_no_filter simple_lower seed_world
           seed_students seed_disciplines seed_grades); reflexivity.
Defined.

Lemma load_save_round_trip_witness :
  valid (_data seed_world) = true /\
  exists w1,
    GradeRepository.saveToJSON "out.json" seed_world = (Ok tt, w1) /\
    _data w1 = _data seed_world /\
    files w1 !! "out.json" = Some (Json.dumps (_data seed_world)) /\
    (forall w2, files w2 !! "out.json" = files w1 !! "out.json" ->
       exists w3, GradeRepository.loadFromJSON "out.json" w2 = (Ok tt, w3) /\
                  _data w3 = _data seed_world) /\
    (exists w3, GradeRepository.__init__ "out.json" w1 = (Ok tt, w3) /\
                _data w3 = _data seed_world).
Proof.
  split; [reflexivity|].
  apply (load_save_round_trip "out.json" seed_world). reflexivity.
Defined.

Lemma removeGrade_erases_matching_witness :
  (collection "grades" twin_world = Some twin_grades /\
   forallb has_int_id twin_grades = true) /\
  (existsb (has_id 1) twin_grades = true ->
   exists w',
     GradeRepository.removeGrade 1 twin_world = (Ok true, w') /\
     collection "grades" w' = Some (List.filter (fun g => negb (has_id 1 g)) twin_grades) /\
     (forall name, name <> "grades" ->
        field (_data w') name = field (_data twin_world) name) /\
     files w' = <[filePath twin_world := Json.dumps (_data w')]> (files twin_world) /\
     writes w' = writes twin_world ++ [filePath twin_world] /\
     (NoDup (ids_of twin_grades) ->
      length twin_grades
      = S (length (List.filter (fun g => negb (has_id 1 g)) twin_grades)))) /\
  (existsb (has_id 1) twin_grades = false ->
   GradeRepository.removeGrade 1 twin_world = (Ok false, twin_world)).
Proof.
  split; [split; reflexivity|].
  apply (removeGrade_erases_matching 1 twin_world twin_grades); reflexivity.
Defined.

Lemma nextGradeId_fresh_witness :
  (collection "grades" seed_world = Some seed_grades /\
   forallb has_int_id seed_grades = true) /\
  exists n : Z,
    GradeRepository.nextGradeId seed_world = (Ok n, seed_world) /\
    Forall2 (fun g i => field g "id" = Some (JInt i)) seed_grades (ids_of seed_grades) /\
    (seed_grades = [] -> n = 1) /\
    (seed_grades <> [] ->
     exists m, m ∈ ids_of seed_grades /\
               (forall i, i ∈ ids_of seed_grades -> i <= m) /\ n = m + 1) /\
    n ∉ ids_of seed_grades.
Proof.
  split; [split; reflexivity|].
  apply (nextGradeId_fresh seed_world seed_grades); reflexivity.
Defined.

Lemma addStudent_no_duplicate_witness :
  (Group._studentIds seed_group = JList (map JInt [1; 2]) /\
   Student.id student_2 = JInt 2) /\
  exists (g' : Group.t) (ids' : list Z),
    Group.addStudent seed_group student_2 = Ok g' /\
    Group._studentIds g' = JList (map JInt ids') /\
    2 ∈ ids' /\
    (2 ∈ [1; 2] -> g' = seed_group) /\
    (2 ∉ [1; 2] -> ids' = [1; 2] ++ [2]) /\
    (NoDup [1; 2] -> NoDup ids') /\
    (forall s2 : Student.t, Student.id s2 = JInt 2 -> Group.addStudent g' s2 = Ok g').
Proof.
  split; [split; reflexivity|].
  apply (addStudent_no_duplicate seed_group student_2 [1; 2] 2); reflexivity.
Defined.

Lemma addGrade_appends_witness :
  collection "grades" seed_world = Some seed_grades /\
  exists w',
    GradeRepository.addGrade new_grade seed_world = (Ok tt, w') /\
    collection "grades" w' = Some (seed_grades ++ [Grade.to_dict new_grade]) /\
    (forall name, name <> "grades" ->
       field (_data w') name = field (_data seed_world) name) /\
    collection "students" w' = collection "students" seed_world /\
    collection "teachers" w' = collection "teachers" seed_world /\
    collection "disciplines" w' = collection "disciplines" seed_world /\
    collection "groups" w' = collection "groups" seed_world /\
    files w' = <[filePath seed_world := Json.dumps (_data w')]> (files seed_world) /\
    writes w' = writes seed_world ++ [filePath seed_world] /\
    filePath w' = filePath seed_world /\ objects w' = objects seed_world.
Proof.
  split; [reflexivity|].
  apply (addGrade_appends new_grade seed_world seed_grades). reflexivity.
Defined.

(** * Further properties *)

(** ** Serialization and deserialization of the record types *)

(** X1: an object written by [to_dict] is read back by [from_dict] as it
    was: students, teachers and disciplines always, grades and groups as
    their constructors build them (a date and a member list are never
    [None] in an instance), on whatever day the grade is read. *)
Theorem from_dict_to_dict :
  (forall s : Student.t, Student.from_dict (Student.to_dict s) = Ok s) /\
  (forall t : Teacher.t, Teacher.from_dict (Teacher.to_dict t) = Ok t) /\
  (forall d : Discipline.t, Discipline.from_dict (Discipline.to_dict d) = Ok d) /\
  (forall (today now : string)
          (id value assessmentType studentId disciplineId teacherId comment date : json),
     let g := Grade.__init__ today id value assessmentType studentId disciplineId
                teacherId comment date in
     Grade.date g <> JNull /\
     Grade.from_dict now (Grade.to_dict g) = Ok g) /\
  (forall id name specialty enrollmentYear studentIds : json,
     let g := Group.__init__ id name specialty enrollmentYear studentIds in
     Group._studentIds g <> JNull /\
     Group.from_dict (Group.to_dict g) = Ok g).
Proof.
  split; [intros []; reflexivity|].
  split; [intros []; reflexivity|].
  split; [intros []; reflexivity|].
  split.
  - intros today now id value assessmentType studentId disciplineId teacherId comment date.
    destruct date; (split; [discriminate | reflexivity]).
  - intros id name specialty enrollmentYear studentIds.
    destruct studentIds; (split; [discriminate | reflexivity]).
Qed.

(** ** Removing a student from a group *)

Lemma remove_first_ints (ids : list Z) (sid : Z) :
  sid ∈ ids ->
  exists before after,
    ids = before ++ sid :: after /\ (sid ∉ before) /\
    remove_first (JInt sid) (map JInt ids) = Some (map JInt (before ++ after)).
Proof.
  induction ids as [|i ids IH]; intros Hin; [inversion Hin|].
  cbn [map remove_first]. unfold py_eq, eq_int. cbn [as_int].
  destruct (Z.eqb_spec sid i) as [->|Hne].
  - exists [], ids. repeat split. apply not_elem_of_nil.
  - apply elem_of_cons in Hin as [Heq|Hin]; [contradiction|].
    destruct (IH Hin) as (before & after & -> & Hb & ->).
    exists (i :: before), after. repeat split.
    apply not_elem_of_cons. split; assumption.
Qed.

Lemma with_members_same (g : Group.t) (ids : list Z) :
  Group._studentIds g = JList (map JInt ids) -> with_members g ids = g.
Proof. destruct g. simpl. intros ->. reflexivity. Qed.

Lemma removeStudent_ints (g : Group.t) (ids : list Z) (sid : Z) :
  Group._studentIds g = JList (map JInt ids) ->
  Group.removeStudent g sid =
  if bool_decide (sid ∈ ids)
  then match remove_first (JInt sid) (map JInt ids) with
       | Some l => Ok (Group.mk (Group.id g) (Group.name g) (Group.specialty g)
                         (Group.enrollmentYear g) (JList l), true)
       | None => Raise ValueError
       end
  else Ok (g, false).
Proof.
  intros Hg. unfold Group.removeStudent. rewrite Hg. cbn [contains mbind result_bind].
  rewrite contains_ints. destruct (bool_decide (sid ∈ ids)); [|reflexivity].
  cbn [remove]. destruct (remove_first (JInt sid) (map JInt ids)); reflexivity.
Qed.

(** X2: on a group whose members are integer ids, [removeStudent]
    answers [False] and leaves the group as it is when the id is not a
    member; otherwise it answers [True] and takes out the first
    occurrence of the id and nothing else.  From a list without
    duplicates the id is gone afterwards, the list is one shorter and
    still without duplicates, and every other member stays. *)
Theorem removeStudent_first_occurrence (g : Group.t) (ids : list Z) (sid : Z) :
  Group._studentIds g = JList (map JInt ids) ->
  (sid ∉ ids -> Group.removeStudent g sid = Ok (g, false)) /\
  (sid ∈ ids ->
   exists before after,
     ids = before ++ sid :: after /\ (sid ∉ before) /\
     Group.removeStudent g sid = Ok (with_members g (before ++ after), true) /\
     (NoDup ids ->
      NoDup (before ++ after) /\ (sid ∉ (before ++ after)) /\
      forall x, x <> sid -> (x ∈ (before ++ after) <-> x ∈ ids))).
Proof.
  intros Hg. rewrite (removeStudent_ints g ids sid Hg). split.
  - intros Hn. rewrite bool_decide_eq_false_2 by exact Hn. reflexivity.
  - intros Hin. rewrite bool_decide_eq_true_2 by exact Hin.
    destruct (remove_first_ints ids sid Hin) as (before & after & Hids & Hb & Hrm).
    exists before, after. rewrite Hrm. split; [exact Hids|]. split; [exact Hb|].
    split; [reflexivity|]. intros Hnd. subst ids.
    apply NoDup_app in Hnd as (Hnb & Hdisj & Hna).
    apply NoDup_cons in Hna as [Hsa Hna].
    split; [|split].
    + apply NoDup_app. repeat split; auto.
      intros x Hx Hx'. apply (Hdisj x Hx). right. exact Hx'.
    + rewrite elem_of_app. intros [H|H]; contradiction.
    + intros x Hx. rewrite !elem_of_app, elem_of_cons. intuition congruence.
Qed.

(** X3: [removeStudent] undoes [addStudent]: after a student who was not
    a member is added, removing the id gives the group back as it was. *)
Theorem removeStudent_after_addStudent (g : Group.t) (s : Student.t)
  (ids : list Z) (sid : Z) :
  Group._studentIds g = JList (map JInt ids) ->
  Student.id s = JInt sid ->
  sid ∉ ids ->
  exists g1,
    Group.addStudent g s = Ok g1 /\
    Group._studentIds g1 = JList (map JInt (ids ++ [sid])) /\
    Group.removeStudent g1 sid = Ok (g, true).
Proof.
  intros Hg Hs Hn. rewrite (addStudent_ints g s ids sid Hg Hs).
  rewrite bool_decide_eq_false_2 by exact Hn.
  eexists. split; [reflexivity|]. split; [reflexivity|].
  erewrite removeStudent_ints by reflexivity.
  rewrite bool_decide_eq_true_2 by (apply elem_of_app; right; left).
  assert (Hin : sid ∈ (ids ++ [sid])) by (apply elem_of_app; right; left).
  destruct (remove_first_ints (ids ++ [sid]) sid Hin) as (before & after & Hids & Hb & ->).
  assert (before = ids /\ after = []) as [-> ->].
  { clear -Hids Hb Hn. revert before Hids Hb.
    induction ids as [|i ids IH]; intros before Hids Hb.
    - destruct before as [|b before].
      + simpl in Hids. injection Hids as <-. auto.
      + simpl in Hids. injection Hids as <- Hrest.
        exfalso. apply Hb. left.
    - apply not_elem_of_cons in Hn as [Hne Hn].
      destruct before as [|b before].
      + simpl in Hids. injection Hids as -> _. contradiction.
      + simpl in Hids. injection Hids as <- Hrest.
        apply not_elem_of_cons in Hb as [_ Hb].
        destruct (IH Hn before Hrest Hb) as [-> ->]. auto. }
  rewrite app_nil_r. cbn [Group.id Group.name Group.specialty Group.enrollmentYear].
  f_equal. f_equal. destruct g. simpl in *. subst. reflexivity.
Qed.

(** ** The getters *)

Lemma complete_missing (required : list string) (d : list (string * json)) :
  complete required (JDict d) = true <-> missing required d = [].
Proof.
  unfold complete, missing. induction required as [|k ks IH]; simpl.
  - tauto.
  - destruct (dict_lookup k d); simpl; [exact IH|]. split; discriminate.
Qed.

Section ListGetters.

Context {T : Type} (from_dict : json -> result T) (required : list string)
  (build : list (string * json) -> T).
Hypothesis contract : from_dict_contract from_dict required build.

Lemma rmap_complete (ds : list (list (string * json))) :
  forallb (complete required) (map JDict ds) = true ->
  rmap from_dict (map JDict ds) = Ok (map build ds).
Proof.
  induction ds as [|d ds IH]; intros H; [reflexivity|].
  cbn [map forallb] in H. apply andb_prop in H as [Hd Hds].
  cbn [rmap map]. rewrite contract, (proj1 (complete_missing required d) Hd).
  cbn [mbind result_bind]. rewrite (IH Hds). reflexivity.
Qed.

Lemma rmap_raise (ds : list (list (string * json))) (e : exn) :
  rmap from_dict (map JDict ds) = Raise e ->
  exists d k, d ∈ ds /\ In k required /\ dict_lookup k d = None /\ e = KeyError k.
Proof.
  induction ds as [|d ds IH]; intros Hrun; [discriminate|].
  cbn [rmap map] in Hrun. rewrite contract in Hrun.
  destruct (missing required d) as [|k ks] eqn:Em.
  - cbn [mbind result_bind] in Hrun.
    destruct (rmap from_dict (map JDict ds)) as [ys|e'] eqn:Er; [discriminate|].
    injection Hrun as <-.
    destruct (IH eq_refl) as (d' & k & Hin & Hk & Hn & He).
    exists d', k. repeat split; auto. right. exact Hin.
  - cbn [mbind result_bind] in Hrun. injection Hrun as <-.
    assert (In k (missing required d)) as Hin by (rewrite Em; left; reflexivity).
    apply missing_In in Hin as [Hk Hn].
    exists d, k. repeat split; auto. left.
Qed.

Lemma getter_spec (name : string) (w : World) (ds : list (list (string * json))) :
  collection name w = Some (map JDict ds) ->
  let getter : M (list T) :=
    data_getitem name ≫= fun rs => lift (iter rs) ≫= fun rs => lift (rmap from_dict rs) in
  (forallb (complete required) (map JDict ds) = true ->
   getter w = (Ok (map build ds), w)) /\
  (forall e w', getter w = (Raise e, w') ->
     w' = w /\
     exists d k, d ∈ ds /\ In k required /\ dict_lookup k d = None /\ e = KeyError k).
Proof.
  intros Hc getter.
  assert (Hrun : getter w = (rmap from_dict (map JDict ds), w)).
  { unfold getter.
    erewrite run_bind_ok by (apply data_getitem_collection; exact Hc).
    erewrite run_bind_ok by reflexivity. reflexivity. }
  rewrite Hrun. split.
  - intros Hall. rewrite (rmap_complete ds Hall). reflexivity.
  - intros e w' H. injection H as Hr <-. split; [reflexivity|].
    exact (rmap_raise ds e Hr).
Qed.

End ListGetters.

(** X4: on a collection of complete records, each list getter answers
    one object per record, in storage order, built from the values as
    they are, and leaves the world as it was.  When a getter raises on a
    collection of dicts, it is with the [KeyError] of a required key
    that one of the records lacks; no partial list is returned. *)
Theorem getters_in_storage_order (w : World) (ds : list (list (string * json))) :
  (collection "students" w = Some (map JDict ds) ->
     (forallb (complete Student_required) (map JDict ds) = true ->
      GradeRepository.getStudents w = (Ok (map Student_of ds), w)) /\
     (forall e w', GradeRepository.getStudents w = (Raise e, w') ->
      w' = w /\ exists d k, d ∈ ds /\ In k Student_required /\
                            dict_lookup k d = None /\ e = KeyError k)) /\
  (collection "teachers" w = Some (map JDict ds) ->
     (forallb (complete Teacher_required) (map JDict ds) = true ->
      GradeRepository.getTeachers w = (Ok (map Teacher_of ds), w)) /\
     (forall e w', GradeRepository.getTeachers w = (Raise e, w') ->
      w' = w /\ exists d k, d ∈ ds /\ In k Teacher_required /\
                            dict_lookup k d = None /\ e = KeyError k)) /\
  (collection "disciplines" w = Some (map JDict ds) ->
     (forallb (complete Discipline_required) (map JDict ds) = true ->
      GradeRepository.getDisciplines w = (Ok (map Discipline_of ds), w)) /\
     (forall e w', GradeRepository.getDisciplines w = (Raise e, w') ->
      w' = w /\ exists d k, d ∈ ds /\ In k Discipline_required /\
                            dict_lookup k d = None /\ e = KeyError k)) /\
  (collection "groups" w = Some (map JDict ds) ->
     (forallb (complete Group_required) (map JDict ds) = true ->
      GradeRepository.getGroups w = (Ok (map Group_of ds), w)) /\
     (forall e w', GradeRepository.getGroups w = (Raise e, w') ->
      w' = w /\ exists d k, d ∈ ds /\ In k Group_required /\
                            dict_lookup k d = None /\ e = KeyError k)).
Proof.
  split; [apply (getter_spec _ _ _ Student_from_dict_contract)|].
  split; [apply (getter_spec _ _ _ Teacher_from_dict_contract)|].
  split; [apply (getter_spec _ _ _ Discipline_from_dict_contract)|].
  apply (getter_spec _ _ _ Group_from_dict_contract).
Qed.

(** ** The getters by id *)

Lemma has_id_getitem (n : Z) (s : json) :
  has_id n s = true -> getitem s "id" = Ok (JInt n).
Proof.
  unfold has_id, number, field, getitem. destruct s as [| | | | |d]; try discriminate.
  destruct (dict_lookup "id" d) as [[]|]; try discriminate.
  intros H. apply Z.eqb_eq in H. subst. reflexivity.
Qed.

Lemma first_by_id_scan (n : Z) (before rest : list json) :
  scan_stops n before rest ->
  GradeRepository.first_by_id (before ++ rest) n = Ok (head rest).
Proof.
  intros (Hids & Hnone & Hrest).
  induction before as [|r before IH].
  - destruct rest as [|s rest]; [reflexivity|].
    cbn [app GradeRepository.first_by_id head]. rewrite (has_id_getitem n s Hrest).
    cbn [mbind result_bind]. unfold eq_int. cbn [as_int]. rewrite Z.eqb_refl. reflexivity.
  - cbn [forallb] in Hids. apply andb_prop in Hids as [Hr Hids].
    cbn [existsb] in Hnone. apply orb_false_elim in Hnone as [Hrn Hnone].
    destruct (has_int_id_getitem r Hr) as (m & Hget & _ & Hid).
    cbn [app GradeRepository.first_by_id]. rewrite Hget. cbn [mbind result_bind].
    unfold eq_int. cbn [as_int]. rewrite <- Hid, Hrn. apply IH; assumption.
Qed.

Lemma by_id_scan {T : Type} (name : string) (from_dict : json -> result T)
  (w : World) (n : Z) (before rest : list json) :
  scan_stops n before rest ->
  collection name w = Some (before ++ rest) ->
  GradeRepository.by_id name from_dict n w = (scan_answer from_dict rest, w).
Proof.
  intros Hscan Hc. unfold GradeRepository.by_id.
  erewrite run_bind_ok by (apply data_getitem_collection; exact Hc).
  erewrite run_bind_ok by reflexivity.
  erewrite run_bind_ok
    by (unfold lift; rewrite (first_by_id_scan n before rest Hscan); reflexivity).
  destruct rest as [|s rest]; [reflexivity|].
  cbn [head scan_answer]. rewrite run_bind. unfold lift.
  destruct (from_dict s); reflexivity.
Qed.

(** X5: a getter by id answers from the first record of that id and
    reads no record after it: whatever follows, malformed records
    included, plays no part.  It answers [None] when the scan reaches
    the end.  The answer is [from_dict] of the record, its [KeyError]
    included; the world is as it was, except that [getGradeById] makes a
    new [Grade] instance on each call that finds a grade. *)
Theorem getById_first_match (w : World) (n : Z) (before rest : list json) :
  scan_stops n before rest ->
  (collection "students" w = Some (before ++ rest) ->
   GradeRepository.getStudentById n w = (scan_answer Student.from_dict rest, w)) /\
  (collection "disciplines" w = Some (before ++ rest) ->
   GradeRepository.getDisciplineById n w = (scan_answer Discipline.from_dict rest, w)) /\
  (collection "teachers" w = Some (before ++ rest) ->
   GradeRepository.getTeacherById n w = (scan_answer Teacher.from_dict rest, w)) /\
  (collection "grades" w = Some (before ++ rest) ->
   GradeRepository.getGradeById n w =
   match scan_answer (Grade.from_dict (today w)) rest with
   | Ok (Some g) => (Ok (Some (length (objects w))), with_objects w (objects w ++ [g]))
   | Ok None => (Ok None, w)
   | Raise e => (Raise e, w)
   end).
Proof.
  intros Hscan.
  split; [apply by_id_scan; exact Hscan|].
  split; [apply by_id_scan; exact Hscan|].
  split; [apply by_id_scan; exact Hscan|].
  intros Hc. unfold GradeRepository.getGradeById.
  erewrite run_bind_ok by reflexivity.
  rewrite run_bind, (by_id_scan "grades" _ w n before rest Hscan Hc).
  destruct (scan_answer (Grade.from_dict (today w)) rest) as [[g|]|e]; reflexivity.
Qed.

(** ** The join of the search and the getters by id *)

Lemma filter_has_id_unique (n : Z) (rs : list json) :
  forallb has_int_id rs = true ->
  NoDup (ids_of rs) ->
  last (List.filter (has_id n) rs) = head (List.filter (has_id n) rs).
Proof.
  induction rs as [|r rs IH]; intros Hids Hnd; [reflexivity|].
  cbn [forallb] in Hids. apply andb_prop in Hids as [Hr Hids].
  destruct (has_int_id_getitem r Hr) as (m & _ & Hnum & Hid).
  rewrite (ids_of_cons _ _ m Hnum) in Hnd. apply NoDup_cons in Hnd as [Hm Hnd].
  cbn [List.filter]. destruct (has_id n r) eqn:E.
  - rewrite Hid in E. apply Z.eqb_eq in E. subst m.
    assert (Hnone : List.filter (has_id n) rs = []).
    { destruct (existsb (has_id n) rs) eqn:Ex.
      - apply has_id_elem_of in Ex; [contradiction | exact Hids].
      - clear -Ex. induction rs as [|x rs IH]; [reflexivity|].
        cbn [existsb] in Ex. apply orb_false_elim in Ex as [Hx Hrs].
        cbn [List.filter]. rewrite Hx. apply IH, Hrs. }
    rewrite Hnone. reflexivity.
  - apply IH; assumption.
Qed.

Lemma first_by_id_filter (n : Z) (rs : list json) :
  forallb has_int_id rs = true ->
  GradeRepository.first_by_id rs n = Ok (head (List.filter (has_id n) rs)).
Proof.
  induction rs as [|r rs IH]; intros Hids; [reflexivity|].
  cbn [forallb] in Hids. apply andb_prop in Hids as [Hr Hids].
  destruct (has_int_id_getitem r Hr) as (m & Hget & _ & Hid).
  cbn [GradeRepository.first_by_id List.filter]. rewrite Hget. cbn [mbind result_bind].
  unfold eq_int. cbn [as_int]. rewrite <- Hid.
  destruct (has_id n r); [reflexivity | apply IH, Hids].
Qed.

(** X6: the search and the getters by id do not resolve an id the same
    way.  The index [findGrades] builds with a dict comprehension keeps,
    for an id, the last record that has it; the scan of the getters
    stops at the first.  The two agree on every id when the ids of the
    collection are unique, and an id that no record has resolves to the
    empty record in the search and to [None] in the getter. *)
Theorem search_joins_last_getter_first (rs : list json) :
  forallb has_int_id rs = true ->
  exists idx,
    index_by_id rs [] = Ok idx /\
    (forall n,
       index_get idx (JInt n) (JDict [])
       = Ok (default (JDict []) (last (List.filter (has_id n) rs))) /\
       GradeRepository.first_by_id rs n = Ok (head (List.filter (has_id n) rs)) /\
       (existsb (has_id n) rs = false ->
        index_get idx (JInt n) (JDict []) = Ok (JDict []) /\
        GradeRepository.first_by_id rs n = Ok None)) /\
    (NoDup (ids_of rs) ->
     forall n s, GradeRepository.first_by_id rs n = Ok (Some s) ->
                 index_get idx (JInt n) (JDict []) = Ok s).
Proof.
  intros Hids. destruct (index_get_resolve rs Hids) as (idx & Hrun & Hget).
  exists idx. split; [exact Hrun|]. split.
  - intros n. rewrite Hget, (first_by_id_filter n rs Hids).
    split; [reflexivity|]. split; [reflexivity|].
    intros Hnone. unfold resolve.
    assert (Hf : List.filter (has_id n) rs = []).
    { clear -Hnone. induction rs as [|x rs IH]; [reflexivity|].
      cbn [existsb] in Hnone. apply orb_false_elim in Hnone as [Hx Hrs].
      cbn [List.filter]. rewrite Hx. apply IH, Hrs. }
    rewrite Hf. split; reflexivity.
  - intros Hnd n s Hfirst. rewrite Hget. unfold resolve.
    rewrite (filter_has_id_unique n rs Hids Hnd).
    rewrite (first_by_id_filter n rs Hids) in Hfirst. injection Hfirst as ->.
    reflexivity.
Qed.

(** ** A repository without a file, and loading *)

(** X7: created on a path where there is no file, a repository starts
    from the five empty collections and creates no file.  On that store
    the next grade id is 1, every search and every list getter answers
    the empty list, no grade is found by id and [removeGrade] answers
    [False]; none of them touches the disk. *)
Theorem init_without_file (lower : string -> string) (path : string) (w : World) :
  files w !! path = None ->
  let w' := mkWorld path empty_store (files w) (writes w) (objects w) (today w) in
  GradeRepository.__init__ path w = (Ok tt, w') /\
  GradeRepository.nextGradeId w' = (Ok 1, w') /\
  (forall criteria, GradeRepository.findGrades lower criteria w' = (Ok [], w')) /\
  GradeRepository.getStudents w' = (Ok [], w') /\
  GradeRepository.getTeachers w' = (Ok [], w') /\
  GradeRepository.getDisciplines w' = (Ok [], w') /\
  GradeRepository.getGroups w' = (Ok [], w') /\
  (forall n, GradeRepository.getGradeById n w' = (Ok None, w')) /\
  (forall n, GradeRepository.removeGrade n w' = (Ok false, w')).
Proof.
  intros Hfile w'. split.
  - unfold GradeRepository.__init__.
    erewrite run_bind_ok by reflexivity.
    erewrite run_bind_ok by reflexivity.
    erewrite run_bind_ok.
    2:{ unfold GradeRepository.exists_, read. cbn [files]. rewrite Hfile.
        rewrite bool_decide_eq_false_2 by (intros [x Hx]; discriminate Hx).
        reflexivity. }
    reflexivity.
  - repeat split; reflexivity.
Qed.

(** X8: [loadFromJSON] is all or nothing.  When it raises, for a file
    that is not there ([FileNotFoundError]) or a text that does not
    parse, the repository is as it was: no collection is replaced.
    When it returns, [_data] is the parsed text of the file as a whole,
    and nothing else changed: the repository keeps its own [filePath],
    also after loading from another path. *)
Theorem loadFromJSON_all_or_nothing (path : string) (w : World) :
  (files w !! path = None ->
   GradeRepository.loadFromJSON path w = (Raise (FileNotFoundError path), w)) /\
  (forall e w',
     GradeRepository.loadFromJSON path w = (Raise e, w') ->
     w' = w /\
     (files w !! path = None /\ e = FileNotFoundError path \/
      exists text, files w !! path = Some text /\ Json.loads text = Raise e)) /\
  (forall w',
     GradeRepository.loadFromJSON path w = (Ok tt, w') ->
     (exists text, files w !! path = Some text /\ Json.loads text = Ok (_data w')) /\
     filePath w' = filePath w /\ files w' = files w /\ writes w' = writes w /\
     objects w' = objects w).
Proof.
  unfold GradeRepository.loadFromJSON. rewrite run_bind. unfold read_file.
  destruct (files w !! path) as [text|] eqn:Hfile.
  - rewrite run_bind. unfold lift.
    destruct (Json.loads text) as [d|e0] eqn:Hload.
    + split; [discriminate|]. split; [discriminate|].
      intros w' H. injection H as <-. cbn. split; [|auto]. exists text. auto.
    + split; [discriminate|]. split; [|discriminate].
      intros e w' H. injection H as <- <-. split; [reflexivity|].
      right. exists text. auto.
  - split; [reflexivity|]. split; [|discriminate].
    intros e w' H. injection H as <- <-. split; [reflexivity|]. left. auto.
Qed.

(** ** Valid stores under the mutators *)

Lemma valid_dict_intro (d : list (string * json)) :
  NoDup (map fst d) -> Forall (fun kv => valid (snd kv) = true) d ->
  valid (JDict d) = true.
Proof.
  intros Hnd Hall. cbn [valid]. apply andb_true_intro. split.
  - apply bool_decide_eq_true. exact Hnd.
  - clear Hnd. induction Hall as [|[k x] d Hx _ IH]; [reflexivity|].
    cbn [snd] in Hx. rewrite Hx. exact IH.
Qed.

Lemma dict_set_keys (k : string) (v v0 : json) (d : list (string * json)) :
  dict_lookup k d = Some v0 -> map fst (dict_set k v d) = map fst d.
Proof.
  induction d as [|[k' v'] d IH]; [discriminate|].
  cbn [dict_lookup dict_set]. destruct (String.eqb k k'); [reflexivity|].
  intros H. cbn [map fst]. rewrite (IH H). reflexivity.
Qed.

Lemma dict_set_Forall (P : string * json -> Prop) (k : string) (v : json)
  (d : list (string * json)) :
  (forall k', P (k', v)) -> Forall P d -> Forall P (dict_set k v d).
Proof.
  intros Hv. induction 1 as [|[k' v'] d Hx Hd IH]; cbn [dict_set].
  - repeat constructor. apply Hv.
  - destruct (String.eqb k k'); constructor; auto.
Qed.

Lemma dict_lookup_Forall (P : string * json -> Prop) (k : string) (v : json)
  (d : list (string * json)) :
  Forall P d -> dict_lookup k d = Some v -> exists k', P (k', v).
Proof.
  induction 1 as [|[k' v'] d Hx Hd IH]; [discriminate|].
  cbn [dict_lookup]. destruct (String.eqb k k'); [|exact IH].
  intros [= <-]. eauto.
Qed.

Lemma dict_set_twice (k : string) (v v' : json) (d : list (string * json)) :
  dict_set k v (dict_set k v' d) = dict_set k v d.
Proof.
  induction d as [|[k0 v0] d IH]; cbn [dict_set].
  - rewrite String.eqb_refl. reflexivity.
  - destruct (String.eqb k k0) eqn:E; cbn [dict_set]; rewrite E; [reflexivity|].
    rewrite IH. reflexivity.
Qed.

(** Replacing the grades of a valid store by valid records gives a valid
    store. *)
Lemma valid_set_grades (d : list (string * json)) (gs gs' : list json) :
  valid (JDict d) = true ->
  dict_lookup "grades" d = Some (JList gs) ->
  forallb valid gs' = true ->
  valid (JDict (dict_set "grades" (JList gs') d)) = true.
Proof.
  intros Hv Hl Hgs'. apply valid_dict in Hv as [Hnd Hall].
  apply valid_dict_intro.
  - rewrite (dict_set_keys _ _ _ _ Hl). exact Hnd.
  - apply dict_set_Forall; [intros k'; exact Hgs' | exact Hall].
Qed.

Lemma valid_grades (d : list (string * json)) (gs : list json) :
  valid (JDict d) = true ->
  dict_lookup "grades" d = Some (JList gs) ->
  forallb valid gs = true.
Proof.
  intros Hv Hl. apply valid_dict in Hv as [_ Hall].
  destruct (dict_lookup_Forall _ _ _ _ Hall Hl) as [k' H]. exact H.
Qed.

Lemma forallb_filter_weaken {A : Type} (p q : A -> bool) (l : list A) :
  forallb p l = true -> forallb p (List.filter q l) = true.
Proof.
  induction l as [|x l IH]; [reflexivity|].
  cbn [forallb List.filter]. intros H. apply andb_prop in H as [Hx Hl].
  destruct (q x); cbn [forallb]; [rewrite Hx|]; auto.
Qed.

(** ** The runs of the mutators *)

Lemma addGrade_run (grade : Grade.t) (w : World) (gs : list json)
  (d : list (string * json)) :
  _data w = JDict d ->
  dict_lookup "grades" d = Some (JList gs) ->
  GradeRepository.addGrade grade w =
  let d' := JDict (dict_set "grades" (JList (gs ++ [Grade.to_dict grade])) d) in
  (Ok tt, mkWorld (filePath w) d' (<[filePath w := Json.dumps d']> (files w))
            (writes w ++ [filePath w]) (objects w) (today w)).
Proof.
  intros Hd Hl.
  assert (Hc : collection "grades" w = Some gs)
    by (unfold collection; rewrite Hd, Hl; reflexivity).
  unfold GradeRepository.addGrade.
  erewrite run_bind_ok by (apply data_getitem_collection; exact Hc).
  erewrite run_bind_ok by reflexivity.
  destruct w as [fp dat fl wr ob td]. cbn [_data] in Hd. subst dat.
  reflexivity.
Qed.

Lemma removeGrade_absent (id : Z) (w : World) (gs : list json) :
  collection "grades" w = Some gs ->
  forallb has_int_id gs = true ->
  existsb (has_id id) gs = false ->
  GradeRepository.removeGrade id w = (Ok false, w).
Proof.
  intros Hc Hids Hex. destruct (collection_data _ _ _ Hc) as (d & Hd & Hl).
  rewrite (removeGrade_run id w gs d Hd Hl Hids). cbv zeta. rewrite Hex.
  rewrite (filter_negb_none _ _ Hex), (dict_set_same _ _ _ Hl), <- Hd.
  rewrite world_eta. reflexivity.
Qed.

(** A repository created on the file of a repository whose file holds
    its store is in the same state. *)
Lemma reload_synced (w : World) :
  synced w -> valid (_data w) = true ->
  GradeRepository.__init__ (filePath w) w = (Ok tt, w).
Proof.
  unfold synced. intros Hfile Hv. unfold GradeRepository.__init__.
  erewrite run_bind_ok by reflexivity.
  erewrite run_bind_ok by reflexivity.
  erewrite run_bind_ok.
  2:{ unfold GradeRepository.exists_, read. cbn [files]. rewrite Hfile.
      rewrite bool_decide_eq_true_2 by eauto. reflexivity. }
  cbv beta iota.
  erewrite loadFromJSON_run by (cbn [files]; eassumption).
  cbn [filePath files writes objects today]. rewrite world_eta. reflexivity.
Qed.

(** ** Persistence of the mutations *)

(** X9: a grade submitted by a teacher through the repository is
    persisted: after the call the repository's file holds the store that
    is in memory, grade included, and a repository created anew on that
    file has this very store, with the grade at the end of its grades.
    No key of a dict may be repeated in the store or in the grade. *)
Theorem submitGrade_survives_reload (lower : string -> string) (self : Teacher.t)
  (grade : Grade.t) (w : World) (gs : list json) :
  collection "grades" w = Some gs ->
  valid (_data w) = true ->
  valid (Grade.to_dict grade) = true ->
  exists w1,
    Teacher.submitGrade self grade (GradeRepository.as_repo lower) w = (Ok tt, w1) /\
    filePath w1 = filePath w /\
    synced w1 /\ valid (_data w1) = true /\
    collection "grades" w1 = Some (gs ++ [Grade.to_dict grade]) /\
    GradeRepository.__init__ (filePath w) w1 = (Ok tt, w1).
Proof.
  intros Hc Hv Hg. destruct (collection_data _ _ _ Hc) as (d & Hd & Hl).
  unfold Teacher.submitGrade. cbn [repo_addGrade GradeRepository.as_repo].
  rewrite (addGrade_run grade w gs d Hd Hl). cbv zeta.
  eexists. split; [reflexivity|]. split; [reflexivity|].
  assert (Hs : synced
            (mkWorld (filePath w)
               (JDict (dict_set "grades" (JList (gs ++ [Grade.to_dict grade])) d))
               (<[filePath w :=
                    Json.dumps
                      (JDict (dict_set "grades" (JList (gs ++ [Grade.to_dict grade])) d))]>
                  (files w))
               (writes w ++ [filePath w]) (objects w) (today w)))
    by (unfold synced; cbn [files filePath _data]; apply lookup_insert_eq).
  assert (Hv' : valid (JDict (dict_set "grades"
                                (JList (gs ++ [Grade.to_dict grade])) d)) = true).
  { rewrite Hd in Hv. apply (valid_set_grades d gs _ Hv Hl).
    rewrite forallb_app, (valid_grades d gs Hv Hl). cbn [forallb].
    rewrite Hg. reflexivity. }
  split; [exact Hs|]. split; [exact Hv'|]. split.
  - unfold collection. cbn [_data]. rewrite dict_lookup_set_eq. reflexivity.
  - apply (reload_synced _ Hs Hv').
Qed.

(** X10: [removeGrade] keeps the file in step with the store.  When it
    answers [True] the file holds the store without the removed records;
    when it answers [False] nothing was written, so a file that held the
    store still does.  Either way a repository created anew on the file
    has the store that is in memory. *)
Theorem removeGrade_survives_reload (id : Z) (w : World) (gs : list json) :
  collection "grades" w = Some gs ->
  forallb has_int_id gs = true ->
  valid (_data w) = true ->
  exists w1,
    GradeRepository.removeGrade id w = (Ok (existsb (has_id id) gs), w1) /\
    filePath w1 = filePath w /\
    valid (_data w1) = true /\
    collection "grades" w1 = Some (List.filter (fun g => negb (has_id id g)) gs) /\
    (existsb (has_id id) gs = true \/ synced w ->
     synced w1 /\ GradeRepository.__init__ (filePath w) w1 = (Ok tt, w1)).
Proof.
  intros Hc Hids Hv. destruct (collection_data _ _ _ Hc) as (d & Hd & Hl).
  destruct (existsb (has_id id) gs) eqn:Hex.
  - rewrite (removeGrade_run id w gs d Hd Hl Hids). cbv zeta. rewrite Hex.
    eexists. split; [reflexivity|]. cbn [filePath _data files].
    split; [reflexivity|].
    assert (Hv' : valid (JDict (dict_set "grades"
                          (JList (List.filter (fun g => negb (has_id id g)) gs)) d)) = true).
    { rewrite Hd in Hv. apply (valid_set_grades d gs _ Hv Hl).
      apply forallb_filter_weaken, (valid_grades d gs Hv Hl). }
    split; [exact Hv'|]. split.
    + unfold collection. cbn [_data]. rewrite dict_lookup_set_eq. reflexivity.
    + intros _.
      match goal with |- synced ?w1 /\ _ =>
        assert (Hs : synced w1)
          by (unfold synced; cbn [files filePath _data]; apply lookup_insert_eq)
      end.
      split; [exact Hs|]. apply (reload_synced _ Hs Hv').
  - rewrite (removeGrade_absent id w gs Hc Hids Hex).
    exists w. split; [reflexivity|]. split; [reflexivity|]. split; [exact Hv|].
    split; [rewrite (filter_negb_none _ _ Hex); exact Hc|].
    intros [H|Hs]; [discriminate|]. split; [exact Hs|]. apply (reload_synced w Hs Hv).
Qed.

(** ** Ids under the mutators *)

Lemma nextGradeId_run (w : World) (gs : list json) :
  collection "grades" w = Some gs ->
  forallb has_int_id gs = true ->
  GradeRepository.nextGradeId w =
  (Ok (match ids_of gs with
       | [] => 1
       | i :: ids => fold_left Z.max ids i + 1
       end), w).
Proof.
  intros Hc Hids. unfold GradeRepository.nextGradeId.
  erewrite run_bind_ok by (apply data_getitem_collection; exact Hc).
  destruct gs as [|g gs]; [reflexivity|].
  cbn [truthy negb].
  erewrite run_bind_ok by (apply data_getitem_collection; exact Hc).
  erewrite run_bind_ok by reflexivity.
  cbn [forallb] in Hids. apply andb_prop in Hids as [Hg Hgs].
  destruct (has_int_id_getitem g Hg) as (n & Hget & Hnum & _).
  rewrite (ids_of_cons _ _ n Hnum).
  unfold GradeRepository.max_id. rewrite Hget. cbn [mbind result_bind].
  rewrite (max_id_loop_ints gs n Hgs). reflexivity.
Qed.

Lemma ids_of_app (gs gs' : list json) : ids_of (gs ++ gs') = ids_of gs ++ ids_of gs'.
Proof. unfold ids_of. apply omap_app. Qed.

Lemma to_dict_id (grade : Grade.t) (n : Z) :
  Grade.id grade = JInt n ->
  has_int_id (Grade.to_dict grade) = true /\
  number (Grade.to_dict grade) "id" = Some n /\
  has_id n (Grade.to_dict grade) = true.
Proof.
  intros H. unfold has_int_id, has_id, number, field, Grade.to_dict.
  cbn [dict_lookup String.eqb Ascii.eqb Bool.eqb]. rewrite H. cbn [is_int].
  rewrite Z.eqb_refl. auto.
Qed.

Lemma ids_of_appended (gs : list json) (grade : Grade.t) (n : Z) :
  Grade.id grade = JInt n ->
  forallb has_int_id gs = true ->
  forallb has_int_id (gs ++ [Grade.to_dict grade]) = true /\
  ids_of (gs ++ [Grade.to_dict grade]) = ids_of gs ++ [n].
Proof.
  intros Hid Hids. destruct (to_dict_id grade n Hid) as (Hint & Hnum & _). split.
  - rewrite forallb_app, Hids. cbn [forallb]. rewrite Hint. reflexivity.
  - rewrite ids_of_app. f_equal. apply (ids_of_cons _ [] n Hnum).
Qed.

Lemma not_elem_of_ids (gs : list json) (n : Z) :
  forallb has_int_id gs = true ->
  n ∉ ids_of gs -> existsb (has_id n) gs = false.
Proof.
  intros Hids Hn. destruct (existsb (has_id n) gs) eqn:E; [|reflexivity].
  apply (has_id_elem_of gs n Hids) in E. contradiction.
Qed.

Lemma filter_appended (gs : list json) (grade : Grade.t) (n : Z) :
  Grade.id grade = JInt n ->
  existsb (has_id n) gs = false ->
  List.filter (fun g => negb (has_id n g)) (gs ++ [Grade.to_dict grade]) = gs.
Proof.
  intros Hid Hex. destruct (to_dict_id grade n Hid) as (_ & _ & Hhas).
  rewrite List.filter_app, (filter_negb_none _ _ Hex). cbn [List.filter].
  rewrite Hhas. cbn [negb]. apply app_nil_r.
Qed.

Lemma Grade_from_dict_to_dict (now : string) (grade : Grade.t) :
  Grade.date grade <> JNull ->
  Grade.from_dict now (Grade.to_dict grade) = Ok grade.
Proof.
  destruct grade as [? ? ? ? ? ? ? dt]. cbn [Grade.date]. intros H.
  destruct dt; [contradiction| | | | |]; reflexivity.
Qed.

(** X11: numbering with [nextGradeId] keeps the grade ids unique.  On
    integer ids without a repeat, a grade added under the id that
    [nextGradeId] answered leaves the ids without a repeat, and the next
    answer of [nextGradeId] is one more. *)
Theorem nextGradeId_then_addGrade (grade : Grade.t) (n : Z) (w : World)
  (gs : list json) :
  collection "grades" w = Some gs ->
  forallb has_int_id gs = true ->
  NoDup (ids_of gs) ->
  GradeRepository.nextGradeId w = (Ok n, w) ->
  Grade.id grade = JInt n ->
  exists w1 gs1,
    GradeRepository.addGrade grade w = (Ok tt, w1) /\
    collection "grades" w1 = Some gs1 /\
    forallb has_int_id gs1 = true /\
    ids_of gs1 = ids_of gs ++ [n] /\
    NoDup (ids_of gs1) /\
    (forall i, i ∈ ids_of gs -> i < n) /\
    GradeRepository.nextGradeId w1 = (Ok (n + 1), w1).
Proof.
  intros Hc Hids Hnd Hnext Hid.
  rewrite (nextGradeId_run w gs Hc Hids) in Hnext. injection Hnext as Hn.
  destruct (collection_data _ _ _ Hc) as (d & Hd & Hl).
  destruct (ids_of_appended gs grade n Hid Hids) as [Hids1 Hids_of].
  assert (Hlt : forall i, i ∈ ids_of gs -> i < n).
  { destruct (ids_of gs) as [|i0 ids]; [intros i Hi; inversion Hi|].
    destruct (fold_max_bounds ids i0) as (Hb & Hall & _).
    intros i Hi. apply elem_of_cons in Hi as [->|Hi]; [lia|].
    specialize (Hall i Hi). lia. }
  rewrite (addGrade_run grade w gs d Hd Hl). cbv zeta.
  eexists _, (gs ++ [Grade.to_dict grade]). split; [reflexivity|].
  assert (Hc1 : forall fl wr,
            collection "grades"
              (mkWorld (filePath w)
                 (JDict (dict_set "grades" (JList (gs ++ [Grade.to_dict grade])) d))
                 fl wr (objects w) (today w))
            = Some (gs ++ [Grade.to_dict grade])).
  { intros fl wr. unfold collection. cbn [_data]. rewrite dict_lookup_set_eq.
    reflexivity. }
  split; [apply Hc1|]. split; [exact Hids1|]. split; [exact Hids_of|].
  split; [|split; [exact Hlt|]].
  - rewrite Hids_of. apply NoDup_app. split; [exact Hnd|]. split.
    + intros i Hi Hi'. apply list_elem_of_singleton in Hi'. subst i.
      specialize (Hlt n Hi). lia.
    + apply NoDup_singleton.
  - rewrite (nextGradeId_run _ _ (Hc1 _ _) Hids1), Hids_of. do 2 f_equal.
    destruct (ids_of gs) as [|i0 ids]; cbn [app].
    + cbn [fold_left]. lia.
    + rewrite fold_left_app. cbn [fold_left]. lia.
Qed.

(** X12: a grade added under an id that no stored grade has is the one
    [getGradeById] answers for that id right after: a new instance,
    equal to the grade that was added. *)
Theorem getGradeById_after_addGrade (grade : Grade.t) (n : Z) (w : World)
  (gs : list json) :
  collection "grades" w = Some gs ->
  forallb has_int_id gs = true ->
  Grade.id grade = JInt n ->
  n ∉ ids_of gs ->
  Grade.date grade <> JNull ->
  exists w1,
    GradeRepository.addGrade grade w = (Ok tt, w1) /\
    GradeRepository.getGradeById n w1
    = (Ok (Some (length (objects w))), with_objects w1 (objects w ++ [grade])).
Proof.
  intros Hc Hids Hid Hn Hdate.
  destruct (collection_data _ _ _ Hc) as (d & Hd & Hl).
  rewrite (addGrade_run grade w gs d Hd Hl). cbv zeta.
  eexists. split; [reflexivity|].
  unfold GradeRepository.getGradeById.
  erewrite run_bind_ok by reflexivity.
  rewrite run_bind.
  rewrite (by_id_scan "grades" _ _ n gs [Grade.to_dict grade]).
  - cbn [scan_answer]. rewrite (Grade_from_dict_to_dict _ grade Hdate).
    reflexivity.
  - split; [exact Hids|]. split; [apply not_elem_of_ids; assumption|].
    apply (to_dict_id grade n Hid).
  - unfold collection. cbn [_data]. rewrite dict_lookup_set_eq. reflexivity.
Qed.

(** X13: after [removeGrade] of an id, whatever it answered, no grade is
    found under that id and a second [removeGrade] of it answers [False]
    and changes nothing. *)
Theorem removeGrade_twice (id : Z) (w : World) (gs : list json) :
  collection "grades" w = Some gs ->
  forallb has_int_id gs = true ->
  exists b w1,
    GradeRepository.removeGrade id w = (Ok b, w1) /\
    GradeRepository.getGradeById id w1 = (Ok None, w1) /\
    GradeRepository.removeGrade id w1 = (Ok false, w1).
Proof.
  intros Hc Hids. destruct (collection_data _ _ _ Hc) as (d & Hd & Hl).
  set (kept := List.filter (fun g => negb (has_id id g)) gs).
  assert (Hkids : forallb has_int_id kept = true)
    by (apply forallb_filter_weaken; exact Hids).
  assert (Hnone : existsb (has_id id) kept = false).
  { subst kept. clear. induction gs as [|g gs IH]; [reflexivity|].
    cbn [List.filter]. destruct (has_id id g) eqn:E; cbn [negb existsb]; [exact IH|].
    rewrite E. exact IH. }
  assert (Hafter : forall w1, collection "grades" w1 = Some kept ->
            GradeRepository.getGradeById id w1 = (Ok None, w1) /\
            GradeRepository.removeGrade id w1 = (Ok false, w1)).
  { intros w1 Hc1. split; [|apply (removeGrade_absent id w1 kept Hc1 Hkids Hnone)].
    unfold GradeRepository.getGradeById.
    erewrite run_bind_ok by reflexivity.
    erewrite run_bind_ok.
    2:{ apply (by_id_scan "grades" _ _ id kept []).
        - split; [exact Hkids|]. split; [exact Hnone | exact I].
        - rewrite app_nil_r. exact Hc1. }
    reflexivity. }
  rewrite (removeGrade_run id w gs d Hd Hl Hids). cbv zeta.
  destruct (existsb (has_id id) gs); eexists _, _; (split; [reflexivity|]);
    apply Hafter; unfold collection; cbn [_data]; rewrite dict_lookup_set_eq;
    reflexivity.
Qed.

(** X14: [removeGrade] undoes [addGrade] of a grade whose id no stored
    grade has: the store in memory is again what it was, and the file
    holds it, after two writes. *)
Theorem removeGrade_undoes_addGrade (grade : Grade.t) (n : Z) (w : World)
  (gs : list json) :
  collection "grades" w = Some gs ->
  forallb has_int_id gs = true ->
  Grade.id grade = JInt n ->
  n ∉ ids_of gs ->
  exists w1 w2,
    GradeRepository.addGrade grade w = (Ok tt, w1) /\
    GradeRepository.removeGrade n w1 = (Ok true, w2) /\
    _data w2 = _data w /\
    filePath w2 = filePath w /\
    files w2 = <[filePath w := Json.dumps (_data w)]> (files w) /\
    writes w2 = writes w ++ [filePath w; filePath w] /\
    objects w2 = objects w.
Proof.
  intros Hc Hids Hid Hn.
  destruct (collection_data _ _ _ Hc) as (d & Hd & Hl).
  destruct (ids_of_appended gs grade n Hid Hids) as [Hids1 _].
  pose proof (not_elem_of_ids gs n Hids Hn) as Hex.
  rewrite (addGrade_run grade w gs d Hd Hl). cbv zeta.
  eexists _, _. split; [reflexivity|].
  erewrite removeGrade_run;
    [|reflexivity | cbn [_data]; apply dict_lookup_set_eq | exact Hids1].
  cbv zeta.
  assert (Hhas : existsb (has_id n) (gs ++ [Grade.to_dict grade]) = true).
  { rewrite existsb_app. cbn [existsb].
    destruct (to_dict_id grade n Hid) as (_ & _ & ->). apply orb_true_iff. auto. }
  rewrite Hhas. split; [reflexivity|]. cbn [_data filePath files writes objects].
  rewrite (filter_appended gs grade n Hid Hex), dict_set_twice,
    (dict_set_same _ _ _ Hl), insert_insert_eq, <- app_assoc, Hd.
  repeat split; reflexivity.
Qed.

(** ** Failures of the mutators *)

Lemma data_getitem_world (k : string) (w : World) :
  snd (data_getitem k w) = w.
Proof.
  unfold data_getitem. rewrite run_bind. unfold read, lift. reflexivity.
Qed.

(** X15: a call of [addGrade] or [removeGrade] that raises (no grades
    collection, a collection that is no list, a record without an id)
    does so before anything is assigned or written: the repository, the
    disk and the instances are as they were.  The disk itself does not
    fail here. *)
Theorem mutators_raise_before_writing (w : World) (e : exn) (w' : World) :
  (forall grade, GradeRepository.addGrade grade w = (Raise e, w') -> w' = w) /\
  (forall id, GradeRepository.removeGrade id w = (Raise e, w') -> w' = w).
Proof.
  split.
  - intros grade. unfold GradeRepository.addGrade. rewrite run_bind.
    pose proof (data_getitem_world "grades" w) as Hw.
    destruct (data_getitem "grades" w) as [[grades|e0] w0] eqn:Hget;
      cbn [snd] in Hw; subst w0; [|intros [= _ <-]; reflexivity].
    rewrite run_bind. unfold lift at 1.
    destruct (append grades (Grade.to_dict grade)) as [grades'|e0];
      [|intros [= _ <-]; reflexivity].
    rewrite run_bind. unfold data_setitem at 1. rewrite run_bind. unfold read at 1.
    destruct (_data w) as [| | | | |d]; intros [= _ <-]; reflexivity.
  - intros id. unfold GradeRepository.removeGrade. rewrite run_bind.
    pose proof (data_getitem_world "grades" w) as Hw.
    destruct (data_getitem "grades" w) as [[grades|e0] w0] eqn:Hget;
      cbn [snd] in Hw; subst w0; [|intros [= _ <-]; reflexivity].
    rewrite run_bind. unfold lift at 1.
    destruct (len grades) as [original_len|e0]; [|intros [= _ <-]; reflexivity].
    rewrite run_bind, Hget.
    rewrite run_bind. unfold lift at 1.
    destruct (iter grades) as [gs|e0]; [|intros [= _ <-]; reflexivity].
    rewrite run_bind. unfold lift at 1.
    destruct (rfilter _ gs) as [kept|e0]; [|intros [= _ <-]; reflexivity].
    rewrite run_bind. unfold data_setitem at 1. rewrite run_bind. unfold read at 1.
    destruct (_data w) as [| | | | |d]; try (intros [= _ <-]; reflexivity).
    unfold set_data.
    destruct (length kept <? original_len)%nat; discriminate.
Qed.

(** ** Editing a grade through the repository *)

Lemma editGrade_loop_run (lower : string -> string) (gradeId newValue : Z)
  (comment : string) (fp : string) (dat : json) (fl : gmap string string)
  (wr : list string) (td : string) (todo : list Grade.t) :
  forall pre : list Grade.t,
    Teacher.editGrade_loop (seq (length pre) (length todo)) gradeId newValue comment
      (GradeRepository.as_repo lower) (mkWorld fp dat fl wr (pre ++ todo) td)
    = if existsb (has_grade_id gradeId) todo
      then (Ok true,
            mkWorld fp dat (<[fp := Json.dumps dat]> fl) (wr ++ [fp])
              (pre ++ edit_first gradeId (JInt newValue) (JStr comment) todo) td)
      else (Ok false, mkWorld fp dat fl wr (pre ++ todo) td).
Proof.
  induction todo as [|g todo IH]; intros pre; [reflexivity|].
  cbn [length seq Teacher.editGrade_loop existsb edit_first].
  rewrite run_bind. unfold deref at 1. cbn [objects].
  rewrite list_lookup_middle by reflexivity.
  fold (has_grade_id gradeId g). destruct (has_grade_id gradeId g).
  - cbn [orb]. unfold set_value, set_comment, GradeRepository.as_repo.
    cbn [repo_filePath repo_saveToJSON].
    rewrite !run_bind. cbn [filePath _data files writes objects today].
    unfold read. rewrite !run_bind. cbn [filePath _data files writes objects today].
    rewrite saveToJSON_run. cbn [filePath _data files writes objects today].
    rewrite !alter_app_r_alt by (rewrite ?length_app; lia).
    rewrite Nat.sub_diag. reflexivity.
  - cbn [orb]. specialize (IH (pre ++ [g])).
    rewrite length_app, Nat.add_1_r, <- !app_assoc in IH. exact IH.
Qed.

Lemma from_dict_id (now : string) (gd : json) (g : Grade.t) (n : Z) :
  has_int_id gd = true ->
  Grade.from_dict now gd = Ok g ->
  has_grade_id n g = has_id n gd.
Proof.
  intros Hid Hg. destruct (has_int_id_inv gd Hid) as (d & m & -> & Hd).
  rewrite (Grade_from_dict_contract now d) in Hg.
  destruct (missing Grade_required d); [|discriminate]. injection Hg as <-.
  unfold has_grade_id, has_id, number, field, Grade_of, at_key. cbn [Grade.id].
  rewrite Hd. reflexivity.
Qed.

Lemma existsb_from_dict (now : string) (n : Z) (gs : list json) (found : list Grade.t) :
  forallb has_int_id gs = true ->
  Forall2 (fun gd g => Grade.from_dict now gd = Ok g) gs found ->
  existsb (has_grade_id n) found = existsb (has_id n) gs.
Proof.
  intros Hids H. induction H as [|gd g gs found Hg _ IH]; [reflexivity|].
  cbn [forallb] in Hids. apply andb_prop in Hids as [Hgd Hids].
  cbn [existsb]. rewrite (from_dict_id now gd g n Hgd Hg), (IH Hids). reflexivity.
Qed.

(** X16: [editGrade] through a [GradeRepository], on any store typed as
    in the data model.  It answers [True] exactly when a grade record
    has the id.  The assignments go to the first of the instances that
    [findGrades] made for the call; the store in memory is what it was
    whatever the answer, and on [True] the file is written with that
    unchanged store.  On [False] nothing is written. *)
Theorem editGrade_with_repository (lower : string -> string) (self : Teacher.t)
  (gradeId newValue : Z) (comment : string) (w : World) (ss ds gs : list json) :
  collection "students" w = Some ss ->
  collection "disciplines" w = Some ds ->
  collection "grades" w = Some gs ->
  forallb student_ok ss = true ->
  forallb discipline_ok ds = true ->
  forallb grade_ok gs = true ->
  forallb has_int_id gs = true ->
  exists (found : list Grade.t) (w' : World),
    Forall2 (fun gd g => Grade.from_dict (today w) gd = Ok g) gs found /\
    Teacher.editGrade self gradeId newValue comment (GradeRepository.as_repo lower) w
    = (Ok (existsb (has_id gradeId) gs), w') /\
    _data w' = _data w /\ filePath w' = filePath w /\
    if existsb (has_id gradeId) gs
    then files w' = <[filePath w := Json.dumps (_data w)]> (files w) /\
         writes w' = writes w ++ [filePath w] /\
         objects w' = objects w ++ edit_first gradeId (JInt newValue) (JStr comment) found
    else files w' = files w /\ writes w' = writes w /\
         objects w' = objects w ++ found.
Proof.
  intros Hss Hds Hgs Hsok Hdok Hgok Hids.
  destruct (findGrades_run lower Search.empty w ss ds gs Hss Hds Hgs Hsok Hdok Hgok)
    as (selected & found & Hrun & Hsel & Hfound).
  apply Selected_all in Hsel; [|intros gd; apply satisfies_empty]. subst selected.
  exists found.
  unfold Teacher.editGrade. cbn [repo_findGrades GradeRepository.as_repo].
  rewrite run_bind. fold (GradeRepository.as_repo lower). rewrite Hrun.
  unfold with_objects.
  rewrite (editGrade_loop_run lower gradeId newValue comment).
  rewrite (existsb_from_dict (today w) gradeId gs found Hids Hfound).
  destruct (existsb (has_id gradeId) gs); eexists; (split; [exact Hfound|]);
    (split; [reflexivity|]); cbn [_data filePath files writes objects];
    repeat split; reflexivity.
Qed.

(** ** The grades of a student *)

(** X17: [getGrades] searches by the student's full name, not by the
    student's id.  With a [GradeRepository] on a typed store, it returns
    new instances of exactly the grades whose student (the record the
    grade's [studentId] resolves to) has a full name that contains this
    student's full name, case aside: the grades of a namesake, or of a
    student whose name extends this one, are returned as well, and a
    student with an empty name gets every grade.  The store is left as
    it was. *)
Theorem getGrades_by_name (lower : string -> string) (self : Student.t)
  (name : string) (w : World) (ss ds gs : list json) :
  Student.fullName self = JStr name ->
  collection "students" w = Some ss ->
  collection "disciplines" w = Some ds ->
  collection "grades" w = Some gs ->
  forallb student_ok ss = true ->
  forallb discipline_ok ds = true ->
  forallb grade_ok gs = true ->
  exists (refs : list nat) (w' : World) (selected : list json),
    Student.getGrades self (GradeRepository.as_repo lower) w = (Ok refs, w') /\
    Selected (named_like lower name ss) gs selected /\
    (forall gd, gd ∈ selected <-> gd ∈ gs /\ named_like lower name ss gd) /\
    (name = "" -> selected = gs) /\
    Forall2 (fun gd r => exists g, objects w' !! r = Some g /\
                                   Grade.from_dict (today w) gd = Ok g)
      selected refs /\
    same_store w w'.
Proof.
  intros Hname Hss Hds Hgs Hsok Hdok Hgok.
  destruct (findGrades_run lower (Search.mk name "" None "") w ss ds gs
              Hss Hds Hgs Hsok Hdok Hgok)
    as (selected & found & Hrun & Hsel & Hfound).
  assert (Hiff : forall gd,
            satisfies lower (Search.mk name "" None "") ss ds gd
            <-> named_like lower name ss gd).
  { intros gd. unfold satisfies, named_like. cbn. split.
    - intros (H & _). exact H.
    - intros H. repeat split; [exact H | congruence | discriminate | congruence]. }
  assert (Hsel' : Selected (named_like lower name ss) gs selected).
  { clear -Hsel Hiff. induction Hsel as [|gd l l' Hgd _ IH|gd l l' Hgd _ IH].
    - constructor.
    - apply Selected_keep; [apply Hiff; exact Hgd | exact IH].
    - apply Selected_drop; [intros H; apply Hgd, Hiff, H | exact IH]. }
  exists (seq (length (objects w)) (length found)), (with_objects w (objects w ++ found)),
    selected.
  split.
  { unfold Student.getGrades. rewrite Hname.
    cbn [repo_findGrades GradeRepository.as_repo]. exact Hrun. }
  split; [exact Hsel'|].
  split; [apply Selected_elem_of; exact Hsel'|].
  split.
  { intros ->. apply (Selected_all (named_like lower "" ss)); [|exact Hsel'].
    intros gd H. destruct (H eq_refl). }
  split; [apply found_by_reference; exact Hfound|].
  repeat split.
Qed.

(** ** Grades whose student or discipline is not stored *)

Lemma substring_of_empty (a : string) : substring_of a "" -> a = "".
Proof.
  intros (pre & post & H). destruct pre; [|discriminate].
  destruct a; [reflexivity | discriminate].
Qed.

Lemma resolve_absent (records : list json) (n : Z) :
  existsb (has_id n) records = false -> resolve records (Some n) = JDict [].
Proof.
  intros H. unfold resolve.
  replace (List.filter (has_id n) records) with (@nil json); [reflexivity|].
  induction records as [|r records IH]; [reflexivity|].
  cbn [existsb] in H. apply orb_false_elim in H as [Hr Hrs].
  cbn [List.filter]. rewrite Hr. apply IH, Hrs.
Qed.

(** X18: a grade whose student or discipline is not stored is joined
    with the empty record, so a filter on what that record would say
    leaves it out.  With a student-name filter every grade returned has
    its student in the store; with a discipline-name or a semester
    filter, its discipline.  ([lower] maps the empty text to itself and
    the filter to a text that is not empty, as [str.lower] does.) *)
Theorem findGrades_skips_orphans (lower : string -> string) (criteria : Search.t)
  (w : World) (ss ds gs : list json) :
  lower "" = "" ->
  collection "students" w = Some ss ->
  collection "disciplines" w = Some ds ->
  collection "grades" w = Some gs ->
  forallb student_ok ss = true ->
  forallb discipline_ok ds = true ->
  forallb grade_ok gs = true ->
  exists (refs : list nat) (w' : World) (selected : list json),
    GradeRepository.findGrades lower criteria w = (Ok refs, w') /\
    Forall2 (fun gd r => exists g, objects w' !! r = Some g /\
                                   Grade.from_dict (today w) gd = Ok g)
      selected refs /\
    (lower (Search.studentName criteria) <> "" ->
     forall gd, gd ∈ selected ->
       exists n, number gd "studentId" = Some n /\ existsb (has_id n) ss = true) /\
    (lower (Search.disciplineName criteria) <> "" \/ Search.semester criteria <> None ->
     forall gd, gd ∈ selected ->
       exists n, number gd "disciplineId" = Some n /\ existsb (has_id n) ds = true).
Proof.
  intros Hlow Hss Hds Hgs Hsok Hdok Hgok.
  destruct (findGrades_run lower criteria w ss ds gs Hss Hds Hgs Hsok Hdok Hgok)
    as (selected & found & Hrun & Hsel & Hfound).
  eexists _, _, selected. split; [exact Hrun|].
  split; [apply found_by_reference; exact Hfound|].
  assert (Hin : forall gd, gd ∈ selected ->
            satisfies lower criteria ss ds gd /\
            exists a b, number gd "studentId" = Some a /\
                        number gd "disciplineId" = Some b).
  { intros gd Hgd. apply (Selected_elem_of _ _ _ Hsel) in Hgd as [Hgd Hsat].
    split; [exact Hsat|].
    rewrite forallb_forall in Hgok. apply list_elem_of_In, Hgok in Hgd.
    destruct (grade_ok_inv gd Hgd) as (d & a & b & t & -> & Ha & Hb & _).
    exists a, b. unfold number, field. rewrite Ha, Hb. auto. }
  split.
  - intros Hname gd Hgd.
    destruct (Hin gd Hgd) as ((Hs & _) & a & b & Ha & _).
    exists a. split; [exact Ha|].
    destruct (existsb (has_id a) ss) eqn:E; [reflexivity|]. exfalso.
    rewrite Ha, (resolve_absent ss a E) in Hs. unfold ci_substring in Hs.
    cbn [text field dict_lookup] in Hs. rewrite Hlow in Hs.
    apply Hname, substring_of_empty, Hs.
    intros Heq. apply Hname. rewrite Heq. exact Hlow.
  - intros Hfilter gd Hgd.
    destruct (Hin gd Hgd) as ((_ & Hd & Hsem & _) & a & b & _ & Hb).
    exists b. split; [exact Hb|].
    destruct (existsb (has_id b) ds) eqn:E; [reflexivity|]. exfalso.
    rewrite Hb, (resolve_absent ds b E) in Hd, Hsem.
    destruct Hfilter as [Hname|Hsome].
    + unfold ci_substring in Hd. cbn [text field dict_lookup] in Hd.
      rewrite Hlow in Hd.
      apply Hname, substring_of_empty, Hd.
      intros Heq. apply Hname. rewrite Heq. exact Hlow.
    + destruct (Search.semester criteria) as [n|]; [|congruence].
      specialize (Hsem n eq_refl). discriminate Hsem.
Qed.

(** ** The further properties at work on the seed *)

(** The first member leaves the group of the seed. *)
Lemma removeStudent_first_occurrence_witness :
  Group._studentIds seed_group = JList (map JInt [1; 2]) /\
  (1 ∉ [1; 2] -> Group.removeStudent seed_group 1 = Ok (seed_group, false)) /\
  (1 ∈ [1; 2] ->
   exists before after,
     [1; 2] = before ++ 1 :: after /\ (1 ∉ before) /\
     Group.removeStudent seed_group 1
     = Ok (with_members seed_group (before ++ after), true) /\
     (NoDup [1; 2] ->
      NoDup (before ++ after) /\ (1 ∉ (before ++ after)) /\
      forall x, x <> 1 -> (x ∈ (before ++ after) <-> x ∈ [1; 2]))).
Proof.
  split; [reflexivity|].
  apply (removeStudent_first_occurrence seed_group [1; 2] 1). reflexivity.
Defined.

(** A newcomer is added to the group of the seed and removed again. *)
Lemma removeStudent_after_addStudent_witness :
  let s := Student.mk (JInt 99) (JStr "Новый") (JStr "n@n.ru") (JStr "h") (JStr "0")
             (JStr "X") in
  (Group._studentIds seed_group = JList (map JInt [1; 2]) /\
   Student.id s = JInt 99 /\ 99 ∉ [1; 2]) /\
  exists g1,
    Group.addStudent seed_group s = Ok g1 /\
    Group._studentIds g1 = JList (map JInt ([1; 2] ++ [99])) /\
    Group.removeStudent g1 99 = Ok (seed_group, true).
Proof.
  intros s.
  assert (Hn : 99 ∉ [1; 2]) by (apply (bool_decide_unpack _); vm_compute; exact I).
  split; [split; [reflexivity | split; [reflexivity | exact Hn]]|].
  apply (removeStudent_after_addStudent seed_group s [1; 2] 99);
    [reflexivity | reflexivity | exact Hn].
Defined.

(** The second student of the seed is found behind the first. *)
Lemma getById_first_match_witness :
  let before := take 1 seed_students in
  let rest := drop 1 seed_students in
  scan_stops 2 before rest /\
  collection "students" seed_world = Some (before ++ rest) /\
  GradeRepository.getStudentById 2 seed_world
  = (scan_answer Student.from_dict rest, seed_world).
Proof.
  intros before rest.
  assert (Hscan : scan_stops 2 before rest) by (repeat split; reflexivity).
  split; [exact Hscan|]. split; [reflexivity|].
  apply (getById_first_match seed_world 2 before rest Hscan). reflexivity.
Defined.

Lemma search_joins_last_getter_first_witness :
  forallb has_int_id seed_students = true /\
  exists idx,
    index_by_id seed_students [] = Ok idx /\
    (forall n,
       index_get idx (JInt n) (JDict [])
       = Ok (default (JDict []) (last (List.filter (has_id n) seed_students))) /\
       GradeRepository.first_by_id seed_students n
       = Ok (head (List.filter (has_id n) seed_students)) /\
       (existsb (has_id n) seed_students = false ->
        index_get idx (JInt n) (JDict []) = Ok (JDict []) /\
        GradeRepository.first_by_id seed_students n = Ok None)) /\
    (NoDup (ids_of seed_students) ->
     forall n s, GradeRepository.first_by_id seed_students n = Ok (Some s) ->
                 index_get idx (JInt n) (JDict []) = Ok s).
Proof.
  split; [reflexivity|].
  apply (search_joins_last_getter_first seed_students). reflexivity.
Defined.

(** The repository of [test_empty_repo_no_file]. *)
Lemma init_without_file_witness :
  let w' := mkWorld "new_data.json" empty_store (files blank) (writes blank)
              (objects blank) (today blank) in
  files blank !! "new_data.json" = None /\
  GradeRepository.__init__ "new_data.json" blank = (Ok tt, w') /\
  GradeRepository.nextGradeId w' = (Ok 1, w') /\
  (forall criteria, GradeRepository.findGrades simple_lower criteria w' = (Ok [], w')) /\
  GradeRepository.getStudents w' = (Ok [], w') /\
  GradeRepository.getTeachers w' = (Ok [], w') /\
  GradeRepository.getDisciplines w' = (Ok [], w') /\
  GradeRepository.getGroups w' = (Ok [], w') /\
  (forall n, GradeRepository.getGradeById n w' = (Ok None, w')) /\
  (forall n, GradeRepository.removeGrade n w' = (Ok false, w')).
Proof.
  intros w'. split; [reflexivity|].
  apply (init_without_file simple_lower "new_data.json" blank). reflexivity.
Defined.

(** The grade of [test_add_grade_persists], submitted by the teacher of
    the seed. *)
Lemma submitGrade_survives_reload_witness :
  (collection "grades" seed_world = Some seed_grades /\
   valid (_data seed_world) = true /\
   valid (Grade.to_dict new_grade) = true) /\
  exists w1,
    Teacher.submitGrade seed_teacher new_grade (GradeRepository.as_repo simple_lower)
      seed_world = (Ok tt, w1) /\
    filePath w1 = filePath seed_world /\
    synced w1 /\ valid (_data w1) = true /\
    collection "grades" w1 = Some (seed_grades ++ [Grade.to_dict new_grade]) /\
    GradeRepository.__init__ (filePath seed_world) w1 = (Ok tt, w1).
Proof.
  split; [repeat split; reflexivity|].
  apply (submitGrade_survives_reload simple_lower seed_teacher new_grade seed_world
           seed_grades); reflexivity.
Defined.

Lemma removeGrade_survives_reload_witness :
  (collection "grades" seed_world = Some seed_grades /\
   forallb has_int_id seed_grades = true /\
   valid (_data seed_world) = true) /\
  exists w1,
    GradeRepository.removeGrade 1 seed_world
    = (Ok (existsb (has_id 1) seed_grades), w1) /\
    filePath w1 = filePath seed_world /\
    valid (_data w1) = true /\
    collection "grades" w1
    = Some (List.filter (fun g => negb (has_id 1 g)) seed_grades) /\
    (existsb (has_id 1) seed_grades = true \/ synced seed_world ->
     synced w1 /\ GradeRepository.__init__ (filePath seed_world) w1 = (Ok tt, w1)).
Proof.
  split; [repeat split; reflexivity|].
  apply (removeGrade_survives_reload 1 seed_world seed_grades); reflexivity.
Defined.

(** The seed has the grades 1, 2 and 3; the next one is 4, then 5. *)
Lemma nextGradeId_then_addGrade_witness :
  (collection "grades" seed_world = Some seed_grades /\
   forallb has_int_id seed_grades = true /\
   NoDup (ids_of seed_grades) /\
   GradeRepository.nextGradeId seed_world = (Ok 4, seed_world) /\
   Grade.id new_grade = JInt 4) /\
  exists w1 gs1,
    GradeRepository.addGrade new_grade seed_world = (Ok tt, w1) /\
    collection "grades" w1 = Some gs1 /\
    forallb has_int_id gs1 = true /\
    ids_of gs1 = ids_of seed_grades ++ [4] /\
    NoDup (ids_of gs1) /\
    (forall i, i ∈ ids_of seed_grades -> i < 4) /\
    GradeRepository.nextGradeId w1 = (Ok (4 + 1), w1).
Proof.
  assert (Hnd : NoDup (ids_of seed_grades))
    by (apply (bool_decide_unpack _); vm_compute; exact I).
  split; [repeat split; try reflexivity; exact Hnd|].
  apply (nextGradeId_then_addGrade new_grade 4 seed_world seed_grades);
    try reflexivity; exact Hnd.
Defined.

Lemma getGradeById_after_addGrade_witness :
  (collection "grades" seed_world = Some seed_grades /\
   forallb has_int_id seed_grades = true /\
   Grade.id new_grade = JInt 4 /\
   (4 ∉ ids_of seed_grades) /\
   Grade.date new_grade <> JNull) /\
  exists w1,
    GradeRepository.addGrade new_grade seed_world = (Ok tt, w1) /\
    GradeRepository.getGradeById 4 w1
    = (Ok (Some (length (objects seed_world))),
       with_objects w1 (objects seed_world ++ [new_grade])).
Proof.
  assert (Hn : 4 ∉ ids_of seed_grades)
    by (apply (bool_decide_unpack _); vm_compute; exact I).
  assert (Hd : Grade.date new_grade <> JNull) by discriminate.
  split; [repeat split; try reflexivity; assumption|].
  apply (getGradeById_after_addGrade new_grade 4 seed_world seed_grades);
    try reflexivity; assumption.
Defined.

Lemma removeGrade_twice_witness :
  (collection "grades" seed_world = Some seed_grades /\
   forallb has_int_id seed_grades = true) /\
  exists b w1,
    GradeRepository.removeGrade 1 seed_world = (Ok b, w1) /\
    GradeRepository.getGradeById 1 w1 = (Ok None, w1) /\
    GradeRepository.removeGrade 1 w1 = (Ok false, w1).
Proof.
  split; [split; reflexivity|].
  apply (removeGrade_twice 1 seed_world seed_grades); reflexivity.
Defined.

Lemma removeGrade_undoes_addGrade_witness :
  (collection "grades" seed_world = Some seed_grades /\
   forallb has_int_id seed_grades = true /\
   Grade.id new_grade = JInt 4 /\
   (4 ∉ ids_of seed_grades)) /\
  exists w1 w2,
    GradeRepository.addGrade new_grade seed_world = (Ok tt, w1) /\
    GradeRepository.removeGrade 4 w1 = (Ok true, w2) /\
    _data w2 = _data seed_world /\
    filePath w2 = filePath seed_world /\
    files w2 = <[filePath seed_world := Json.dumps (_data seed_world)]> (files seed_world) /\
    writes w2 = writes seed_world ++ [filePath seed_world; filePath seed_world] /\
    objects w2 = objects seed_world.
Proof.
  assert (Hn : 4 ∉ ids_of seed_grades)
    by (apply (bool_decide_unpack _); vm_compute; exact I).
  split; [repeat split; try reflexivity; assumption|].
  apply (removeGrade_undoes_addGrade new_grade 4 seed_world seed_grades);
    try reflexivity; assumption.
Defined.

(** The edit of [test_edit_grade_success], with the repository of the
    seed in the place of the double. *)
Lemma editGrade_with_repository_witness :
  (collection "students" seed_world = Some seed_students /\
   collection "disciplines" seed_world = Some seed_disciplines /\
   collection "grades" seed_world = Some seed_grades /\
   forallb student_ok seed_students = true /\
   forallb discipline_ok seed_disciplines = true /\
   forallb grade_ok seed_grades = true /\
   forallb has_int_id seed_grades = true) /\
  exists (found : list Grade.t) (w' : World),
    Forall2 (fun gd g => Grade.from_dict (today seed_world) gd = Ok g) seed_grades found /\
    Teacher.editGrade seed_teacher 1 3 "Пересдача" (GradeRepository.as_repo simple_lower)
      seed_world
    = (Ok (existsb (has_id 1) seed_grades), w') /\
    _data w' = _data seed_world /\ filePath w' = filePath seed_world /\
    if existsb (has_id 1) seed_grades
    then files w' = <[filePath seed_world := Json.dumps (_data seed_world)]>
                      (files seed_world) /\
         writes w' = writes seed_world ++ [filePath seed_world] /\
         objects w' = objects seed_world ++
                      edit_first 1 (JInt 3) (JStr "Пересдача") found
    else files w' = files seed_world /\ writes w' = writes seed_world /\
         objects w' = objects seed_world ++ found.
Proof.
  split; [repeat split; reflexivity|].
  apply (editGrade_with_repository simple_lower seed_teacher 1 3 "Пересдача" seed_world
           seed_students seed_disciplines seed_grades); reflexivity.
Defined.

(** The grades of the second student of the seed. *)
Lemma getGrades_by_name_witness :
  let name := "Иванова Мария Петровна" in
  (Student.fullName student_2 = JStr name /\
   collection "students" seed_world = Some seed_students /\
   collection "disciplines" seed_world = Some seed_disciplines /\
   collection "grades" seed_world = Some seed_grades /\
   forallb student_ok seed_students = true /\
   forallb discipline_ok seed_disciplines = true /\
   forallb grade_ok seed_grades = true) /\
  exists (refs : list nat) (w' : World) (selected : list json),
    Student.getGrades student_2 (GradeRepository.as_repo simple_lower) seed_world
    = (Ok refs, w') /\
    Selected (named_like simple_lower name seed_students) seed_grades selected /\
    (forall gd, gd ∈ selected <->
                gd ∈ seed_grades /\ named_like simple_lower name seed_students gd) /\
    (name = "" -> selected = seed_grades) /\
    Forall2 (fun gd r => exists g, objects w' !! r = Some g /\
                                   Grade.from_dict (today seed_world) gd = Ok g)
      selected refs /\
    same_store seed_world w'.
Proof.
  intros name. split; [repeat split; reflexivity|].
  apply (getGrades_by_name simple_lower student_2 name seed_world
           seed_students seed_disciplines seed_grades); reflexivity.
Defined.

Lemma findGrades_skips_orphans_witness :
  let criteria := Search.mk "Иванова" "" (Some 3) "" in
  (simple_lower "" = "" /\
   collection "students" seed_world = Some seed_students /\
   collection "disciplines" seed_world = Some seed_disciplines /\
   collection "grades" seed_world = Some seed_grades /\
   forallb student_ok seed_students = true /\
   forallb discipline_ok seed_disciplines = true /\
   forallb grade_ok seed_grades = true) /\
  exists (refs : list nat) (w' : World) (selected : list json),
    GradeRepository.findGrades simple_lower criteria seed_world = (Ok refs, w') /\
    Forall2 (fun gd r => exists g, objects w' !! r = Some g /\
                                   Grade.from_dict (today seed_world) gd = Ok g)
      selected refs /\
    (simple_lower (Search.studentName criteria) <> "" ->
     forall gd, gd ∈ selected ->
       exists n, number gd "studentId" = Some n /\
                 existsb (has_id n) seed_students = true) /\
    (simple_lower (Search.disciplineName criteria) <> "" \/
     Search.semester criteria <> None ->
     forall gd, gd ∈ selected ->
       exists n, number gd "disciplineId" = Some n /\
                 existsb (has_id n) seed_disciplines = true).
Proof.
  intros criteria. split; [repeat split; reflexivity|].
  apply (findGrades_skips_orphans simple_lower criteria seed_world
           seed_students seed_disciplines seed_grades); reflexivity.
Defined.
